(** * Virtual-memory / cache simulator: a shallow embedding of the Python code

    The development follows the source files:
    - [PageTable.py]                         -> [Module PageTable]
    - [memory_management_unit.py]            -> [Module Memory], [Module MMU]
    - [cache_system.py]                      -> [Module OrderedDict], [Module CacheSet],
                                                [Module SetAssociativeCache], [Module CacheSystem]
    - [TestNwaySetAssociativeCacheWithLRU.py] -> [Module LruTest]

    Python integers are [Z]; dictionaries keyed by integers are [gmap Z _];
    an [OrderedDict] is an association list in insertion order; a block
    (a Python [dict] object that several caches may hold at once) lives in a
    heap and is named by its location, so that mutation through one holder is
    seen by every other holder. Exceptions are the [Raise] case of [result]. *)

From stdpp Require Import gmap list fin_maps strings.
From Stdlib Require Import ZArith Lia.

Local Open Scope Z_scope.

(** ** Python values, exceptions, integer primitives *)

(** Object identities of the dicts on the heap. *)
Abbreviation loc := positive.

Inductive pyval :=
| PyNone
| PyBool (b : bool)
| PyInt (z : Z)
| PyBytes (bs : list Z)
| PyDict (l : loc).

Inductive exn :=
| KeyError
| ValueError
| IndexError
| ZeroDivisionError
| MemoryError.

Inductive result (A : Type) :=
| Ok (a : A)
| Raise (e : exn).
Arguments Ok {A} a.
Arguments Raise {A} e.

Definition rbind {A B} (r : result A) (k : A -> result B) : result B :=
  match r with
  | Ok a => k a
  | Raise e => Raise e
  end.

Notation "x <- r ;; k" := (rbind r (fun x => k))
  (at level 100, r at next level, right associativity).

(** [x is None] *)
Definition is_none (v : pyval) : bool :=
  match v with
  | PyNone => true
  | _ => false
  end.

(** [int.bit_length()]: number of bits of the absolute value, 0 for 0. *)
Definition bit_length (z : Z) : Z :=
  match z with
  | Z0 => 0
  | Zpos p => Z.pos (Pos.size p)
  | Zneg p => Z.pos (Pos.size p)
  end.

(** [a >> n] and [a << n] raise ValueError on a negative shift count. *)
Definition py_rshift (a n : Z) : result Z :=
  if n <? 0 then Raise ValueError else Ok (Z.shiftr a n).

Definition py_lshift (a n : Z) : result Z :=
  if n <? 0 then Raise ValueError else Ok (Z.shiftl a n).

(** [a // b] and [a % b] are floor division and its remainder. *)
Definition py_floordiv (a b : Z) : result Z :=
  if b =? 0 then Raise ZeroDivisionError else Ok (a / b).

Definition py_mod (a b : Z) : result Z :=
  if b =? 0 then Raise ZeroDivisionError else Ok (a mod b).

(** [l[i]] on a Python list of length [len]: a negative index counts from
    the end, an index out of range raises IndexError. *)
Definition py_norm_index (len : nat) (i : Z) : result nat :=
  let j := if i <? 0 then Z.of_nat len + i else i in
  if (j <? 0) || (Z.of_nat len <=? j) then Raise IndexError else Ok (Z.to_nat j).

Definition py_index {A} (l : list A) (i : Z) : result A :=
  match py_norm_index (length l) i with
  | Raise e => Raise e
  | Ok n =>
      match l !! n with
      | Some x => Ok x
      | None => Raise IndexError
      end
  end.

(** The heap of block objects: every Python [dict] used as a block. Keys are
    the integer offsets. *)
Abbreviation block := (gmap Z pyval).
Abbreviation heap := (gmap loc block).

(** The dict a location names. Every reference the program holds is
    allocated; a location outside the heap is read as the empty dict. *)
Definition deref (h : heap) (l : loc) : block := default ∅ (h !! l).

(** [d[k] = v] on the dict object at [l]. *)
Definition dict_setitem (h : heap) (l : loc) (k : Z) (v : pyval) : heap :=
  <[l := <[k := v]> (deref h l)]> h.

(** [d.get(k, None)] on the dict object at [l]. *)
Definition dict_get (h : heap) (l : loc) (k : Z) : pyval :=
  default PyNone (deref h l !! k).

(** A value is well formed in a heap when the dict it names is allocated. *)
Definition val_wf (h : heap) (v : pyval) : Prop :=
  match v with
  | PyDict l => l ∈ dom h
  | _ => True
  end.

(** ** PageTable.py *)

Module PageTable.

Record t := mk {
  entries : gmap Z Z;
  PAGE_SIZE_KiB : Z;
  page_size : Z
}.

Definition __init__ (kib : Z) : t :=
  {| entries := ∅; PAGE_SIZE_KiB := kib; page_size := kib * 1024 |}.

Definition set_entries (pt : t) (e : gmap Z Z) : t :=
  {| entries := e; PAGE_SIZE_KiB := PAGE_SIZE_KiB pt; page_size := page_size pt |}.

Definition add_entry (pt : t) (vpn ppn : Z) : t :=
  set_entries pt (<[vpn := ppn]> (entries pt)).

Definition get_physical_page_number (pt : t) (vpn : Z) : option Z :=
  entries pt !! vpn.

Definition remove_entry (pt : t) (vpn : Z) : t :=
  match entries pt !! vpn with
  | Some _ => set_entries pt (delete vpn (entries pt))
  | None => pt
  end.

(** Returns the outcome and the page table after the call. *)
Definition update_entry (pt : t) (vpn ppn : Z) : result unit * t :=
  match entries pt !! vpn with
  | Some _ => (Ok tt, set_entries pt (<[vpn := ppn]> (entries pt)))
  | None => (Raise KeyError, pt)
  end.

Definition clear (pt : t) : t := set_entries pt ∅.

End PageTable.

(** ** memory_management_unit.py: the backing store *)

Module Memory.

Record t := mk {
  size_byte : Z;
  storage : gmap Z pyval
}.

Definition __init__ (size : Z) : t :=
  {| size_byte := size; storage := ∅ |}.

(** [storage.get(physical_address, None)]; both branches of the
    [if data is None] test return that value. *)
Definition read (m : t) (physical_address : Z) : pyval :=
  let data := default PyNone (storage m !! physical_address) in
  if is_none data then PyNone else data.

Definition write (m : t) (physical_address : Z) (data : pyval) : t :=
  {| size_byte := size_byte m; storage := <[physical_address := data]> (storage m) |}.

(** [{i: b"data" + bytes([i]) for i in range(block_size)}] *)
Definition block_data (block_size : Z) : block :=
  list_to_map ((fun i => (i, PyBytes [100; 97; 116; 97; i])) <$> seqZ 0 block_size).

(** [get_block(address, block_size=16)]: the dict comprehension allocates
    a new dict object, which is then stored at [address] and returned.
    [address % block_size] raises for a zero block size and [bytes([i])]
    for [i] outside [range(256)]. *)
Definition get_block (m : t) (h : heap) (address block_size : Z)
  : result pyval * (t * heap) :=
  match py_mod address block_size with
  | Raise e => (Raise e, (m, h))
  | Ok _ =>
      if 256 <? block_size then (Raise ValueError, (m, h))
      else
        let l := fresh (dom h) in
        let h' := <[l := block_data block_size]> h in
        let m' := {| size_byte := size_byte m;
                     storage := <[address := PyDict l]> (storage m) |} in
        (Ok (PyDict l), (m', h'))
  end.

Definition write_data (m : t) (address : Z) (data : pyval) : t :=
  {| size_byte := size_byte m; storage := <[address := data]> (storage m) |}.

End Memory.

(** ** cache_system.py *)

(** [collections.OrderedDict] with integer keys: the association list of its
    items, oldest first. *)
Module OrderedDict.

Section ops.
Context {V : Type}.

Fixpoint get (d : list (Z * V)) (k : Z) : option V :=
  match d with
  | [] => None
  | (k', v) :: d' => if k' =? k then Some v else get d' k
  end.

Definition contains (d : list (Z * V)) (k : Z) : bool :=
  match get d k with
  | Some _ => true
  | None => false
  end.

(** Dropping a key; the keys of a dict are unique, so at most one item goes. *)
Fixpoint remove (d : list (Z * V)) (k : Z) : list (Z * V) :=
  match d with
  | [] => []
  | (k', v) :: d' => if k' =? k then remove d' k else (k', v) :: remove d' k
  end.

Fixpoint replace (d : list (Z * V)) (k : Z) (v : V) : list (Z * V) :=
  match d with
  | [] => []
  | (k', v') :: d' => if k' =? k then (k', v) :: d' else (k', v') :: replace d' k v
  end.

(** [d[k] = v]: an existing key keeps its position, a new one goes last. *)
Definition setitem (d : list (Z * V)) (k : Z) (v : V) : list (Z * V) :=
  if contains d k then replace d k v else d ++ [(k, v)].

(** [d.move_to_end(k)] *)
Definition move_to_end (d : list (Z * V)) (k : Z) : result (list (Z * V)) :=
  match get d k with
  | Some v => Ok (remove d k ++ [(k, v)])
  | None => Raise KeyError
  end.

(** [d.popitem(last=False)] *)
Definition popitem_first (d : list (Z * V)) : result ((Z * V) * list (Z * V)) :=
  match d with
  | [] => Raise KeyError
  | kv :: d' => Ok (kv, d')
  end.

(** [del d[k]] *)
Definition delitem (d : list (Z * V)) (k : Z) : result (list (Z * V)) :=
  match get d k with
  | Some _ => Ok (remove d k)
  | None => Raise KeyError
  end.

Definition keys (d : list (Z * V)) : list Z := d.*1.
End ops.

End OrderedDict.

Module CacheSet.

Record t := mk {
  entries : list (Z * loc);
  n_way : Z;
  block_size : Z
}.

(** [CacheSet(n_way, block_size=16)] *)
Definition __init__ (n_way block_size : Z) : t :=
  {| entries := []; n_way := n_way; block_size := block_size |}.

Definition set_entries (s : t) (e : list (Z * loc)) : t :=
  {| entries := e; n_way := n_way s; block_size := block_size s |}.

Definition check_hit (s : t) (tag : Z) : bool :=
  OrderedDict.contains (entries s) tag.

Definition access (s : t) (tag : Z) : pyval * t :=
  match OrderedDict.get (entries s) tag with
  | Some l => (PyDict l, set_entries s (OrderedDict.remove (entries s) tag ++ [(tag, l)]))
  | None => (PyNone, s)
  end.

(** Both [ValueError]s and the [KeyError] of [popitem] on an empty
    OrderedDict are raised before anything is stored. *)
Definition add_or_update (h : heap) (s : t) (tag : Z) (blk : pyval) : result unit * t :=
  match blk with
  | PyDict l =>
      if block_size s <? Z.of_nat (size (deref h l)) then (Raise ValueError, s)
      else if OrderedDict.contains (entries s) tag then
        let e1 := OrderedDict.setitem (entries s) tag l in
        match OrderedDict.move_to_end e1 tag with
        | Ok e2 => (Ok tt, set_entries s e2)
        | Raise e => (Raise e, set_entries s e1)
        end
      else if n_way s <=? Z.of_nat (length (entries s)) then
        match OrderedDict.popitem_first (entries s) with
        | Ok (_, e1) => (Ok tt, set_entries s (OrderedDict.setitem e1 tag l))
        | Raise e => (Raise e, s)
        end
      else (Ok tt, set_entries s (OrderedDict.setitem (entries s) tag l))
  | _ => (Raise ValueError, s)
  end.

Definition get_block (s : t) (tag : Z) : pyval :=
  match OrderedDict.get (entries s) tag with
  | Some l => PyDict l
  | None => PyNone
  end.

(** Returns [None] (falls off the end) after the store when the tag is
    present, [False] otherwise; the set itself is never changed, only the
    block object. *)
Definition write_data (h : heap) (s : t) (tag block_offset : Z) (data : pyval)
  : result pyval * heap :=
  match OrderedDict.get (entries s) tag with
  | Some l => (Ok PyNone, dict_setitem h l block_offset data)
  | None => (Ok (PyBool false), h)
  end.

(** [self.entries[tag].get(offset, None)]: the subscription raises
    [KeyError] for an absent tag. *)
Definition read_data (h : heap) (s : t) (tag offset : Z) : result pyval :=
  match OrderedDict.get (entries s) tag with
  | Some l => Ok (dict_get h l offset)
  | None => Raise KeyError
  end.

End CacheSet.


Module SetAssociativeCache.

Record t := mk {
  n_way : Z;
  line_size : Z;
  num_sets : Z;
  block_size : Z;
  cache_sets : list CacheSet.t;
  cache_type : string;
  offset_bits : Z;
  index_bits : Z;
  level : Z
}.

Definition set_cache_sets (c : t) (sets : list CacheSet.t) : t :=
  {| n_way := n_way c; line_size := line_size c; num_sets := num_sets c;
     block_size := block_size c; cache_sets := sets; cache_type := cache_type c;
     offset_bits := offset_bits c; index_bits := index_bits c; level := level c |}.

(** [SetAssociativeCache(level, size, line_size, n_way, block_size=16,
    cache_type="set_associative")] *)
Definition __init__ (level size line_size n_way block_size : Z) (cache_type : string)
  : result t :=
  num_sets <- (if String.eqb cache_type "fully_associative" then Ok 1
               else py_floordiv size (line_size * n_way)) ;;
  Ok {| n_way := n_way; line_size := line_size; num_sets := num_sets;
        block_size := block_size;
        cache_sets := replicate (Z.to_nat num_sets) (CacheSet.__init__ n_way block_size);
        cache_type := cache_type;
        offset_bits := bit_length block_size - 1;
        index_bits := bit_length num_sets - 1;
        level := level |}.

Definition _get_set_index (c : t) (address : Z) : result Z :=
  if String.eqb (cache_type c) "direct_mapped" || String.eqb (cache_type c) "set_associative"
  then
    hi <- py_rshift address (offset_bits c) ;;
    one <- py_lshift 1 (index_bits c) ;;
    Ok (Z.land hi (one - 1))
  else Ok 0.

Definition get_tag (c : t) (address : Z) : result Z :=
  if String.eqb (cache_type c) "fully_associative" then py_floordiv address (line_size c)
  else
    set_index <- _get_set_index c address ;;
    py_rshift address (bit_length set_index + bit_length (block_size c) - 1).

Definition get_offset (c : t) (address : Z) : result Z :=
  py_mod address (block_size c).

Definition check_hit (c : t) (address : Z) : result (bool * Z) :=
  set_index <- _get_set_index c address ;;
  tag <- get_tag c address ;;
  s <- py_index (cache_sets c) set_index ;;
  Ok (CacheSet.check_hit s tag, level c).

Definition write_block (h : heap) (c : t) (address : Z) (blk : pyval) : result unit * t :=
  match blk with
  | PyDict l =>
      if block_size c <? Z.of_nat (size (deref h l)) then (Raise ValueError, c)
      else
        match _get_set_index c address with
        | Raise e => (Raise e, c)
        | Ok set_index =>
            match get_tag c address with
            | Raise e => (Raise e, c)
            | Ok tag =>
                match py_norm_index (length (cache_sets c)) set_index with
                | Raise e => (Raise e, c)
                | Ok i =>
                    match cache_sets c !! i with
                    | None => (Raise IndexError, c)
                    | Some s =>
                        let '(r, s') := CacheSet.add_or_update h s tag blk in
                        (r, set_cache_sets c (<[i := s']> (cache_sets c)))
                    end
                end
            end
        end
  | _ => (Raise ValueError, c)
  end.

(** The truth value of the pair that [check_hit] returns: a tuple of two
    elements is never empty, so [if self.check_hit(address):] always takes
    the branch. *)
Definition tuple_truth {A B} (p : A * B) : bool := true.

Definition read_data (h : heap) (c : t) (address : Z) : result pyval :=
  hit <- check_hit c address ;;
  if tuple_truth hit then
    set_index <- _get_set_index c address ;;
    tag <- get_tag c address ;;
    block_offset <- get_offset c address ;;
    s <- py_index (cache_sets c) set_index ;;
    CacheSet.read_data h s tag block_offset
  else Ok PyNone.

(** The value [CacheSet.write_data] returns is dropped. *)
Definition write_data (h : heap) (c : t) (address : Z) (data : pyval) : result unit * heap :=
  match _get_set_index c address with
  | Raise e => (Raise e, h)
  | Ok set_index =>
      match get_tag c address with
      | Raise e => (Raise e, h)
      | Ok tag =>
          match get_offset c address with
          | Raise e => (Raise e, h)
          | Ok block_offset =>
              match py_index (cache_sets c) set_index with
              | Raise e => (Raise e, h)
              | Ok s =>
                  match CacheSet.write_data h s tag block_offset data with
                  | (Raise e, h') => (Raise e, h')
                  | (Ok _, h') => (Ok tt, h')
                  end
              end
          end
      end
  end.

Definition get_block (c : t) (address : Z) : result pyval :=
  set_index <- _get_set_index c address ;;
  tag <- get_tag c address ;;
  s <- py_index (cache_sets c) set_index ;;
  Ok (CacheSet.get_block s tag).

End SetAssociativeCache.

Module CacheSystem.

Record t := mk {
  cache_levels : list SetAssociativeCache.t;
  n_way : Z;
  number_levels : Z;
  levels_size : list Z;
  line_size : Z
}.

(** [[SetAssociativeCache(i+1, size, line_size, n_way)
      for i, size in enumerate(levels_size)]], [i] starting at the argument. *)
Fixpoint build_levels (i : Z) (sizes : list Z) (line_size n_way : Z)
  : result (list SetAssociativeCache.t) :=
  match sizes with
  | [] => Ok []
  | size :: sizes' =>
      c <- SetAssociativeCache.__init__ (i + 1) size line_size n_way 16 "set_associative" ;;
      cs <- build_levels (i + 1) sizes' line_size n_way ;;
      Ok (c :: cs)
  end.

(** [CacheSystem(levels_size=None, levels=3, line_size=64, n_way=2)] *)
Definition __init__ (levels_size : option (list Z)) (levels line_size n_way : Z) : result t :=
  let sizes := match levels_size with
               | None => [32 * 1024; 256 * 1024; 2 * 1024 * 1024]
               | Some l => l
               end in
  cl <- build_levels 0 sizes line_size n_way ;;
  Ok {| cache_levels := cl; n_way := n_way; number_levels := levels;
        levels_size := sizes; line_size := line_size |}.

Definition reset_caches (cs : t) : result t :=
  cl <- build_levels 0 (levels_size cs) (line_size cs) (n_way cs) ;;
  Ok {| cache_levels := cl; n_way := n_way cs; number_levels := number_levels cs;
        levels_size := levels_size cs; line_size := line_size cs |}.

Definition configure_cache (cs : t) (l1_size l2_size l3_size n_way : Z) : result t :=
  reset_caches {| cache_levels := cache_levels cs; n_way := n_way;
                  number_levels := number_levels cs;
                  levels_size := [l1_size; l2_size; l3_size];
                  line_size := line_size cs |}.

(** The first level that holds the address, as [(True, level)]; [None]
    stands for the pair [(None, None)]. *)
Fixpoint check_hit_levels (levels : list SetAssociativeCache.t) (address : Z)
  : result (option (bool * Z)) :=
  match levels with
  | [] => Ok None
  | cache :: rest =>
      hit <- SetAssociativeCache.check_hit cache address ;;
      if fst hit then Ok (Some hit) else check_hit_levels rest address
  end.

Definition check_hit (cs : t) (address : Z) : result (option (bool * Z)) :=
  check_hit_levels (cache_levels cs) address.

(** [for level in levels: level.write_data(address, data)]; also the inner
    loop of [read_data] over [cache_levels[0 .. level-1]]. *)
Fixpoint write_levels (h : heap) (levels : list SetAssociativeCache.t) (address : Z)
  (data : pyval) : result unit * heap :=
  match levels with
  | [] => (Ok tt, h)
  | cache :: rest =>
      match SetAssociativeCache.write_data h cache address data with
      | (Raise e, h') => (Raise e, h')
      | (Ok _, h') => write_levels h' rest address data
      end
  end.

(** The loop of [read_data]: [rest] are the levels still to probe and
    [level] the index of the first of them. *)
Fixpoint read_levels (h : heap) (all rest : list SetAssociativeCache.t) (level : nat)
  (address : Z) : result pyval * heap :=
  match rest with
  | [] => (Ok PyNone, h)
  | cache :: rest' =>
      match SetAssociativeCache.read_data h cache address with
      | Raise e => (Raise e, h)
      | Ok data =>
          if is_none data then read_levels h all rest' (S level) address
          else
            match write_levels h (take level all) address data with
            | (Raise e, h') => (Raise e, h')
            | (Ok _, h') => (Ok data, h')
            end
      end
  end.

Definition read_data (h : heap) (cs : t) (address : Z) : result pyval * heap :=
  read_levels h (cache_levels cs) (cache_levels cs) 0 address.

Definition write_data (h : heap) (cs : t) (address : Z) (data : pyval) : result unit * heap :=
  write_levels h (cache_levels cs) address data.

Fixpoint load_levels (h : heap) (levels : list SetAssociativeCache.t) (address : Z)
  (blk : pyval) : result unit * list SetAssociativeCache.t :=
  match levels with
  | [] => (Ok tt, [])
  | cache :: rest =>
      match SetAssociativeCache.write_block h cache address blk with
      | (Raise e, cache') => (Raise e, cache' :: rest)
      | (Ok _, cache') =>
          let '(r, rest') := load_levels h rest address blk in
          (r, cache' :: rest')
      end
  end.

Definition set_cache_levels (cs : t) (cl : list SetAssociativeCache.t) : t :=
  {| cache_levels := cl; n_way := n_way cs; number_levels := number_levels cs;
     levels_size := levels_size cs; line_size := line_size cs |}.

Definition load_block (h : heap) (cs : t) (address : Z) (blk : pyval) : result unit * t :=
  let '(r, cl) := load_levels h (cache_levels cs) address blk in
  (r, set_cache_levels cs cl).

End CacheSystem.

(** ** memory_management_unit.py: the MMU *)

Module MMU.

Record t := mk {
  tlb : gmap Z Z;
  page_table : PageTable.t;
  cache_system : CacheSystem.t;
  memory : Memory.t;
  is_palt : bool
}.

(** [MMU(page_table, cache_system, memory, tlb=None)]; [tlb or {}] takes a
    new empty dict for [None] and for an empty dict alike. *)
Definition __init__ (pt : PageTable.t) (cs : CacheSystem.t) (mem : Memory.t)
  (tlb : option (gmap Z Z)) : t :=
  {| tlb := default ∅ tlb; page_table := pt; cache_system := cs; memory := mem;
     is_palt := false |}.

Definition set_is_palt (m : t) (b : bool) : t :=
  {| tlb := tlb m; page_table := page_table m; cache_system := cache_system m;
     memory := memory m; is_palt := b |}.

Definition set_page_table (m : t) (pt : PageTable.t) : t :=
  {| tlb := tlb m; page_table := pt; cache_system := cache_system m;
     memory := memory m; is_palt := is_palt m |}.

Definition set_tlb (m : t) (tl : gmap Z Z) : t :=
  {| tlb := tl; page_table := page_table m; cache_system := cache_system m;
     memory := memory m; is_palt := is_palt m |}.

Definition set_cache_system (m : t) (cs : CacheSystem.t) : t :=
  {| tlb := tlb m; page_table := page_table m; cache_system := cs;
     memory := memory m; is_palt := is_palt m |}.

Definition set_memory (m : t) (mem : Memory.t) : t :=
  {| tlb := tlb m; page_table := page_table m; cache_system := cache_system m;
     memory := mem; is_palt := is_palt m |}.

(** [rnd] is the number [np.random.randint(0x1000, 0xFFFFF)] draws. *)
Definition handle_page_fault (m : t) (virtual_page_number rnd : Z) : option Z * t :=
  let physical_page_number := rnd in
  (Some physical_page_number,
   set_page_table m (PageTable.add_entry (page_table m) virtual_page_number physical_page_number)).

Definition update_tlb (m : t) (virtual_address physical_address : Z) : Z * t :=
  (physical_address, set_tlb m (<[virtual_address := physical_address]> (tlb m))).

(** The shift counts are bit lengths, hence never negative. *)
Definition translate_address (m : t) (virtual_address rnd : Z) : result Z * t :=
  let m := set_is_palt m false in
  match tlb m !! virtual_address with
  | Some pa => (Ok pa, m)
  | None =>
      let page_size := PageTable.page_size (page_table m) in
      let offset := Z.land virtual_address (page_size - 1) in
      let offset_bits := bit_length (page_size - 1) in
      let virtual_page_number := Z.shiftr virtual_address offset_bits in
      let '(physical_page_number, m) :=
        match PageTable.get_physical_page_number (page_table m) virtual_page_number with
        | None => handle_page_fault (set_is_palt m true) virtual_page_number rnd
        | Some ppn => (Some ppn, m)
        end in
      match physical_page_number with
      | Some ppn =>
          let physical_address := Z.lor (Z.shiftl ppn offset_bits) offset in
          let '(_, m) := update_tlb m virtual_address physical_address in
          (Ok physical_address, m)
      | None => (Raise MemoryError, m)
      end
  end.

Record operation_result := mk_result {
  cache_hit : pyval;
  page_fault : bool;
  physical_address : option Z;
  data : pyval
}.

(** [input_data=None] is a read. Of the calls inside the [try] only
    [translate_address] can raise [MemoryError], which the handler turns into
    a result with [page_fault] set; any other exception leaves the method. *)
Definition process_virtual_address (m : t) (h : heap) (virtual_address : Z)
  (input_data : pyval) (rnd : Z) : result operation_result * (t * heap) :=
  match translate_address m virtual_address rnd with
  | (Raise MemoryError, m) =>
      (Ok {| cache_hit := PyBool false; page_fault := true;
             physical_address := None; data := PyNone |}, (m, h))
  | (Raise e, m) => (Raise e, (m, h))
  | (Ok pa, m) =>
      let pf := is_palt m in
      match CacheSystem.check_hit (cache_system m) pa with
      | Raise e => (Raise e, (m, h))
      | Ok (Some (_, level)) =>
          if is_none input_data then
            match CacheSystem.read_data h (cache_system m) pa with
            | (Raise e, h) => (Raise e, (m, h))
            | (Ok d, h) =>
                (Ok {| cache_hit := PyInt level; page_fault := pf;
                       physical_address := Some pa; data := d |}, (m, h))
            end
          else
            match CacheSystem.write_data h (cache_system m) pa input_data with
            | (Raise e, h) => (Raise e, (m, h))
            | (Ok _, h) =>
                let m := set_memory m (Memory.write_data (memory m) pa input_data) in
                (Ok {| cache_hit := PyInt level; page_fault := pf;
                       physical_address := Some pa; data := PyNone |}, (m, h))
            end
      | Ok None =>
          match Memory.get_block (memory m) h pa 16 with
          | (Raise e, _) => (Raise e, (m, h))
          | (Ok blk, (mem, h)) =>
              let m := set_memory m mem in
              match CacheSystem.load_block h (cache_system m) pa blk with
              | (Raise e, cs) => (Raise e, (set_cache_system m cs, h))
              | (Ok _, cs) =>
                  let m := set_cache_system m cs in
                  if is_none input_data then
                    match CacheSystem.read_data h (cache_system m) pa with
                    | (Raise e, h) => (Raise e, (m, h))
                    | (Ok d, h) =>
                        (Ok {| cache_hit := PyBool false; page_fault := pf;
                               physical_address := Some pa; data := d |}, (m, h))
                    end
                  else
                    match CacheSystem.write_data h (cache_system m) pa input_data with
                    | (Raise e, h) => (Raise e, (m, h))
                    | (Ok _, h) =>
                        let m := set_memory m (Memory.write_data (memory m) pa input_data) in
                        (Ok {| cache_hit := PyBool false; page_fault := pf;
                               physical_address := Some pa; data := PyNone |}, (m, h))
                    end
              end
          end
      end
  end.

End MMU.

(** ** TestNwaySetAssociativeCacheWithLRU.py *)

Module LruTest.

(** [cache[i]] is a dict whose values are all [True]; [usage_order[i]] is a
    dict from tag to a counter, kept in insertion order because [min] walks
    it in that order. *)
Record t := mk {
  n : Z;
  block_size : Z;
  num_sets : Z;
  cache : list (gmap Z bool);
  usage_order : list (list (Z * Z))
}.

Definition __init__ (cache_size block_size n : Z) : result t :=
  num_sets <- py_floordiv cache_size (block_size * n) ;;
  Ok {| n := n; block_size := block_size; num_sets := num_sets;
        cache := replicate (Z.to_nat num_sets) ∅;
        usage_order := replicate (Z.to_nat num_sets) [] |}.

Definition _get_set_index (c : t) (address : Z) : result Z :=
  let offset_bits := bit_length (block_size c) - 1 in
  let index_bits := bit_length (num_sets c) - 1 in
  hi <- py_rshift address offset_bits ;;
  one <- py_lshift 1 index_bits ;;
  Ok (Z.land hi (one - 1)).

(** [max(d.values(), default=0)] *)
Definition max_value (d : list (Z * Z)) : Z :=
  match d.*2 with
  | [] => 0
  | v :: vs => foldl Z.max v vs
  end.

(** [min(d, key=d.get)]: the first key, in insertion order, whose value is
    smallest; ValueError on an empty dict. *)
Fixpoint min_from (best : Z * Z) (d : list (Z * Z)) : Z :=
  match d with
  | [] => fst best
  | kv :: d' => if snd kv <? snd best then min_from kv d' else min_from best d'
  end.

Definition min_key (d : list (Z * Z)) : result Z :=
  match d with
  | [] => Raise ValueError
  | kv :: d' => Ok (min_from kv d')
  end.

Definition set_state (c : t) (ca : list (gmap Z bool)) (us : list (list (Z * Z))) : t :=
  {| n := n c; block_size := block_size c; num_sets := num_sets c;
     cache := ca; usage_order := us |}.

(** Returns [True] on a hit and [False] on a miss, and the cache after the
    access. Every raise comes before the first store of its path. *)
Definition access_cache (c : t) (address : Z) : result bool * t :=
  match _get_set_index c address with
  | Raise e => (Raise e, c)
  | Ok set_index =>
  match py_rshift address (bit_length set_index + bit_length (block_size c) - 1) with
  | Raise e => (Raise e, c)
  | Ok tag =>
  match py_norm_index (length (cache c)) set_index,
        py_norm_index (length (usage_order c)) set_index with
  | Raise e, _ | _, Raise e => (Raise e, c)
  | Ok i, Ok j =>
  match cache c !! i, usage_order c !! j with
  | Some cset, Some uset =>
      match cset !! tag with
      | Some _ =>
          let uset := OrderedDict.setitem uset tag (max_value uset + 1) in
          (Ok true, set_state c (cache c) (<[j := uset]> (usage_order c)))
      | None =>
          if Z.of_nat (size cset) <? n c then
            let cset := <[tag := true]> cset in
            let uset := OrderedDict.setitem uset tag (max_value uset + 1) in
            (Ok false, set_state c (<[i := cset]> (cache c)) (<[j := uset]> (usage_order c)))
          else
            match min_key uset with
            | Raise e => (Raise e, c)
            | Ok lru_tag =>
                match cset !! lru_tag with
                | None => (Raise KeyError, c)
                | Some _ =>
                    let cset := <[tag := true]> (delete lru_tag cset) in
                    let uset := OrderedDict.remove uset lru_tag in
                    let uset := OrderedDict.setitem uset tag (max_value uset + 1) in
                    (Ok false,
                     set_state c (<[i := cset]> (cache c)) (<[j := uset]> (usage_order c)))
                end
            end
      end
  | _, _ => (Raise IndexError, c)
  end
  end
  end
  end.

(** [[self.access_cache(addr) for addr in test_addrs]] *)
Fixpoint access_all (c : t) (addrs : list Z) : result (list bool) * t :=
  match addrs with
  | [] => (Ok [], c)
  | a :: addrs' =>
      match access_cache c a with
      | (Raise e, c') => (Raise e, c')
      | (Ok b, c') =>
          match access_all c' addrs' with
          | (Raise e, c'') => (Raise e, c'')
          | (Ok bs, c'') => (Ok (b :: bs), c'')
          end
      end
  end.

End LruTest.

(** ** Drivers used to state properties of sequences of calls *)

(** The states a CacheSet goes through under a sequence of [add_or_update]
    calls; each call comes with the heap of block objects at that moment. A
    call that raises leaves the set as it was. *)
Fixpoint put_trace (s : CacheSet.t) (ops : list (heap * Z * pyval)) : list CacheSet.t :=
  match ops with
  | [] => []
  | (h, tag, blk) :: ops' =>
      let s' := snd (CacheSet.add_or_update h s tag blk) in
      s' :: put_trace s' ops'
  end.

(** The heap cell an address denotes at one cache level: the block object
    stored under the address's tag in the address's set, with the offset
    inside it; [None] when the tag is not in the set. It follows the steps
    that [check_hit], [read_data] and [write_data] share. *)
Definition cell (c : SetAssociativeCache.t) (address : Z) : result (option (loc * Z)) :=
  set_index <- SetAssociativeCache._get_set_index c address ;;
  tag <- SetAssociativeCache.get_tag c address ;;
  s <- py_index (SetAssociativeCache.cache_sets c) set_index ;;
  block_offset <- SetAssociativeCache.get_offset c address ;;
  Ok (match OrderedDict.get (CacheSet.entries s) tag with
      | Some l => Some (l, block_offset)
      | None => None
      end).

(** What the constructor of a level establishes, for positive sizes, and
    what the methods keep. *)
Definition configured (c : SetAssociativeCache.t) : Prop :=
  0 < SetAssociativeCache.block_size c /\
  0 < SetAssociativeCache.num_sets c /\
  SetAssociativeCache.line_size c <> 0 /\
  SetAssociativeCache.offset_bits c = bit_length (SetAssociativeCache.block_size c) - 1 /\
  SetAssociativeCache.index_bits c = bit_length (SetAssociativeCache.num_sets c) - 1 /\
  length (SetAssociativeCache.cache_sets c) = Z.to_nat (SetAssociativeCache.num_sets c).

(** Example states: a three-level hierarchy with 2, 4 and 8 sets
    ([CacheSystem([256, 512, 1024])]), and the outcome of method calls on it,
    [Raise] standing for a state that could not be built. *)
Definition small_system : result CacheSystem.t :=
  CacheSystem.__init__ (Some [256; 512; 1024]) 3 64 2.

(** Two block objects: an empty dict at 1, [{0: 7, 1: 8}] at 2. *)
Definition two_blocks : heap :=
  {[ 1%positive := ∅; 2%positive := {[ 0 := PyInt 7; 1 := PyInt 8 ]} ]}.

(** [write_block(address, blk)] on level [i] alone. *)
Definition write_block_at (h : heap) (cs : CacheSystem.t) (i : nat) (address : Z)
  (blk : pyval) : result CacheSystem.t :=
  match CacheSystem.cache_levels cs !! i with
  | None => Raise IndexError
  | Some c =>
      match SetAssociativeCache.write_block h c address blk with
      | (Raise e, _) => Raise e
      | (Ok _, c') =>
          Ok (CacheSystem.set_cache_levels cs (<[i := c']> (CacheSystem.cache_levels cs)))
      end
  end.

(** The value of a construction that does not raise. *)
Definition ok_or {A} (r : result A) (dflt : A) : A :=
  match r with
  | Ok a => a
  | Raise _ => dflt
  end.

Definition small_levels : CacheSystem.t :=
  ok_or small_system (CacheSystem.mk [] 2 3 [] 64).

(** [load_block(64, blk)] with the block at 2 on the small hierarchy. *)
Definition loaded_levels : CacheSystem.t :=
  snd (CacheSystem.load_block two_blocks small_levels 64 (PyDict 2%positive)).

(** A sequence of [process_virtual_address] calls, each with its address,
    its payload ([None] for a read) and the frame the random source would
    draw; the outcomes up to the first call that raises. *)
Fixpoint process_all (m : MMU.t) (h : heap) (reqs : list (Z * pyval * Z))
  : list (result MMU.operation_result) :=
  match reqs with
  | [] => []
  | (va, payload, rnd) :: reqs' =>
      match MMU.process_virtual_address m h va payload rnd with
      | (Raise e, _) => [Raise e]
      | (Ok r, (m', h')) => Ok r :: process_all m' h' reqs'
      end
  end.

(** The state such a sequence of calls ends in. *)
Fixpoint process_state (m : MMU.t) (h : heap) (reqs : list (Z * pyval * Z))
  : MMU.t * heap :=
  match reqs with
  | [] => (m, h)
  | (va, payload, rnd) :: reqs' =>
      let '(_, (m', h')) := MMU.process_virtual_address m h va payload rnd in
      process_state m' h' reqs'
  end.

(** An MMU over the small hierarchy, page 0 mapped to frame 0. *)
Definition small_mmu : MMU.t :=
  MMU.__init__ (PageTable.add_entry (PageTable.__init__ 4) 0 0) small_levels
    (Memory.__init__ 1024) None.

(** The small MMU and the block objects after reads of the addresses 0x00,
    0x20 and 0x40 through [process_virtual_address]: the three share set 0
    of the 2-way first level, which thereby loses 0x00, while the second and
    third level keep it. *)
Definition evicted_mmu : MMU.t * heap :=
  process_state small_mmu ∅ [(0, PyNone, 0); (32, PyNone, 0); (64, PyNone, 0)].

(** The 2-way cache of the test in the source:
    [SetAssociativeCache(2048, 64, 2)], 16 sets. *)
Definition lru_fresh : LruTest.t :=
  ok_or (LruTest.__init__ 2048 64 2) (LruTest.mk 2 64 0 [] []).

(** In the test cache, the set with index [idx] holds the tags [cset] with
    the usage counters [uset]. *)
Definition lru_set_at (c : LruTest.t) (idx : Z) (cset : gmap Z bool) (uset : list (Z * Z))
  : Prop :=
  0 <= idx < Z.of_nat (length (LruTest.cache c)) /\
  length (LruTest.usage_order c) = length (LruTest.cache c) /\
  0 < LruTest.block_size c /\
  LruTest.cache c !! Z.to_nat idx = Some cset /\
  LruTest.usage_order c !! Z.to_nat idx = Some uset.

(** ** Further code of the source files *)

(** The module-level functions of PageTable.py that split an address; the
    same two functions are in TestVirtualToPhysicalAddressMapping.py. *)
Module PageSplit.

(** [virtual_address >> OFFSET_BITS] *)
Definition get_page_number (virtual_address OFFSET_BITS : Z) : result Z :=
  py_rshift virtual_address OFFSET_BITS.

(** [virtual_address & (PAGE_SIZE - 1)] *)
Definition get_offset (virtual_address PAGE_SIZE : Z) : Z :=
  Z.land virtual_address (PAGE_SIZE - 1).

End PageSplit.

(** [test_lru_effectiveness(test_addrs=None)] of the LRU test cache: an
    absent or empty list stands for the eight default addresses. *)
Definition test_lru_effectiveness (c : LruTest.t) (test_addrs : option (list Z))
  : result (list bool) * LruTest.t :=
  let addrs :=
    match test_addrs with
    | None | Some [] =>
        [268435456; 536870912; 805306368; 1073741824;
         268435456; 536870912; 1342177280; 268435456]
    | Some l => l
    end in
  LruTest.access_all c addrs.

(** A sequence of [add_entry] calls. *)
Definition add_all (pt : PageTable.t) (adds : list (Z * Z)) : PageTable.t :=
  foldl (fun pt vp => PageTable.add_entry pt vp.1 vp.2) pt adds.

(** The tag that [add_or_update(tag, _)] evicts: the oldest one, when the
    tag is new and the set is full. *)
Definition victim (s : CacheSet.t) (tag : Z) : option Z :=
  if CacheSet.check_hit s tag then None
  else if CacheSet.n_way s <=? Z.of_nat (length (CacheSet.entries s))
       then fst <$> head (CacheSet.entries s)
       else None.

(** A level none of whose sets holds anything. *)
Definition empty_level (c : SetAssociativeCache.t) : Prop :=
  Forall (fun s => CacheSet.entries s = []) (SetAssociativeCache.cache_sets c).

(** More example states: the first level of the small hierarchy (block size
    16, 2 sets, 2 ways), a fully associative level with 64-byte lines that
    holds the block at 2 under address 0, and a 2-way CacheSet holding the
    tags 10 and 11. *)
Definition small_l1 : SetAssociativeCache.t :=
  default (SetAssociativeCache.mk 2 64 0 16 [] "set_associative" 4 (-1) 1)
          (head (CacheSystem.cache_levels small_levels)).

Definition fa_level : SetAssociativeCache.t :=
  snd (SetAssociativeCache.write_block two_blocks
         (ok_or (SetAssociativeCache.__init__ 1 1024 64 2 16 "fully_associative") small_l1)
         0 (PyDict 2%positive)).

Definition two_tag_set : CacheSet.t :=
  snd (CacheSet.add_or_update two_blocks
         (snd (CacheSet.add_or_update two_blocks (CacheSet.__init__ 2 16) 10 (PyDict 1%positive)))
         11 (PyDict 2%positive)).

(** * Properties *)

(** ** The example states are the ones described *)

Example small_system_ok :
  small_system = Ok small_levels /\
  map SetAssociativeCache.num_sets (CacheSystem.cache_levels small_levels) = [2; 4; 8].
Proof. split; reflexivity. Qed.

Example evicted_mmu_ok :
  process_all small_mmu ∅ [(0, PyNone, 0); (32, PyNone, 0); (64, PyNone, 0)]
    = [ Ok (MMU.mk_result (PyBool false) false (Some 0) (PyBytes [100; 97; 116; 97; 0]));
        Ok (MMU.mk_result (PyBool false) false (Some 32) (PyBytes [100; 97; 116; 97; 0]));
        Ok (MMU.mk_result (PyBool false) false (Some 64) (PyBytes [100; 97; 116; 97; 0])) ] /\
  map (fun c => SetAssociativeCache.check_hit c 0)
      (CacheSystem.cache_levels (MMU.cache_system (fst evicted_mmu)))
    = [Ok (false, 1); Ok (true, 2); Ok (true, 3)].
Proof. split; vm_compute; reflexivity. Qed.

Example loaded_levels_ok :
  fst (CacheSystem.load_block two_blocks small_levels 64 (PyDict 2%positive)) = Ok tt /\
  map (fun c => SetAssociativeCache.get_block c 64) (CacheSystem.cache_levels loaded_levels)
    = [Ok (PyDict 2%positive); Ok (PyDict 2%positive); Ok (PyDict 2%positive)].
Proof. split; vm_compute; reflexivity. Qed.

Example lru_fresh_ok :
  LruTest.__init__ 2048 64 2 = Ok lru_fresh /\ LruTest.num_sets lru_fresh = 16.
Proof. split; reflexivity. Qed.

(** ** Integer primitives *)

Lemma bit_length_log2 (z : Z) : 0 < z -> bit_length z = Z.log2 z + 1.
Proof.
  destruct z as [|p|p]; try lia. intros _.
  destruct p; simpl; lia.
Qed.

Lemma bit_length_nonneg (z : Z) : 0 <= bit_length z.
Proof. destruct z; simpl; lia. Qed.

Lemma bit_length_pow2 (k : Z) : 0 <= k -> bit_length (2 ^ k) = k + 1.
Proof.
  intros Hk. rewrite bit_length_log2 by (apply Z.pow_pos_nonneg; lia).
  rewrite Z.log2_pow2 by lia. reflexivity.
Qed.

Lemma bit_length_bounds (z : Z) :
  0 < z -> 2 ^ (bit_length z - 1) <= z < 2 ^ bit_length z.
Proof.
  intros Hz. rewrite bit_length_log2 by lia.
  replace (Z.log2 z + 1 - 1) with (Z.log2 z) by lia.
  replace (Z.log2 z + 1) with (Z.succ (Z.log2 z)) by lia.
  apply Z.log2_spec. lia.
Qed.

Lemma py_rshift_nonneg (a n : Z) : 0 <= n -> py_rshift a n = Ok (Z.shiftr a n).
Proof. intros H. unfold py_rshift. destruct (Z.ltb_spec n 0); [lia | done]. Qed.

Lemma py_lshift_nonneg (a n : Z) : 0 <= n -> py_lshift a n = Ok (Z.shiftl a n).
Proof. intros H. unfold py_lshift. destruct (Z.ltb_spec n 0); [lia | done]. Qed.

Lemma py_mod_nonzero (a b : Z) : b <> 0 -> py_mod a b = Ok (a mod b).
Proof. intros H. unfold py_mod. destruct (Z.eqb_spec b 0); [lia | done]. Qed.

Lemma py_floordiv_nonzero (a b : Z) : b <> 0 -> py_floordiv a b = Ok (a / b).
Proof. intros H. unfold py_floordiv. destruct (Z.eqb_spec b 0); [lia | done]. Qed.

(** The index mask: [x & ((1 << n) - 1)] is [x mod 2^n]. *)
Lemma land_mask (x n : Z) : 0 <= n -> Z.land x (Z.shiftl 1 n - 1) = x mod 2 ^ n.
Proof.
  intros Hn. rewrite Z.shiftl_1_l.
  replace (2 ^ n - 1) with (Z.ones n) by (rewrite Z.ones_equiv; lia).
  by apply Z.land_ones.
Qed.

(** ** PageTable *)

Section PageTableFacts.

Lemma add_then_get (pt : PageTable.t) (vpn ppn : Z) :
  PageTable.get_physical_page_number (PageTable.add_entry pt vpn ppn) vpn = Some ppn.
Proof. unfold PageTable.get_physical_page_number. simpl. apply lookup_insert_eq. Qed.

(** C8. [update_entry] on a virtual page number that has no entry raises
    [KeyError] (the spec's NoSuchMapping) and the page table after the call is
    the page table before it: no entry is added or changed. *)
Theorem update_entry_absent (pt : PageTable.t) (vpn ppn : Z) :
  PageTable.get_physical_page_number pt vpn = None ->
  PageTable.update_entry pt vpn ppn = (Raise KeyError, pt).
Proof.
  unfold PageTable.get_physical_page_number, PageTable.update_entry.
  intros ->. reflexivity.
Qed.

Lemma update_entry_absent_witness :
  let pt := PageTable.add_entry (PageTable.__init__ 4) 1 160 in
  PageTable.get_physical_page_number pt 2 = None /\
  PageTable.update_entry pt 2 176 = (Raise KeyError, pt).
Proof.
  split; [reflexivity | apply (update_entry_absent _ 2 176); reflexivity].
Defined.

End PageTableFacts.

(** ** MMU: address translation *)

Section TranslationFacts.

Lemma translate_tlb_hit (m : MMU.t) (va rnd pa : Z) :
  MMU.tlb m !! va = Some pa ->
  MMU.translate_address m va rnd = (Ok pa, MMU.set_is_palt m false).
Proof. intros H. unfold MMU.translate_address. simpl. rewrite H. reflexivity. Qed.

(** A translation that finds the address neither in the TLB nor in the page
    table services a page fault: the flag is set and the drawn frame is
    installed. *)
Lemma translate_page_fault (m : MMU.t) (va rnd : Z) :
  let bits := bit_length (PageTable.page_size (MMU.page_table m) - 1) in
  MMU.tlb m !! va = None ->
  PageTable.get_physical_page_number (MMU.page_table m) (Z.shiftr va bits) = None ->
  exists m1,
    MMU.translate_address m va rnd =
      (Ok (Z.lor (Z.shiftl rnd bits)
                 (Z.land va (PageTable.page_size (MMU.page_table m) - 1))), m1) /\
    MMU.is_palt m1 = true /\
    PageTable.get_physical_page_number (MMU.page_table m1) (Z.shiftr va bits) = Some rnd.
Proof.
  intros bits Htlb Hpt. unfold MMU.translate_address. simpl. rewrite Htlb.
  fold bits. rewrite Hpt. simpl. eexists. split; [reflexivity|].
  split; [reflexivity|]. simpl. apply add_then_get.
Qed.

(** C7. Two translations of the same virtual address in a row: both return
    the same physical address, the second one is answered from the TLB
    (the entry is there after the first call), it leaves the page-fault flag
    clear and changes neither the page table nor the TLB. This holds whatever
    the first call did, page fault included ([rnd1], [rnd2] are the frames the
    random source would hand out). *)
Theorem translate_twice (m : MMU.t) (va rnd1 rnd2 : Z) :
  exists pa m1 m2,
    MMU.translate_address m va rnd1 = (Ok pa, m1) /\
    MMU.tlb m1 !! va = Some pa /\
    MMU.translate_address m1 va rnd2 = (Ok pa, m2) /\
    MMU.is_palt m2 = false /\
    MMU.page_table m2 = MMU.page_table m1 /\
    MMU.tlb m2 = MMU.tlb m1.
Proof.
  destruct (MMU.tlb m !! va) as [pa|] eqn:Htlb.
  - exists pa, (MMU.set_is_palt m false), (MMU.set_is_palt (MMU.set_is_palt m false) false).
    split; [by apply translate_tlb_hit|]. split; [exact Htlb|].
    split; [by apply translate_tlb_hit|]. done.
  - unfold MMU.translate_address at 1. simpl. rewrite Htlb.
    set (bits := bit_length _). set (off := Z.land _ _).
    destruct (PageTable.get_physical_page_number _ _) as [ppn|]; simpl.
    + eexists _, _, _. split; [reflexivity|].
      assert (Hin : forall pa (t : gmap Z Z), <[va := pa]> t !! va = Some pa)
        by (intros; apply lookup_insert_eq).
      split; [simpl; apply Hin|].
      split; [apply translate_tlb_hit; simpl; apply Hin|]. done.
    + eexists _, _, _. split; [reflexivity|].
      assert (Hin : forall pa (t : gmap Z Z), <[va := pa]> t !! va = Some pa)
        by (intros; apply lookup_insert_eq).
      split; [simpl; apply Hin|].
      split; [apply translate_tlb_hit; simpl; apply Hin|]. done.
Qed.

(** The scenario of the test in the source: 4 KiB pages, page 0x1112 mapped
    to frame 0x1102, address 0x1112000 translates to 0x1102000. *)
Example translate_0x1112000 :
  let pt := PageTable.add_entry (PageTable.__init__ 4) 4370 4354 in
  forall cs mem rnd,
    fst (MMU.translate_address (MMU.__init__ pt cs mem None) 17899520 rnd) = Ok 17833984.
Proof. intros pt cs mem rnd. reflexivity. Qed.

End TranslationFacts.

(** ** Memory: the backing store *)

Section MemoryFacts.

Lemma read_after_write_data (m : Memory.t) (a : Z) (d : pyval) :
  Memory.read (Memory.write_data m a d) a = d.
Proof.
  unfold Memory.read, Memory.write_data. simpl.
  rewrite lookup_insert_eq. simpl. destruct d; reflexivity.
Qed.

Lemma block_data_16_size : size (Memory.block_data 16) = 16%nat.
Proof. reflexivity. Qed.

(** C10. After [write_data(a, d)], [get_block(a)] does not hand back [d]:
    it returns a dict object that did not exist before the call (so it is not
    the object [d], whatever [d] is), whose 16 entries are built from the
    offsets alone, without a look at the store, and it stores that object at
    [storage[a]], replacing [d] there. The backing store is thus changed by
    [get_block]: a [read] of [a] no longer gives [d]. *)
Theorem get_block_after_write_data (m : Memory.t) (h : heap) (a : Z) (d : pyval) :
  val_wf h d ->
  let m1 := Memory.write_data m a d in
  exists l m2,
    Memory.get_block m1 h a 16 = (Ok (PyDict l), (m2, <[l := Memory.block_data 16]> h)) /\
    size (Memory.block_data 16) = 16%nat /\
    PyDict l <> d /\
    (l ∉ dom h) /\
    Memory.storage m1 !! a = Some d /\
    Memory.storage m2 !! a = Some (PyDict l) /\
    Memory.storage m2 <> Memory.storage m1 /\
    Memory.read m2 a <> d.
Proof.
  intros Hwf m1. pose proof (is_fresh (dom h)) as Hfresh.
  assert (Hne : PyDict (fresh (dom h)) <> d).
  { intros <-. simpl in Hwf. contradiction. }
  eexists _, _. split; [reflexivity|]. split; [reflexivity|]. simpl.
  rewrite !lookup_insert_eq.
  split; [exact Hne|]. split; [exact Hfresh|]. split; [reflexivity|].
  split; [reflexivity|]. split.
  - intros Heq. apply (f_equal (fun s => s !! a)) in Heq.
    rewrite !lookup_insert_eq in Heq. congruence.
  - unfold Memory.read. simpl. rewrite lookup_insert_eq. simpl. exact Hne.
Qed.

(** The datum may even be a dict with the very content [get_block] builds:
    the call still returns another object. *)
Lemma get_block_after_write_data_witness :
  let h : heap := {[ 1%positive := Memory.block_data 16 ]} in
  let d := PyDict 1%positive in
  val_wf h d /\
  exists l m2,
    Memory.get_block (Memory.write_data (Memory.__init__ 1024) 32 d) h 32 16 =
      (Ok (PyDict l), (m2, <[l := Memory.block_data 16]> h)) /\
    PyDict l <> d /\
    Memory.read m2 32 <> d.
Proof.
  intros h d.
  assert (Hwf : val_wf h d) by (apply elem_of_dom; eexists; reflexivity).
  split; [exact Hwf|].
  destruct (get_block_after_write_data (Memory.__init__ 1024) h 32 d Hwf)
    as (l & m2 & H1 & _ & H2 & _ & _ & _ & _ & H3).
  exists l, m2. split; [exact H1|]. split; [exact H2 | exact H3].
Defined.

(** [get_block] ignores what the store holds: from any two stores the block
    it builds has the same content. *)
Lemma get_block_independent (m m' : Memory.t) (h h' : heap) (a : Z) :
  exists l l' st st',
    Memory.get_block m h a 16 = (Ok (PyDict l), st) /\
    Memory.get_block m' h' a 16 = (Ok (PyDict l'), st') /\
    deref (snd st) l = deref (snd st') l' /\
    size (deref (snd st) l) = 16%nat.
Proof.
  eexists _, _, _, _. split; [reflexivity|]. split; [reflexivity|].
  unfold deref. cbn [snd]. rewrite !lookup_insert_eq. split; reflexivity.
Qed.

End MemoryFacts.

(** ** OrderedDict *)

Section OrderedDictFacts.
Context {V : Type}.
Implicit Types (d : list (Z * V)) (k : Z) (v : V).

Lemma contains_get d k :
  OrderedDict.contains d k = true <-> exists v, OrderedDict.get d k = Some v.
Proof.
  unfold OrderedDict.contains.
  destruct (OrderedDict.get d k) as [v|]; split; intros H; eauto; try done.
  destruct H as [? ?]; done.
Qed.

Lemma contains_false_get d k :
  OrderedDict.contains d k = false <-> OrderedDict.get d k = None.
Proof. unfold OrderedDict.contains. destruct (OrderedDict.get d k); split; done. Qed.

Lemma length_replace d k v : length (OrderedDict.replace d k v) = length d.
Proof.
  induction d as [|[k' v'] d IH]; simpl; [done|].
  destruct (k' =? k); simpl; congruence.
Qed.

Lemma length_remove_le d k : (length (OrderedDict.remove d k) <= length d)%nat.
Proof.
  induction d as [|[k' v'] d IH]; simpl; [done|].
  destruct (k' =? k); simpl; lia.
Qed.

Lemma length_remove d k v :
  OrderedDict.get d k = Some v -> (S (length (OrderedDict.remove d k)) <= length d)%nat.
Proof.
  induction d as [|[k' v'] d IH]; simpl; [done|].
  destruct (k' =? k); simpl.
  - intros _. pose proof (length_remove_le d k). lia.
  - intros H. apply IH in H. lia.
Qed.

Lemma get_remove d k : OrderedDict.get (OrderedDict.remove d k) k = None.
Proof.
  induction d as [|[k' v'] d IH]; simpl; [done|].
  destruct (k' =? k) eqn:E; simpl; [done|]. by rewrite E.
Qed.

Lemma length_setitem_le d k v :
  (length (OrderedDict.setitem d k v) <= S (length d))%nat.
Proof.
  unfold OrderedDict.setitem. destruct (OrderedDict.contains d k).
  - rewrite length_replace. lia.
  - rewrite length_app. simpl. lia.
Qed.

Lemma get_replace d k v :
  OrderedDict.contains d k = true ->
  OrderedDict.get (OrderedDict.replace d k v) k = Some v.
Proof.
  unfold OrderedDict.contains.
  induction d as [|[k' v'] d IH]; simpl; [done|].
  destruct (k' =? k) eqn:E; simpl; rewrite E; [done|]. exact IH.
Qed.

Lemma get_replace_ne d k k' v :
  k <> k' -> OrderedDict.get (OrderedDict.replace d k v) k' = OrderedDict.get d k'.
Proof.
  intros Hne. induction d as [|[k0 v0] d IH]; simpl; [done|].
  destruct (k0 =? k) eqn:E; simpl.
  - apply Z.eqb_eq in E. subst k0.
    destruct (k =? k') eqn:E'; [apply Z.eqb_eq in E'; done | done].
  - rewrite IH. reflexivity.
Qed.

Lemma get_app d d' k :
  OrderedDict.get (d ++ d') k =
  match OrderedDict.get d k with
  | Some v => Some v
  | None => OrderedDict.get d' k
  end.
Proof.
  induction d as [|[k0 v0] d IH]; simpl; [done|].
  destruct (k0 =? k); [done | exact IH].
Qed.

Lemma get_remove_ne d k k' :
  k <> k' -> OrderedDict.get (OrderedDict.remove d k) k' = OrderedDict.get d k'.
Proof.
  intros Hne. induction d as [|[k0 v0] d IH]; simpl; [done|].
  destruct (k0 =? k) eqn:E; simpl.
  - apply Z.eqb_eq in E. subst k0.
    destruct (k =? k') eqn:E'; [apply Z.eqb_eq in E'; done | exact IH].
  - destruct (k0 =? k'); [done | exact IH].
Qed.

(** After [d[k] = v] the key is present and maps to [v]. *)
Lemma get_setitem d k v :
  OrderedDict.get (OrderedDict.setitem d k v) k = Some v.
Proof.
  unfold OrderedDict.setitem. destruct (OrderedDict.contains d k) eqn:E.
  - by apply get_replace.
  - rewrite get_app. apply contains_false_get in E. rewrite E. simpl.
    by rewrite Z.eqb_refl.
Qed.

Lemma get_setitem_ne d k k' v :
  k <> k' -> OrderedDict.get (OrderedDict.setitem d k v) k' = OrderedDict.get d k'.
Proof.
  intros Hne. unfold OrderedDict.setitem. destruct (OrderedDict.contains d k).
  - by apply get_replace_ne.
  - rewrite get_app. destruct (OrderedDict.get d k'); [done|]. simpl.
    destruct (k =? k') eqn:E; [apply Z.eqb_eq in E; done | done].
Qed.

End OrderedDictFacts.

(** ** CacheSet *)

Section CacheSetFacts.

Lemma add_or_update_params (h : heap) (s : CacheSet.t) (tag : Z) (blk : pyval) :
  CacheSet.n_way (snd (CacheSet.add_or_update h s tag blk)) = CacheSet.n_way s /\
  CacheSet.block_size (snd (CacheSet.add_or_update h s tag blk)) = CacheSet.block_size s.
Proof.
  unfold CacheSet.add_or_update.
  destruct blk; try done.
  destruct (_ <? _); [done|].
  destruct (OrderedDict.contains _ _).
  - destruct (OrderedDict.move_to_end _ _); done.
  - destruct (_ <=? _); [|done].
    destruct (OrderedDict.popitem_first _) as [[? ?]|]; done.
Qed.

(** One [add_or_update] keeps a set within its associativity. *)
Lemma add_or_update_capacity (h : heap) (s : CacheSet.t) (tag : Z) (blk : pyval) :
  Z.of_nat (length (CacheSet.entries s)) <= CacheSet.n_way s ->
  Z.of_nat (length (CacheSet.entries (snd (CacheSet.add_or_update h s tag blk))))
    <= CacheSet.n_way s.
Proof.
  intros Hinv. unfold CacheSet.add_or_update.
  destruct blk; try done.
  destruct (_ <? _); [done|].
  destruct (OrderedDict.contains (CacheSet.entries s) tag) eqn:Hin.
  - unfold OrderedDict.move_to_end. rewrite get_setitem. simpl.
    rewrite length_app. simpl.
    pose proof (length_remove (OrderedDict.setitem (CacheSet.entries s) tag l) tag l
                  (get_setitem _ _ _)) as Hlen.
    unfold OrderedDict.setitem in Hlen |- *. rewrite Hin in Hlen |- *.
    rewrite length_replace in Hlen. lia.
  - destruct (_ <=? _) eqn:Hfull.
    + destruct (CacheSet.entries s) as [|kv e] eqn:He; simpl; [rewrite He; simpl; lia|].
      pose proof (length_setitem_le e tag l). simpl in Hinv. lia.
    + simpl. apply Z.leb_gt in Hfull.
      pose proof (length_setitem_le (CacheSet.entries s) tag l). lia.
Qed.

Lemma put_trace_capacity (s : CacheSet.t) (ops : list (heap * Z * pyval)) :
  Z.of_nat (length (CacheSet.entries s)) <= CacheSet.n_way s ->
  Forall (fun s' => Z.of_nat (length (CacheSet.entries s')) <= CacheSet.n_way s)
         (put_trace s ops).
Proof.
  revert s. induction ops as [|[[h tag] blk] ops IH]; intros s Hinv; simpl.
  - constructor.
  - pose proof (add_or_update_capacity h s tag blk Hinv) as H1.
    destruct (add_or_update_params h s tag blk) as [Hn _].
    constructor; [exact H1|].
    rewrite <- Hn. apply IH. rewrite Hn. exact H1.
Qed.

(** C6. A CacheSet built with associativity [n >= 1] holds at most [n]
    entries after each call of any sequence of [add_or_update] calls
    (calls that raise included: they leave the set as it was). *)
Theorem capacity_invariant (n bs : Z) (ops : list (heap * Z * pyval)) :
  1 <= n ->
  Forall (fun s => Z.of_nat (length (CacheSet.entries s)) <= n)
         (put_trace (CacheSet.__init__ n bs) ops).
Proof.
  intros Hn. apply (put_trace_capacity (CacheSet.__init__ n bs) ops). simpl. lia.
Qed.

Lemma capacity_invariant_witness :
  1 <= 2 /\
  Forall (fun s => Z.of_nat (length (CacheSet.entries s)) <= 2)
         (put_trace (CacheSet.__init__ 2 16)
            [ ({[1%positive := ∅]}, 10, PyDict 1%positive);
              ({[1%positive := ∅]}, 11, PyDict 1%positive);
              ({[1%positive := ∅]}, 12, PyDict 1%positive);
              ({[1%positive := ∅]}, 11, PyInt 5) ]).
Proof.
  split; [lia|]. apply capacity_invariant. lia.
Defined.

(** The bound is reached: the third distinct tag leaves a 2-way set full. *)
Example put_trace_three :
  map (fun s => (CacheSet.entries s).*1)
      (put_trace (CacheSet.__init__ 2 16)
         [ ({[1%positive := ∅]}, 10, PyDict 1%positive);
           ({[1%positive := ∅]}, 11, PyDict 1%positive);
           ({[1%positive := ∅]}, 12, PyDict 1%positive) ])
  = [[10]; [10; 11]; [11; 12]].
Proof. reflexivity. Qed.

End CacheSetFacts.

(** ** One cache level *)

Lemma rbind_ok {A B} (r : result A) (k : A -> result B) (b : B) :
  rbind r k = Ok b -> exists a, r = Ok a /\ k a = Ok b.
Proof. destruct r; simpl; [eauto | done]. Qed.

(** Case analysis on the next fallible step of a method body. *)
Ltac step_result :=
  match goal with
  | H : context [rbind ?r _] |- _ => destruct r eqn:?; simpl in H
  | H : context [match ?r with Ok _ => _ | Raise _ => _ end] |- _ =>
      destruct r eqn:?; simpl in H
  | |- context [rbind ?r _] => destruct r eqn:?; simpl
  | |- context [match ?r with Ok _ => _ | Raise _ => _ end] => destruct r eqn:?; simpl
  end; simplify_eq.

Section LevelFacts.
Implicit Types (c : SetAssociativeCache.t) (h : heap) (a : Z) (d : pyval).

Lemma py_index_norm {A} (l : list A) (i : Z) (x : A) :
  py_index l i = Ok x ->
  exists n, py_norm_index (length l) i = Ok n /\ l !! n = Some x.
Proof.
  unfold py_index. destruct (py_norm_index _ _) as [n|]; [|done].
  destruct (l !! n) eqn:E; [|done]. intros [= ->]. eauto.
Qed.

(** A resident address: the three methods agree on the cell. *)
Lemma cell_resident c a l off h d :
  cell c a = Ok (Some (l, off)) ->
  SetAssociativeCache.check_hit c a = Ok (true, SetAssociativeCache.level c) /\
  SetAssociativeCache.read_data h c a = Ok (dict_get h l off) /\
  SetAssociativeCache.write_data h c a d = (Ok tt, dict_setitem h l off d).
Proof.
  unfold cell, SetAssociativeCache.check_hit, SetAssociativeCache.read_data,
    SetAssociativeCache.write_data, SetAssociativeCache.check_hit,
    CacheSet.check_hit, CacheSet.read_data, CacheSet.write_data, OrderedDict.contains.
  intros H. repeat (step_result; try done).
  destruct (OrderedDict.get _ _) eqn:Hg; by simplify_eq.
Qed.

(** An address whose tag is not in its set. *)
Lemma cell_absent c a h d :
  cell c a = Ok None ->
  SetAssociativeCache.check_hit c a = Ok (false, SetAssociativeCache.level c) /\
  SetAssociativeCache.read_data h c a = Raise KeyError /\
  SetAssociativeCache.write_data h c a d = (Ok tt, h).
Proof.
  unfold cell, SetAssociativeCache.check_hit, SetAssociativeCache.read_data,
    SetAssociativeCache.write_data, SetAssociativeCache.check_hit,
    CacheSet.check_hit, CacheSet.read_data, CacheSet.write_data, OrderedDict.contains.
  intros H. repeat (step_result; try done).
  destruct (OrderedDict.get _ _) eqn:Hg; by simplify_eq.
Qed.

Lemma read_data_ok_cell h c a v :
  SetAssociativeCache.read_data h c a = Ok v ->
  exists l off, cell c a = Ok (Some (l, off)) /\ v = dict_get h l off.
Proof.
  unfold cell, SetAssociativeCache.read_data, SetAssociativeCache.check_hit,
    CacheSet.read_data.
  intros H. repeat (step_result; try done).
  destruct (OrderedDict.get _ _) eqn:Hg; simplify_eq. eauto.
Qed.

Lemma check_hit_cell c a b lvl off :
  SetAssociativeCache.check_hit c a = Ok (b, lvl) ->
  SetAssociativeCache.get_offset c a = Ok off ->
  lvl = SetAssociativeCache.level c /\
  if b then exists l, cell c a = Ok (Some (l, off)) else cell c a = Ok None.
Proof.
  unfold cell, SetAssociativeCache.check_hit, CacheSet.check_hit, OrderedDict.contains.
  intros H Hoff. rewrite Hoff. repeat (step_result; try done).
  split; [done|].
  destruct (OrderedDict.get _ _); eauto.
Qed.

Lemma write_data_ok_cell h c a d h' :
  SetAssociativeCache.write_data h c a d = (Ok tt, h') ->
  exists x, cell c a = Ok x.
Proof.
  unfold cell, SetAssociativeCache.write_data.
  intros H. repeat (step_result; try done); eauto.
Qed.

End LevelFacts.

(** ** Block objects on the heap *)

Section HeapFacts.
Implicit Types (h : heap) (l : loc) (k : Z) (v : pyval).

Lemma deref_setitem h l k v : deref (dict_setitem h l k v) l = <[k := v]> (deref h l).
Proof. unfold deref at 1, dict_setitem. by rewrite lookup_insert_eq. Qed.

Lemma deref_setitem_ne h l l' k v : l <> l' -> deref (dict_setitem h l k v) l' = deref h l'.
Proof. intros Hne. unfold deref, dict_setitem. by rewrite lookup_insert_ne. Qed.

Lemma dict_get_setitem h l k v : dict_get (dict_setitem h l k v) l k = v.
Proof. unfold dict_get. rewrite deref_setitem. by rewrite lookup_insert_eq. Qed.

(** A store touches one key of one object. *)
Lemma dict_get_setitem_other h l k v l' k' :
  l <> l' \/ k <> k' -> dict_get (dict_setitem h l k v) l' k' = dict_get h l' k'.
Proof.
  intros Hne. unfold dict_get. destruct (decide (l = l')) as [<-|Hl].
  - destruct Hne as [?|Hk]; [done|]. rewrite deref_setitem. by rewrite lookup_insert_ne.
  - by rewrite deref_setitem_ne.
Qed.

Lemma dict_get_setitem_cases h l k v l' k' :
  dict_get (dict_setitem h l k v) l' k' = v \/
  dict_get (dict_setitem h l k v) l' k' = dict_get h l' k'.
Proof.
  destruct (decide (l = l')) as [<-|Hl]; [destruct (decide (k = k')) as [<-|Hk]|].
  - left. apply dict_get_setitem.
  - right. apply dict_get_setitem_other. by right.
  - right. apply dict_get_setitem_other. by left.
Qed.

End HeapFacts.

(** ** The cache hierarchy *)

Section HierarchyFacts.
Implicit Types (c : SetAssociativeCache.t) (h : heap) (a : Z) (d : pyval).

(** The effect of one level's [write_data] on the heap. *)
Lemma level_write_effect h c a d h' :
  SetAssociativeCache.write_data h c a d = (Ok tt, h') ->
  (exists l off, cell c a = Ok (Some (l, off)) /\ h' = dict_setitem h l off d) \/
  (cell c a = Ok None /\ h' = h).
Proof.
  intros Hw. destruct (write_data_ok_cell _ _ _ _ _ Hw) as [[[l off]|] Hc].
  - destruct (cell_resident c a l off h d Hc) as (_ & _ & Hw'). left. exists l, off.
    split; [done|]. congruence.
  - destruct (cell_absent c a h d Hc) as (_ & _ & Hw'). right. split; [done|]. congruence.
Qed.

(** Writing a datum through a list of levels: every cell of the heap either
    keeps its content or now holds the datum, and the cell of each level
    that has the address resident holds the datum. *)
Lemma write_levels_effect (levels : list SetAssociativeCache.t) a d : forall h h',
  CacheSystem.write_levels h levels a d = (Ok tt, h') ->
  (forall l off, dict_get h' l off = d \/ dict_get h' l off = dict_get h l off) /\
  Forall (fun c => forall l off, cell c a = Ok (Some (l, off)) -> dict_get h' l off = d)
         levels.
Proof.
  induction levels as [|c levels IH]; intros h h' Hw; simpl in Hw.
  - injection Hw as <-. split; [by right | constructor].
  - destruct (SetAssociativeCache.write_data h c a d) as [[[]|e] h1] eqn:Hc; [|done].
    destruct (IH _ _ Hw) as [Hframe Hall].
    apply level_write_effect in Hc. split.
    + intros l off. destruct (Hframe l off) as [?|Heq]; [by left|]. rewrite Heq.
      destruct Hc as [(l1 & off1 & _ & ->)|[_ ->]]; [|by right].
      apply dict_get_setitem_cases.
    + constructor; [|exact Hall]. intros l off Hcell.
      destruct Hc as [(l1 & off1 & Hcell1 & ->)|[Hcell1 _]]; [|congruence].
      assert (l1 = l /\ off1 = off) as [-> ->] by (split; congruence).
      destruct (Hframe l off) as [?|Heq]; [done|]. rewrite Heq. apply dict_get_setitem.
Qed.

(** Levels that hold the address never make the write loop raise. *)
Lemma write_levels_resident_ok (levels : list SetAssociativeCache.t) a d : forall h,
  Forall (fun c => exists x, cell c a = Ok x) levels ->
  exists h', CacheSystem.write_levels h levels a d = (Ok tt, h').
Proof.
  induction levels as [|c levels IH]; intros h Hall; simpl; [eauto|].
  inversion Hall as [|? ? [[[l off]|] Hc] Hrest]; subst.
  - destruct (cell_resident c a l off h d Hc) as (_ & _ & ->). by apply IH.
  - destruct (cell_absent c a h d Hc) as (_ & _ & ->). by apply IH.
Qed.

(** The probing loop of [read_data]: past levels that answer [None], at the
    first level that answers a datum it writes the datum to the levels
    before it. *)
Lemma read_levels_hit h (all pre post : list SetAssociativeCache.t) ck a d : forall lvl,
  Forall (fun c => SetAssociativeCache.read_data h c a = Ok PyNone) pre ->
  SetAssociativeCache.read_data h ck a = Ok d ->
  is_none d = false ->
  CacheSystem.read_levels h all (pre ++ ck :: post) lvl a =
  match CacheSystem.write_levels h (take (lvl + length pre) all) a d with
  | (Raise e, h') => (Raise e, h')
  | (Ok _, h') => (Ok d, h')
  end.
Proof.
  induction pre as [|c pre IH]; intros lvl Hpre Hk Hd; simpl.
  - rewrite Hk, Hd. by rewrite Nat.add_0_r.
  - inversion Hpre as [|? ? Hc Hpre']; subst. rewrite Hc. simpl.
    rewrite IH by done. by replace (S lvl + length pre)%nat with (lvl + S (length pre))%nat by lia.
Qed.

(** An address that the first level does not hold makes the whole read
    raise, whatever the further levels hold. *)
Lemma read_first_level_raises h (cs : CacheSystem.t) c rest a e :
  CacheSystem.cache_levels cs = c :: rest ->
  SetAssociativeCache.read_data h c a = Raise e ->
  CacheSystem.read_data h cs a = (Raise e, h).
Proof.
  intros Hl Hr. unfold CacheSystem.read_data. rewrite Hl. simpl. by rewrite Hr.
Qed.

End HierarchyFacts.

Section ReadFacts.
Implicit Types (c : SetAssociativeCache.t) (h : heap) (a : Z) (d : pyval).

(** A level asked for an address whose tag is not in its set raises
    [KeyError]: the guard [if self.check_hit(address):] tests a pair, which is
    always true, so the lookup [entries[tag]] is always made. *)
Lemma level_read_absent_raises h c a lvl off :
  SetAssociativeCache.check_hit c a = Ok (false, lvl) ->
  SetAssociativeCache.get_offset c a = Ok off ->
  SetAssociativeCache.read_data h c a = Raise KeyError.
Proof.
  intros Hhit Hoff. destruct (check_hit_cell _ _ _ _ _ Hhit Hoff) as [_ Hc].
  by destruct (cell_absent c a h PyNone Hc) as (_ & ? & _).
Qed.

(** A level never answers [None] for an address it does not hold. *)
Lemma level_read_none_resident h c a :
  SetAssociativeCache.read_data h c a = Ok PyNone ->
  SetAssociativeCache.check_hit c a = Ok (true, SetAssociativeCache.level c).
Proof.
  intros Hr. destruct (read_data_ok_cell _ _ _ _ Hr) as (l & off & Hc & _).
  by destruct (cell_resident c a l off h PyNone Hc) as (? & _).
Qed.

(** C1 (the code departs from it). On the default hierarchy as constructed,
    address 0 is resident in no level ([check_hit] finds none), yet
    [CacheSystem.read_data] does not return [None]: it raises [KeyError], and
    so does [read_data] of each single level. *)
Theorem read_data_full_miss_raises :
  exists cs,
    CacheSystem.__init__ None 3 64 2 = Ok cs /\
    CacheSystem.check_hit cs 0 = Ok None /\
    CacheSystem.read_data ∅ cs 0 = (Raise KeyError, ∅) /\
    map (fun c => SetAssociativeCache.read_data ∅ c 0) (CacheSystem.cache_levels cs)
      = [Raise KeyError; Raise KeyError; Raise KeyError].
Proof.
  eexists. split; [vm_compute; reflexivity|].
  split; [vm_compute; reflexivity|].
  split; vm_compute; reflexivity.
Qed.

(** The same through the MMU: addresses 0x00, 0x20 and 0x40 share set 0 of
    the 2-way first level, so reading them in turn evicts 0x00 from L1 while
    L2 keeps it. Reading 0x00 again, [check_hit] reports L2 and the read then
    raises [KeyError] at L1 instead of promoting the block. *)
Example mmu_read_after_l1_eviction :
  map (fun r => match r with
                | Ok res => Ok (MMU.cache_hit res, MMU.data res)
                | Raise e => Raise e
                end)
      (process_all small_mmu ∅
         [(0, PyNone, 0); (32, PyNone, 0); (64, PyNone, 0); (0, PyNone, 0)])
  = [ Ok (PyBool false, PyBytes [100; 97; 116; 97; 0]);
      Ok (PyBool false, PyBytes [100; 97; 116; 97; 0]);
      Ok (PyBool false, PyBytes [100; 97; 116; 97; 0]);
      Raise KeyError ].
Proof. vm_compute. reflexivity. Qed.

(** The level that [CacheSystem.check_hit] names is one of the caches, and
    that cache holds the address. *)
Lemma check_hit_levels_some (levels : list SetAssociativeCache.t) a (b : bool) (lvl : Z) :
  CacheSystem.check_hit_levels levels a = Ok (Some (b, lvl)) ->
  b = true /\
  exists k ck,
    levels !! k = Some ck /\ lvl = SetAssociativeCache.level ck /\
    SetAssociativeCache.check_hit ck a = Ok (true, lvl).
Proof.
  induction levels as [|c levels IH]; simpl; [done|].
  destruct (SetAssociativeCache.check_hit c a) as [[b0 l0]|] eqn:Hh; [|done].
  assert (Hl : l0 = SetAssociativeCache.level c).
  { unfold SetAssociativeCache.check_hit in Hh. repeat (step_result; try done). }
  simpl. destruct b0.
  - intros [= <- <-]. split; [done|]. exists 0%nat, c. by rewrite Hl in *.
  - intros H. destruct (IH H) as (Hb & k & ck & Hk & Hlv & Hck). split; [done|].
    by exists (S k), ck.
Qed.

(** C3 (the code departs from it). Whenever the hierarchy reports a hit
    for an address at a level other than the first ([check_hit] names a level
    [lvl] that is not the first cache's), the first cache does not hold the
    address and [CacheSystem.read_data] does not return the datum: it raises
    [KeyError] at the first cache, before the loop that should update the
    nearer levels is reached. No block and no datum is copied: the block
    objects are untouched and the first cache still misses the address, while
    a farther cache holds it. *)
Theorem hit_beyond_first_level_raises (cs : CacheSystem.t) a c0 rest (lvl : Z) :
  CacheSystem.cache_levels cs = c0 :: rest ->
  SetAssociativeCache.block_size c0 <> 0 ->
  CacheSystem.check_hit cs a = Ok (Some (true, lvl)) ->
  lvl <> SetAssociativeCache.level c0 ->
  SetAssociativeCache.check_hit c0 a = Ok (false, SetAssociativeCache.level c0) /\
  (exists k ck,
     rest !! k = Some ck /\ lvl = SetAssociativeCache.level ck /\
     SetAssociativeCache.check_hit ck a = Ok (true, lvl)) /\
  (forall h, SetAssociativeCache.read_data h c0 a = Raise KeyError) /\
  (forall h, CacheSystem.read_data h cs a = (Raise KeyError, h)).
Proof.
  intros Hl Hbs Hhit Hne. unfold CacheSystem.check_hit in Hhit. rewrite Hl in Hhit.
  simpl in Hhit.
  destruct (SetAssociativeCache.check_hit c0 a) as [[b0 l0]|] eqn:Hh; [|done].
  assert (Hl0 : l0 = SetAssociativeCache.level c0).
  { unfold SetAssociativeCache.check_hit in Hh. repeat (step_result; try done). }
  subst l0. simpl in Hhit. destruct b0; [by injection Hhit as <-|].
  assert (Hr : forall h, SetAssociativeCache.read_data h c0 a = Raise KeyError).
  { intros h. apply (level_read_absent_raises h c0 a _ (a mod SetAssociativeCache.block_size c0) Hh).
    unfold SetAssociativeCache.get_offset. by apply py_mod_nonzero. }
  split; [done|]. split; [by destruct (check_hit_levels_some _ _ _ _ Hhit) as [_ ?]|].
  split; [exact Hr|].
  intros h. by apply (read_first_level_raises h cs c0 rest).
Qed.

Lemma hit_beyond_first_level_raises_witness :
  let cs := MMU.cache_system (fst evicted_mmu) in
  let c0 := default (SetAssociativeCache.mk 2 64 0 16 [] "set_associative" 4 (-1) 1)
                    (head (CacheSystem.cache_levels cs)) in
  let rest := tail (CacheSystem.cache_levels cs) in
  CacheSystem.cache_levels cs = c0 :: rest /\
  SetAssociativeCache.block_size c0 <> 0 /\
  CacheSystem.check_hit cs 0 = Ok (Some (true, 2)) /\
  2 <> SetAssociativeCache.level c0 /\
  SetAssociativeCache.check_hit c0 0 = Ok (false, SetAssociativeCache.level c0) /\
  (exists k ck,
     rest !! k = Some ck /\ 2 = SetAssociativeCache.level ck /\
     SetAssociativeCache.check_hit ck 0 = Ok (true, 2)) /\
  (forall h, SetAssociativeCache.read_data h c0 0 = Raise KeyError) /\
  (forall h, CacheSystem.read_data h cs 0 = (Raise KeyError, h)).
Proof.
  intros cs c0 rest.
  assert (H1 : CacheSystem.cache_levels cs = c0 :: rest) by reflexivity.
  assert (H2 : SetAssociativeCache.block_size c0 <> 0) by (vm_compute; discriminate).
  assert (H3 : CacheSystem.check_hit cs 0 = Ok (Some (true, 2))) by reflexivity.
  assert (H4 : 2 <> SetAssociativeCache.level c0) by (vm_compute; discriminate).
  split; [exact H1|]. split; [exact H2|]. split; [exact H3|]. split; [exact H4|].
  exact (hit_beyond_first_level_raises cs 0 c0 rest 2 H1 H2 H3 H4).
Defined.

End ReadFacts.

Section WriteFacts.
Implicit Types (c : SetAssociativeCache.t) (h : heap) (a : Z) (d : pyval).

(** After a successful [add_or_update] the tag maps to the given block. *)
Lemma add_or_update_installs h (s s' : CacheSet.t) (tag : Z) (l : loc) :
  CacheSet.add_or_update h s tag (PyDict l) = (Ok tt, s') ->
  OrderedDict.get (CacheSet.entries s') tag = Some l.
Proof.
  unfold CacheSet.add_or_update.
  destruct (_ <? _); [done|].
  destruct (OrderedDict.contains (CacheSet.entries s) tag) eqn:Hin.
  - unfold OrderedDict.move_to_end. rewrite get_setitem. intros [= <-]. simpl.
    rewrite get_app, get_remove. simpl. by rewrite Z.eqb_refl.
  - destruct (_ <=? _).
    + destruct (OrderedDict.popitem_first _) as [[kv e1]|]; [|done].
      intros [= <-]. simpl. apply get_setitem.
    + intros [= <-]. simpl. apply get_setitem.
Qed.

Lemma py_norm_index_lt (len : nat) (i : Z) (n : nat) :
  py_norm_index len i = Ok n -> (n < len)%nat.
Proof.
  unfold py_norm_index. destruct (_ || _) eqn:E; [done|]. intros [= <-].
  apply orb_false_iff in E as [E1 E2]. lia.
Qed.

(** After a successful [write_block] the address is resident in the level,
    in the block object that was passed. *)
Lemma write_block_installs h c c' a (blk : pyval) (x : option (loc * Z)) :
  SetAssociativeCache.write_block h c a blk = (Ok tt, c') ->
  cell c' a = Ok x ->
  exists l off, blk = PyDict l /\ x = Some (l, off).
Proof.
  unfold SetAssociativeCache.write_block.
  destruct blk as [| | | |l]; try done.
  destruct (_ <? _); [done|].
  destruct (SetAssociativeCache._get_set_index c a) as [idx|] eqn:Hidx; [|done].
  destruct (SetAssociativeCache.get_tag c a) as [tag|] eqn:Htag; [|done].
  destruct (py_norm_index _ idx) as [i|] eqn:Hi; [|done].
  destruct (SetAssociativeCache.cache_sets c !! i) as [s|] eqn:Hs; [|done].
  destruct (CacheSet.add_or_update h s tag (PyDict l)) as [r s'] eqn:Hadd.
  intros [= -> <-]. apply add_or_update_installs in Hadd.
  unfold cell.
  change (SetAssociativeCache._get_set_index (SetAssociativeCache.set_cache_sets c _) a)
    with (SetAssociativeCache._get_set_index c a).
  change (SetAssociativeCache.get_tag (SetAssociativeCache.set_cache_sets c _) a)
    with (SetAssociativeCache.get_tag c a).
  rewrite Hidx, Htag. simpl. unfold py_index. rewrite length_insert, Hi.
  rewrite list_lookup_insert_eq by (by eapply py_norm_index_lt). simpl.
  destruct (SetAssociativeCache.get_offset _ a) as [off|]; simpl; [|done].
  rewrite Hadd. intros [= <-]. eauto.
Qed.

Lemma load_levels_installs h (levels : list SetAssociativeCache.t) a blk : forall levels',
  CacheSystem.load_levels h levels a blk = (Ok tt, levels') ->
  Forall (fun c' => forall x, cell c' a = Ok x ->
                              exists l off, blk = PyDict l /\ x = Some (l, off)) levels'.
Proof.
  induction levels as [|c levels IH]; intros levels'; simpl.
  - intros [= <-]. constructor.
  - destruct (SetAssociativeCache.write_block h c a blk) as [[[]|e] c'] eqn:Hc; [|done].
    destruct (CacheSystem.load_levels h levels a blk) as [r rest'] eqn:Hl.
    intros [= -> <-]. constructor; [|by apply IH].
    intros x Hx. by eapply write_block_installs.
Qed.

(** What [CacheSystem.write_data] leaves in the levels. *)
Lemma write_data_levels h (cs : CacheSystem.t) a d h' :
  CacheSystem.write_data h cs a d = (Ok tt, h') ->
  Forall (fun c =>
            (SetAssociativeCache.check_hit c a = Ok (true, SetAssociativeCache.level c) /\
             SetAssociativeCache.read_data h' c a = Ok d) \/
            SetAssociativeCache.check_hit c a = Ok (false, SetAssociativeCache.level c))
         (CacheSystem.cache_levels cs) /\
  (forall h0 cs0 blk,
      CacheSystem.load_block h0 cs0 a blk = (Ok tt, cs) ->
      Forall (fun c => SetAssociativeCache.read_data h' c a = Ok d)
             (CacheSystem.cache_levels cs)).
Proof.
  intros Hw. unfold CacheSystem.write_data in Hw.
  destruct (write_levels_effect _ _ _ _ _ Hw) as [_ Hall].
  assert (Hcells : Forall (fun c => exists x, cell c a = Ok x) (CacheSystem.cache_levels cs)).
  { clear Hall. revert h Hw. induction (CacheSystem.cache_levels cs) as [|c ls IH];
      intros h Hw; [constructor|]. simpl in Hw.
    destruct (SetAssociativeCache.write_data h c a d) as [[[]|e] h1] eqn:Hc; [|done].
    constructor; [by eapply write_data_ok_cell | by eapply IH]. }
  split.
  - rewrite Forall_forall in Hall, Hcells. apply Forall_forall. intros c Hin.
    destruct (Hcells c Hin) as [[[l off]|] Hc].
    + left. destruct (cell_resident c a l off h' d Hc) as (Hhit & Hread & _).
      split; [exact Hhit|]. rewrite Hread. f_equal. by eapply Hall.
    + right. by destruct (cell_absent c a h' d Hc) as (Hhit & _).
  - intros h0 cs0 blk Hload. unfold CacheSystem.load_block in Hload.
    destruct (CacheSystem.load_levels h0 _ a blk) as [r cl] eqn:Hl.
    injection Hload as -> <-. simpl in *.
    pose proof (load_levels_installs _ _ _ _ _ Hl) as Hinst.
    rewrite Forall_forall in Hall, Hcells, Hinst. apply Forall_forall. intros c Hin.
    destruct (Hcells c Hin) as [x Hc].
    destruct (Hinst c Hin x Hc) as (l & off & _ & ->).
    destruct (cell_resident c a l off h' d Hc) as (_ & Hread & _).
    rewrite Hread. f_equal. by eapply Hall.
Qed.

(** C2 (as the code has it). After [CacheSystem.write_data(a, d)] and the
    write to memory: memory reads [d] at [a]; every level either holds a
    block for [a] and reads [d] there, or holds none, and then still holds
    none: the write allocates nothing (the levels themselves are not touched,
    only block objects are). When the hierarchy is the outcome of [load_block]
    at [a], as on the MMU's miss path, every level holds the block and reads
    [d]. *)
Theorem write_through h (cs : CacheSystem.t) (m : Memory.t) a d h' :
  CacheSystem.write_data h cs a d = (Ok tt, h') ->
  Memory.read (Memory.write_data m a d) a = d /\
  Forall (fun c =>
            (SetAssociativeCache.check_hit c a = Ok (true, SetAssociativeCache.level c) /\
             SetAssociativeCache.read_data h' c a = Ok d) \/
            SetAssociativeCache.check_hit c a = Ok (false, SetAssociativeCache.level c))
         (CacheSystem.cache_levels cs) /\
  (forall h0 cs0 blk,
      CacheSystem.load_block h0 cs0 a blk = (Ok tt, cs) ->
      Forall (fun c => SetAssociativeCache.read_data h' c a = Ok d)
             (CacheSystem.cache_levels cs)).
Proof.
  intros Hw. split; [apply read_after_write_data | by apply (write_data_levels h)].
Qed.

End WriteFacts.

Lemma write_through_witness :
  let h' := dict_setitem two_blocks 2%positive 0 (PyInt 9) in
  CacheSystem.write_data two_blocks loaded_levels 64 (PyInt 9) = (Ok tt, h') /\
  Memory.read (Memory.write_data (Memory.__init__ 1024) 64 (PyInt 9)) 64 = PyInt 9 /\
  length (CacheSystem.cache_levels loaded_levels) = 3%nat /\
  Forall (fun c => SetAssociativeCache.read_data h' c 64 = Ok (PyInt 9))
         (CacheSystem.cache_levels loaded_levels).
Proof.
  intros h'.
  assert (Hw : CacheSystem.write_data two_blocks loaded_levels 64 (PyInt 9) = (Ok tt, h'))
    by (vm_compute; reflexivity).
  destruct (write_through _ _ (Memory.__init__ 1024) _ _ _ Hw) as (H1 & _ & H3).
  split; [exact Hw|]. split; [exact H1|]. split; [reflexivity|].
  apply (H3 two_blocks small_levels (PyDict 2%positive)). vm_compute; reflexivity.
Defined.

(** C2, as stated, fails: on a hierarchy that holds nothing, [write_data]
    returns normally, no level holds the address afterwards and no level
    answers the datum. *)
Lemma write_data_does_not_allocate :
  exists h',
    small_system = Ok small_levels /\
    length (CacheSystem.cache_levels small_levels) = 3%nat /\
    CacheSystem.write_data ∅ small_levels 0 (PyInt 7) = (Ok tt, h') /\
    CacheSystem.check_hit small_levels 0 = Ok None /\
    Forall (fun c => SetAssociativeCache.read_data h' c 0 <> Ok (PyInt 7))
           (CacheSystem.cache_levels small_levels).
Proof.
  eexists. split; [reflexivity|]. split; [reflexivity|].
  split; [vm_compute; reflexivity|]. split; [vm_compute; reflexivity|].
  repeat constructor; vm_compute; discriminate.
Qed.

(** ** Writing one element of a block *)

Section WriteOffsetFacts.
Implicit Types (c : SetAssociativeCache.t) (h : heap) (a : Z) (d : pyval).

(** C9 (as the code has it). [CacheSet.write_data] never raises. For a tag
    that is not in the set it returns [False] and changes nothing, and the
    level's [write_data] drops that value, so the write is silently lost. For
    a tag in the set it stores the datum under the offset in the block object
    kept under the tag: that object changes at this one key, no other object
    changes, and the call returns [None]. *)
Theorem write_data_one_element h (s : CacheSet.t) (tag off : Z) d :
  (if CacheSet.check_hit s tag
   then exists l h',
       CacheSet.get_block s tag = PyDict l /\
       CacheSet.write_data h s tag off d = (Ok PyNone, h') /\
       deref h' l = <[off := d]> (deref h l) /\
       (forall l', l' <> l -> h' !! l' = h !! l')
   else CacheSet.write_data h s tag off d = (Ok (PyBool false), h)) /\
  (forall c a lvl o,
      SetAssociativeCache.check_hit c a = Ok (false, lvl) ->
      SetAssociativeCache.get_offset c a = Ok o ->
      SetAssociativeCache.write_data h c a d = (Ok tt, h)).
Proof.
  split.
  - unfold CacheSet.check_hit, OrderedDict.contains, CacheSet.get_block,
      CacheSet.write_data.
    destruct (OrderedDict.get (CacheSet.entries s) tag) as [l|]; [|done].
    exists l, (dict_setitem h l off d). split; [done|]. split; [done|].
    split; [apply deref_setitem|].
    intros l' Hne. unfold dict_setitem. by rewrite lookup_insert_ne.
  - intros c a lvl o Hhit Hoff.
    destruct (check_hit_cell _ _ _ _ _ Hhit Hoff) as [_ Hc].
    by destruct (cell_absent c a h d Hc) as (_ & _ & ?).
Qed.

(** C9, as stated, fails: writing under a tag that an empty set does not
    hold raises nothing; the set-level call returns [False], the level-level
    call returns normally, and the heap is as before. *)
Lemma write_data_absent_no_error :
  CacheSet.check_hit (CacheSet.__init__ 2 16) 5 = false /\
  CacheSet.write_data ∅ (CacheSet.__init__ 2 16) 5 0 (PyInt 1) = (Ok (PyBool false), ∅) /\
  (forall e h', CacheSet.write_data ∅ (CacheSet.__init__ 2 16) 5 0 (PyInt 1) <> (Raise e, h')) /\
  map (fun c => SetAssociativeCache.write_data ∅ c 80 (PyInt 1))
      (CacheSystem.cache_levels small_levels)
    = [(Ok tt, ∅); (Ok tt, ∅); (Ok tt, ∅)].
Proof.
  split; [reflexivity|]. split; [reflexivity|]. split; [intros e h'; discriminate|].
  reflexivity.
Qed.

End WriteOffsetFacts.

(** ** Address decomposition *)

Section AddressFacts.
Implicit Types (c : SetAssociativeCache.t) (A : Z).

(** The set index is the one the specification gives. *)
Lemma set_index_formula c A (b s : Z) :
  SetAssociativeCache.cache_type c = "direct_mapped" \/
  SetAssociativeCache.cache_type c = "set_associative" ->
  0 <= b -> 0 <= s ->
  SetAssociativeCache.offset_bits c = bit_length (2 ^ b) - 1 ->
  SetAssociativeCache.index_bits c = bit_length (2 ^ s) - 1 ->
  SetAssociativeCache._get_set_index c A = Ok (Z.shiftr A b mod 2 ^ s).
Proof.
  intros Hty Hb Hs Hob Hib. unfold SetAssociativeCache._get_set_index.
  rewrite Hob, Hib, !bit_length_pow2 by lia.
  replace (b + 1 - 1) with b by lia. replace (s + 1 - 1) with s by lia.
  rewrite py_rshift_nonneg, py_lshift_nonneg by lia. simpl.
  rewrite land_mask by lia.
  destruct Hty as [-> | ->]; reflexivity.
Qed.

(** The tag the code computes shifts by the bit length of the index
    {e value}, not by the number of index bits. *)
Lemma tag_formula_code c A (b s : Z) :
  SetAssociativeCache.cache_type c = "direct_mapped" \/
  SetAssociativeCache.cache_type c = "set_associative" ->
  0 <= b -> 0 <= s ->
  SetAssociativeCache.block_size c = 2 ^ b ->
  SetAssociativeCache.offset_bits c = bit_length (2 ^ b) - 1 ->
  SetAssociativeCache.index_bits c = bit_length (2 ^ s) - 1 ->
  SetAssociativeCache.get_tag c A =
    Ok (Z.shiftr A (bit_length (Z.shiftr A b mod 2 ^ s) + b)).
Proof.
  intros Hty Hb Hs Hbs Hob Hib. unfold SetAssociativeCache.get_tag.
  rewrite (set_index_formula c A b s) by done. simpl.
  rewrite Hbs, bit_length_pow2 by lia.
  pose proof (bit_length_nonneg (Z.shiftr A b mod 2 ^ s)).
  rewrite py_rshift_nonneg by lia.
  replace (bit_length (Z.shiftr A b mod 2 ^ s) + (b + 1) - 1)
    with (bit_length (Z.shiftr A b mod 2 ^ s) + b) by lia.
  destruct Hty as [-> | ->]; reflexivity.
Qed.

(** It agrees with the specification's tag on the addresses whose index
    has its top bit set, where the two shift counts coincide. *)
Lemma tag_formula_top_index c A (b s : Z) :
  SetAssociativeCache.cache_type c = "direct_mapped" \/
  SetAssociativeCache.cache_type c = "set_associative" ->
  0 <= b -> 1 <= s ->
  SetAssociativeCache.block_size c = 2 ^ b ->
  SetAssociativeCache.offset_bits c = bit_length (2 ^ b) - 1 ->
  SetAssociativeCache.index_bits c = bit_length (2 ^ s) - 1 ->
  2 ^ (s - 1) <= Z.shiftr A b mod 2 ^ s ->
  SetAssociativeCache.get_tag c A = Ok (Z.shiftr A (b + s)).
Proof.
  intros Hty Hb Hs Hbs Hob Hib Htop.
  rewrite (tag_formula_code c A b s) by (done || lia). do 2 f_equal.
  set (i := Z.shiftr A b mod 2 ^ s) in *.
  assert (Hi : 0 < i) by (pose proof (Z.pow_pos_nonneg 2 (s - 1)); lia).
  assert (Hlt : i < 2 ^ s) by (apply Z.mod_pos_bound, Z.pow_pos_nonneg; lia).
  rewrite bit_length_log2 by done.
  assert (Z.log2 i = s - 1); [|lia].
  apply Z.log2_unique; [lia|]. replace (Z.succ (s - 1)) with s by lia. lia.
Qed.

Lemma fully_associative_formula c A :
  SetAssociativeCache.cache_type c = "fully_associative" ->
  SetAssociativeCache.line_size c <> 0 ->
  SetAssociativeCache._get_set_index c A = Ok 0 /\
  SetAssociativeCache.get_tag c A = Ok (A / SetAssociativeCache.line_size c).
Proof.
  intros Hty Hls. unfold SetAssociativeCache.get_tag, SetAssociativeCache._get_set_index.
  rewrite Hty. simpl. by rewrite py_floordiv_nonzero.
Qed.

(** C5 (the code departs from it). The default first level has block size
    [B = 2^4] and [S = 2^8] sets. For address 0x1000 the set index is the
    specified [(A >> 4) mod 2^8 = 0], but [get_tag] returns 0x100 where the
    specified tag [A >> (4 + 8)] is 1. A fully associative level with the
    same block size returns tag [16 // 64 = 0] for address 16 where the
    specified [A div B] is 1. *)
Theorem get_tag_departs_from_formula :
  exists c f,
    SetAssociativeCache.__init__ 1 (32 * 1024) 64 2 16 "set_associative" = Ok c /\
    SetAssociativeCache.block_size c = 2 ^ 4 /\
    SetAssociativeCache.num_sets c = 2 ^ 8 /\
    SetAssociativeCache._get_set_index c 4096 = Ok (Z.shiftr 4096 4 mod 2 ^ 8) /\
    SetAssociativeCache.get_tag c 4096 = Ok 256 /\
    Z.shiftr 4096 (4 + 8) = 1 /\
    SetAssociativeCache.__init__ 1 (32 * 1024) 64 2 16 "fully_associative" = Ok f /\
    SetAssociativeCache.block_size f = 16 /\
    SetAssociativeCache._get_set_index f 16 = Ok 0 /\
    SetAssociativeCache.get_tag f 16 = Ok 0 /\
    16 / 16 = 1.
Proof.
  eexists _, _. split; [vm_compute; reflexivity|].
  repeat (split; [vm_compute; reflexivity|]). reflexivity.
Qed.

End AddressFacts.

(** ** LRU replacement *)

Section LruFacts.

(** Three distinct tags put into an empty 2-way CacheSet, then the first
    again: the third put evicts the first tag, the fourth evicts the second. *)
Lemma cacheset_lru_order (h : heap) (bs tA tB tC : Z) (lA lB lC : loc) :
  tA <> tB -> tA <> tC -> tB <> tC ->
  Z.of_nat (size (deref h lA)) <= bs ->
  Z.of_nat (size (deref h lB)) <= bs ->
  Z.of_nat (size (deref h lC)) <= bs ->
  exists s1 s2 s3 s4,
    CacheSet.add_or_update h (CacheSet.__init__ 2 bs) tA (PyDict lA) = (Ok tt, s1) /\
    CacheSet.add_or_update h s1 tB (PyDict lB) = (Ok tt, s2) /\
    CacheSet.entries s2 = [(tA, lA); (tB, lB)] /\
    CacheSet.add_or_update h s2 tC (PyDict lC) = (Ok tt, s3) /\
    CacheSet.entries s3 = [(tB, lB); (tC, lC)] /\
    CacheSet.add_or_update h s3 tA (PyDict lA) = (Ok tt, s4) /\
    CacheSet.entries s4 = [(tC, lC); (tA, lA)].
Proof.
  intros Hab Hac Hbc HA HB HC.
  assert (Eab : (tA =? tB) = false) by by apply Z.eqb_neq.
  assert (Eac : (tA =? tC) = false) by by apply Z.eqb_neq.
  assert (Ebc : (tB =? tC) = false) by by apply Z.eqb_neq.
  assert (Eba : (tB =? tA) = false) by (apply Z.eqb_neq; congruence).
  assert (Eca : (tC =? tA) = false) by (apply Z.eqb_neq; congruence).
  assert (EA : (bs <? Z.of_nat (size (deref h lA))) = false) by by apply Z.ltb_ge.
  assert (EB : (bs <? Z.of_nat (size (deref h lB))) = false) by by apply Z.ltb_ge.
  assert (EC : (bs <? Z.of_nat (size (deref h lC))) = false) by by apply Z.ltb_ge.
  eexists _, _, _, _.
  repeat match goal with
         | |- _ /\ _ => split
         | |- _ =>
             unfold CacheSet.add_or_update, OrderedDict.contains, OrderedDict.setitem,
               OrderedDict.contains, OrderedDict.move_to_end;
             repeat (simpl; rewrite ?EA, ?EB, ?EC, ?Eab, ?Eac, ?Ebc, ?Eba, ?Eca);
             reflexivity
         end.
Qed.

Lemma lru_index_range (c : LruTest.t) (x idx : Z) :
  0 < LruTest.num_sets c -> 0 < LruTest.block_size c ->
  LruTest._get_set_index c x = Ok idx ->
  0 <= idx < LruTest.num_sets c.
Proof.
  intros Hns Hbs. unfold LruTest._get_set_index.
  assert (1 <= bit_length (LruTest.block_size c)).
  { rewrite bit_length_log2 by lia. pose proof (Z.log2_nonneg (LruTest.block_size c)). lia. }
  assert (1 <= bit_length (LruTest.num_sets c)).
  { rewrite bit_length_log2 by lia. pose proof (Z.log2_nonneg (LruTest.num_sets c)). lia. }
  rewrite py_rshift_nonneg, py_lshift_nonneg by lia. simpl. intros [= <-].
  rewrite land_mask by lia.
  pose proof (bit_length_bounds _ Hns).
  pose proof (Z.mod_pos_bound (Z.shiftr x (bit_length (LruTest.block_size c) - 1))
                (2 ^ (bit_length (LruTest.num_sets c) - 1))
                ltac:(apply Z.pow_pos_nonneg; lia)). lia.
Qed.

Lemma py_norm_index_in_range (len : nat) (i : Z) :
  0 <= i < Z.of_nat len -> py_norm_index len i = Ok (Z.to_nat i).
Proof.
  intros Hi. unfold py_norm_index.
  destruct (Z.ltb_spec i 0); [lia|]. destruct (Z.ltb_spec i 0); [lia|].
  destruct (Z.leb_spec (Z.of_nat len) i); [lia | done].
Qed.

(** [access_cache] once the set of the address is located. *)
Lemma access_cache_at (c : LruTest.t) (x idx : Z) (cset : gmap Z bool) (uset : list (Z * Z)) :
  LruTest._get_set_index c x = Ok idx ->
  0 <= idx < Z.of_nat (length (LruTest.cache c)) ->
  length (LruTest.usage_order c) = length (LruTest.cache c) ->
  0 < LruTest.block_size c ->
  LruTest.cache c !! Z.to_nat idx = Some cset ->
  LruTest.usage_order c !! Z.to_nat idx = Some uset ->
  let i := Z.to_nat idx in
  let tag := Z.shiftr x (bit_length idx + bit_length (LruTest.block_size c) - 1) in
  LruTest.access_cache c x =
  match cset !! tag with
  | Some _ =>
      (Ok true,
       LruTest.set_state c (LruTest.cache c)
         (<[i := OrderedDict.setitem uset tag (LruTest.max_value uset + 1)]>
            (LruTest.usage_order c)))
  | None =>
      if Z.of_nat (size cset) <? LruTest.n c then
        (Ok false,
         LruTest.set_state c (<[i := <[tag := true]> cset]> (LruTest.cache c))
           (<[i := OrderedDict.setitem uset tag (LruTest.max_value uset + 1)]>
              (LruTest.usage_order c)))
      else
        match LruTest.min_key uset with
        | Raise e => (Raise e, c)
        | Ok lru_tag =>
            match cset !! lru_tag with
            | None => (Raise KeyError, c)
            | Some _ =>
                let uset' := OrderedDict.remove uset lru_tag in
                (Ok false,
                 LruTest.set_state c
                   (<[i := <[tag := true]> (delete lru_tag cset)]> (LruTest.cache c))
                   (<[i := OrderedDict.setitem uset' tag (LruTest.max_value uset' + 1)]>
                      (LruTest.usage_order c)))
            end
        end
  end.
Proof.
  intros Hidx Hrange Hlen Hbs Hc Hu i tag. unfold LruTest.access_cache.
  rewrite Hidx.
  assert (1 <= bit_length (LruTest.block_size c)).
  { rewrite bit_length_log2 by lia. pose proof (Z.log2_nonneg (LruTest.block_size c)). lia. }
  pose proof (bit_length_nonneg idx).
  rewrite py_rshift_nonneg by lia. rewrite Hlen.
  rewrite py_norm_index_in_range by lia. cbv iota beta. subst i.
  rewrite Hc, Hu. reflexivity.
Qed.

End LruFacts.

Section LruTestFacts.

Lemma lru_set_at_update (c : LruTest.t) idx cset uset cs' us' :
  lru_set_at c idx cset uset ->
  lru_set_at (LruTest.set_state c (<[Z.to_nat idx := cs']> (LruTest.cache c))
                (<[Z.to_nat idx := us']> (LruTest.usage_order c))) idx cs' us'.
Proof.
  intros (Hr & Hl & Hb & Hc & Hu). unfold lru_set_at. simpl.
  rewrite !length_insert. split; [done|]. split; [done|]. split; [done|].
  split; apply list_lookup_insert_eq; lia.
Qed.

Lemma lru_init_set_at cache_size bs n (c0 : LruTest.t) x idx :
  LruTest.__init__ cache_size bs n = Ok c0 ->
  0 < LruTest.num_sets c0 -> 0 < bs ->
  LruTest._get_set_index c0 x = Ok idx ->
  LruTest.n c0 = n /\ LruTest.block_size c0 = bs /\ lru_set_at c0 idx ∅ [].
Proof.
  intros Hinit Hns Hbs Hidx.
  unfold LruTest.__init__ in Hinit.
  destruct (py_floordiv _ _) as [ns|]; simpl in Hinit; [|done].
  injection Hinit as <-.
  split; [done|]. split; [done|].
  pose proof (lru_index_range _ x idx Hns Hbs Hidx) as Hr. simpl in Hr, Hns.
  unfold lru_set_at. simpl. rewrite !length_replicate.
  split; [lia|]. split; [done|]. split; [done|].
  split; apply lookup_replicate_2; lia.
Qed.

(** A miss in a set that has room: the tag is added, nothing is evicted. *)
Lemma access_miss_room (c : LruTest.t) x idx cset uset :
  lru_set_at c idx cset uset ->
  LruTest._get_set_index c x = Ok idx ->
  let tag := Z.shiftr x (bit_length idx + bit_length (LruTest.block_size c) - 1) in
  cset !! tag = None ->
  Z.of_nat (size cset) < LruTest.n c ->
  exists c',
    LruTest.access_cache c x = (Ok false, c') /\
    LruTest.n c' = LruTest.n c /\
    LruTest.block_size c' = LruTest.block_size c /\
    (forall y, LruTest._get_set_index c' y = LruTest._get_set_index c y) /\
    lru_set_at c' idx (<[tag := true]> cset)
      (OrderedDict.setitem uset tag (LruTest.max_value uset + 1)).
Proof.
  intros Hat Hidx tag Hmiss Hroom. pose proof Hat as (Hr & Hl & Hb & Hc & Hu).
  eexists. split.
  - rewrite (access_cache_at c x idx cset uset Hidx Hr Hl Hb Hc Hu). cbv zeta.
    fold tag. rewrite Hmiss. destruct (Z.ltb_spec (Z.of_nat (size cset)) (LruTest.n c)); [|lia].
    reflexivity.
  - split; [done|]. split; [done|]. split; [done|]. eapply lru_set_at_update; exact Hat.
Qed.

(** A miss in a full set: the tag [min] picks, the one with the smallest
    usage counter, leaves the set and the new tag enters. *)
Lemma access_miss_full (c : LruTest.t) x idx cset uset lru_tag :
  lru_set_at c idx cset uset ->
  LruTest._get_set_index c x = Ok idx ->
  let tag := Z.shiftr x (bit_length idx + bit_length (LruTest.block_size c) - 1) in
  cset !! tag = None ->
  LruTest.n c <= Z.of_nat (size cset) ->
  LruTest.min_key uset = Ok lru_tag ->
  is_Some (cset !! lru_tag) ->
  exists c',
    LruTest.access_cache c x = (Ok false, c') /\
    LruTest.n c' = LruTest.n c /\
    LruTest.block_size c' = LruTest.block_size c /\
    (forall y, LruTest._get_set_index c' y = LruTest._get_set_index c y) /\
    lru_set_at c' idx (<[tag := true]> (delete lru_tag cset))
      (OrderedDict.setitem (OrderedDict.remove uset lru_tag) tag
         (LruTest.max_value (OrderedDict.remove uset lru_tag) + 1)).
Proof.
  intros Hat Hidx tag Hmiss Hfull Hmin [v Hv]. pose proof Hat as (Hr & Hl & Hb & Hc & Hu).
  eexists. split.
  - rewrite (access_cache_at c x idx cset uset Hidx Hr Hl Hb Hc Hu). cbv zeta.
    fold tag. rewrite Hmiss. destruct (Z.ltb_spec (Z.of_nat (size cset)) (LruTest.n c)); [lia|].
    rewrite Hmin, Hv. reflexivity.
  - split; [done|]. split; [done|]. split; [done|]. eapply lru_set_at_update; exact Hat.
Qed.

Lemma lru_test_order cache_size bs (c0 : LruTest.t) (a b c idx : Z) :
  LruTest.__init__ cache_size bs 2 = Ok c0 ->
  0 < LruTest.num_sets c0 -> 0 < bs ->
  LruTest._get_set_index c0 a = Ok idx ->
  LruTest._get_set_index c0 b = Ok idx ->
  LruTest._get_set_index c0 c = Ok idx ->
  let sh := bit_length idx + bit_length bs - 1 in
  let tA := Z.shiftr a sh in
  let tB := Z.shiftr b sh in
  let tC := Z.shiftr c sh in
  tA <> tB -> tA <> tC -> tB <> tC ->
  exists c3 c4,
    LruTest.access_all c0 [a; b; c] = (Ok [false; false; false], c3) /\
    lru_set_at c3 idx (<[tC := true]> (<[tB := true]> ∅)) [(tB, 2); (tC, 3)] /\
    LruTest.access_all c0 [a; b; c; a] = (Ok [false; false; false; false], c4) /\
    lru_set_at c4 idx (<[tA := true]> (<[tC := true]> ∅)) [(tC, 3); (tA, 4)].
Proof.
  intros Hinit Hns Hbs Ha Hb Hc sh tA tB tC Hab Hac Hbc.
  destruct (lru_init_set_at _ _ _ _ _ _ Hinit Hns Hbs Ha) as (Hn & Hbsz & H0).
  assert (Eab : (tA =? tB) = false) by by apply Z.eqb_neq.
  assert (Eac : (tA =? tC) = false) by by apply Z.eqb_neq.
  assert (Ebc : (tB =? tC) = false) by by apply Z.eqb_neq.
  assert (Eba : (tB =? tA) = false) by (apply Z.eqb_neq; congruence).
  assert (Eca : (tC =? tA) = false) by (apply Z.eqb_neq; congruence).
  assert (Ecb : (tC =? tB) = false) by (apply Z.eqb_neq; congruence).
  assert (U1 : OrderedDict.setitem [] tA (LruTest.max_value [] + 1) = [(tA, 1)])
    by reflexivity.
  assert (U2 : OrderedDict.setitem [(tA, 1)] tB (LruTest.max_value [(tA, 1)] + 1)
               = [(tA, 1); (tB, 2)]).
  { unfold OrderedDict.setitem, OrderedDict.contains. simpl. by rewrite Eab. }
  assert (U3 : OrderedDict.setitem (OrderedDict.remove [(tA, 1); (tB, 2)] tA) tC
                 (LruTest.max_value (OrderedDict.remove [(tA, 1); (tB, 2)] tA) + 1)
               = [(tB, 2); (tC, 3)]).
  { unfold OrderedDict.setitem, OrderedDict.contains. simpl.
    rewrite Z.eqb_refl, Eba. simpl. by rewrite Ebc. }
  assert (U4 : OrderedDict.setitem (OrderedDict.remove [(tB, 2); (tC, 3)] tB) tA
                 (LruTest.max_value (OrderedDict.remove [(tB, 2); (tC, 3)] tB) + 1)
               = [(tC, 3); (tA, 4)]).
  { unfold OrderedDict.setitem, OrderedDict.contains. simpl.
    rewrite Z.eqb_refl, Ecb. simpl. by rewrite Eca. }
  assert (M3 : delete tA (<[tB := true]> (<[tA := true]> (∅ : gmap Z bool)))
               = <[tB := true]> ∅).
  { rewrite delete_insert_ne by done. by rewrite delete_insert_eq, delete_empty. }
  assert (M4 : delete tB (<[tC := true]> (<[tB := true]> (∅ : gmap Z bool)))
               = <[tC := true]> ∅).
  { rewrite delete_insert_ne by done. by rewrite delete_insert_eq, delete_empty. }
  (* a: miss, the set is empty *)
  destruct (access_miss_room c0 a idx ∅ [] H0 Ha) as (c1 & E1 & Hn1 & Hb1 & Hi1 & H1).
  { apply lookup_empty. } { rewrite map_size_empty. lia. }
  rewrite Hbsz in H1. fold sh tA in H1. rewrite U1 in H1.
  (* b: miss, one way is free *)
  destruct (access_miss_room c1 b idx _ _ H1) as (c2 & E2 & Hn2 & Hb2 & Hi2 & H2).
  { by rewrite Hi1. }
  { rewrite Hb1, Hbsz. fold sh tB. by rewrite lookup_insert_ne, lookup_empty. }
  { rewrite map_size_insert_None, map_size_empty by done. lia. }
  rewrite Hb1, Hbsz in H2. fold sh tB in H2. rewrite U2 in H2.
  (* c: miss, the set is full; the smallest counter is that of a *)
  destruct (access_miss_full c2 c idx _ _ tA H2) as (c3 & E3 & Hn3 & Hb3 & Hi3 & H3).
  { by rewrite Hi2, Hi1. }
  { rewrite Hb2, Hb1, Hbsz. fold sh tC.
    by rewrite !lookup_insert_ne, lookup_empty by done. }
  { rewrite !map_size_insert_None, map_size_empty;
      [lia | done | by rewrite lookup_insert_ne, lookup_empty]. }
  { reflexivity. }
  { rewrite lookup_insert_ne, lookup_insert_eq by done. eauto. }
  rewrite Hb2, Hb1, Hbsz in H3. fold sh tC in H3. rewrite U3, M3 in H3.
  (* a again: miss, the smallest counter is now that of b *)
  destruct (access_miss_full c3 a idx _ _ tB H3) as (c4 & E4 & Hn4 & Hb4 & Hi4 & H4).
  { by rewrite Hi3, Hi2, Hi1. }
  { rewrite Hb3, Hb2, Hb1, Hbsz. fold sh tA.
    rewrite !lookup_insert_ne, lookup_empty by congruence. done. }
  { rewrite !map_size_insert_None, map_size_empty;
      [lia | done | by rewrite lookup_insert_ne, lookup_empty]. }
  { reflexivity. }
  { rewrite lookup_insert_ne, lookup_insert_eq by done. eauto. }
  rewrite Hb3, Hb2, Hb1, Hbsz in H4. fold sh tA in H4. rewrite U4, M4 in H4.
  exists c3, c4. simpl. rewrite E1, E2, E3, E4. done.
Qed.

End LruTestFacts.

(** C4 (as the code has it). Three accesses A, B, C with distinct tags to
    one empty 2-way set, then A again. The insertion of C forces an eviction
    and the tag that leaves is A, the least recently used one; B stays. B is
    the tag the fourth access, the re-insertion of A, evicts. This holds for
    [CacheSet.add_or_update] (first part) and for [access_cache] of the LRU
    test cache (second part), where all four accesses are misses. *)
Theorem lru_evicts_oldest :
  (forall (h : heap) (bs tA tB tC : Z) (lA lB lC : loc),
      tA <> tB -> tA <> tC -> tB <> tC ->
      Z.of_nat (size (deref h lA)) <= bs ->
      Z.of_nat (size (deref h lB)) <= bs ->
      Z.of_nat (size (deref h lC)) <= bs ->
      exists s1 s2 s3 s4,
        CacheSet.add_or_update h (CacheSet.__init__ 2 bs) tA (PyDict lA) = (Ok tt, s1) /\
        CacheSet.add_or_update h s1 tB (PyDict lB) = (Ok tt, s2) /\
        CacheSet.entries s2 = [(tA, lA); (tB, lB)] /\
        CacheSet.add_or_update h s2 tC (PyDict lC) = (Ok tt, s3) /\
        CacheSet.entries s3 = [(tB, lB); (tC, lC)] /\
        CacheSet.add_or_update h s3 tA (PyDict lA) = (Ok tt, s4) /\
        CacheSet.entries s4 = [(tC, lC); (tA, lA)]) /\
  (forall (cache_size bs : Z) (c0 : LruTest.t) (a b c idx : Z),
      LruTest.__init__ cache_size bs 2 = Ok c0 ->
      0 < LruTest.num_sets c0 -> 0 < bs ->
      LruTest._get_set_index c0 a = Ok idx ->
      LruTest._get_set_index c0 b = Ok idx ->
      LruTest._get_set_index c0 c = Ok idx ->
      let sh := bit_length idx + bit_length bs - 1 in
      let tA := Z.shiftr a sh in
      let tB := Z.shiftr b sh in
      let tC := Z.shiftr c sh in
      tA <> tB -> tA <> tC -> tB <> tC ->
      exists c3 c4,
        LruTest.access_all c0 [a; b; c] = (Ok [false; false; false], c3) /\
        lru_set_at c3 idx (<[tC := true]> (<[tB := true]> ∅)) [(tB, 2); (tC, 3)] /\
        LruTest.access_all c0 [a; b; c; a] = (Ok [false; false; false; false], c4) /\
        lru_set_at c4 idx (<[tA := true]> (<[tC := true]> ∅)) [(tC, 3); (tA, 4)]).
Proof. split; [exact cacheset_lru_order | exact lru_test_order]. Qed.

Lemma lru_evicts_oldest_witness :
  (exists s3,
      put_trace (CacheSet.__init__ 2 16)
        [ (two_blocks, 10, PyDict 1%positive); (two_blocks, 11, PyDict 2%positive);
          (two_blocks, 12, PyDict 1%positive) ] !! 2%nat = Some s3 /\
      CacheSet.entries s3 = [(11, 2%positive); (12, 1%positive)]) /\
  (exists c0 c3,
      LruTest.__init__ 2048 64 2 = Ok c0 /\
      LruTest.access_all c0 [268435456; 536870912; 805306368]
        = (Ok [false; false; false], c3) /\
      lru_set_at c3 0 (<[12582912 := true]> (<[8388608 := true]> ∅))
        [(8388608, 2); (12582912, 3)]).
Proof.
  destruct lru_evicts_oldest as [Hset Htest]. split.
  - destruct (Hset two_blocks 16 10 11 12 1%positive 2%positive 1%positive)
      as (s1 & s2 & s3 & s4 & E1 & E2 & _ & E3 & H3 & _);
      [lia | lia | lia | vm_compute; discriminate | vm_compute; discriminate
       | vm_compute; discriminate |].
    exists s3. split; [|exact H3].
    cbn [put_trace]. rewrite E1. cbn [snd]. rewrite E2. cbn [snd]. rewrite E3. reflexivity.
  - destruct (Htest 2048 64 lru_fresh 268435456 536870912 805306368 0)
      as (c3 & c4 & E3 & H3 & _);
      [reflexivity | reflexivity | lia | reflexivity | reflexivity | reflexivity
       | vm_compute; discriminate | vm_compute; discriminate | vm_compute; discriminate |].
    exists lru_fresh, c3. split; [reflexivity|]. split; [exact E3 | exact H3].
Defined.

(** C4, as stated, fails: after A, B, C in the 2-way test cache (addresses
    0x10000000, 0x20000000, 0x30000000, all of set 0) the tag of B is still in
    the set and the tag of A is gone; likewise in a 2-way CacheSet. *)
Lemma lru_evicted_tag_is_A_not_B :
  (exists c0 c3 cset,
      LruTest.__init__ 2048 64 2 = Ok c0 /\
      map (LruTest._get_set_index c0) [268435456; 536870912; 805306368]
        = [Ok 0; Ok 0; Ok 0] /\
      LruTest.access_all c0 [268435456; 536870912; 805306368]
        = (Ok [false; false; false], c3) /\
      LruTest.cache c3 !! 0%nat = Some cset /\
      cset !! Z.shiftr 268435456 6 = None /\
      cset !! Z.shiftr 536870912 6 = Some true /\
      cset !! Z.shiftr 805306368 6 = Some true) /\
  map (fun s => (CacheSet.entries s).*1)
      (put_trace (CacheSet.__init__ 2 16)
         [ (two_blocks, 10, PyDict 1%positive); (two_blocks, 11, PyDict 2%positive);
           (two_blocks, 12, PyDict 1%positive) ])
    = [[10]; [10; 11]; [11; 12]].
Proof.
  split; [|reflexivity].
  eexists _, _, _. split; [reflexivity|]. split; [reflexivity|].
  split; [vm_compute; reflexivity|]. split; [vm_compute; reflexivity|].
  split; [vm_compute; reflexivity|]. split; vm_compute; reflexivity.
Qed.

(** ** Well-configured levels *)

Section ConfiguredFacts.
Implicit Types (c : SetAssociativeCache.t) (h : heap) (a : Z).

(** The constructor, given positive sizes, builds a well-configured level. *)
Lemma init_configured (lvl size line n bs : Z) (ty : string) c :
  SetAssociativeCache.__init__ lvl size line n bs ty = Ok c ->
  0 < bs -> line <> 0 -> 0 < SetAssociativeCache.num_sets c ->
  configured c.
Proof.
  unfold SetAssociativeCache.__init__. intros H Hbs Hline.
  destruct (if String.eqb ty "fully_associative" then _ else _) as [ns|]; [|done].
  simpl in H. injection H as <-. simpl. intros Hns.
  unfold configured. simpl. rewrite length_replicate. done.
Qed.

(** [write_block] changes the sets of a level, not its configuration. *)
Lemma write_block_configured h c a (blk : pyval) :
  configured c -> configured (snd (SetAssociativeCache.write_block h c a blk)).
Proof.
  intros Hc. unfold SetAssociativeCache.write_block.
  destruct blk; try done.
  destruct (_ <? _); [done|].
  destruct (SetAssociativeCache._get_set_index c a); [|done].
  destruct (SetAssociativeCache.get_tag c a); [|done].
  destruct (py_norm_index _ _); [|done].
  destruct (SetAssociativeCache.cache_sets c !! _); [|done].
  destruct (CacheSet.add_or_update _ _ _ _) as [r s']. simpl.
  destruct Hc as (? & ? & ? & ? & ? & Hlen). unfold configured. simpl.
  rewrite length_insert. done.
Qed.

Lemma load_levels_configured h (levels : list SetAssociativeCache.t) a (blk : pyval) :
  Forall configured levels ->
  Forall configured (snd (CacheSystem.load_levels h levels a blk)).
Proof.
  induction levels as [|c levels IH]; intros Hall; simpl; [done|].
  inversion Hall as [|? ? Hc Hrest]; subst.
  pose proof (write_block_configured h c a blk Hc) as Hc'.
  destruct (SetAssociativeCache.write_block h c a blk) as [[[]|e] c']; simpl in *.
  - specialize (IH Hrest).
    destruct (CacheSystem.load_levels h levels a blk) as [r rest']. simpl in *.
    by constructor.
  - by constructor.
Qed.

(** In a well-configured level every address has a cell: none of the steps
    of the address decomposition raises. *)
Lemma configured_cell c a : configured c -> exists x, cell c a = Ok x.
Proof.
  intros (Hbs & Hns & Hls & Hob & Hib & Hlen).
  assert (Hbl : 1 <= bit_length (SetAssociativeCache.block_size c)).
  { rewrite bit_length_log2 by lia.
    pose proof (Z.log2_nonneg (SetAssociativeCache.block_size c)). lia. }
  assert (Hnl : 1 <= bit_length (SetAssociativeCache.num_sets c)).
  { rewrite bit_length_log2 by lia.
    pose proof (Z.log2_nonneg (SetAssociativeCache.num_sets c)). lia. }
  assert (Hidx : exists idx, SetAssociativeCache._get_set_index c a = Ok idx /\
                             0 <= idx < SetAssociativeCache.num_sets c).
  { unfold SetAssociativeCache._get_set_index.
    destruct (_ || _); [|eexists; split; [done|lia]].
    rewrite Hob, Hib, py_rshift_nonneg, py_lshift_nonneg by lia. simpl.
    eexists. split; [reflexivity|]. rewrite land_mask by lia.
    pose proof (bit_length_bounds _ Hns).
    pose proof (Z.mod_pos_bound (Z.shiftr a (bit_length (SetAssociativeCache.block_size c) - 1))
                  (2 ^ (bit_length (SetAssociativeCache.num_sets c) - 1))
                  ltac:(apply Z.pow_pos_nonneg; lia)). lia. }
  destruct Hidx as (idx & Hidx & Hrange).
  assert (Htag : exists tag, SetAssociativeCache.get_tag c a = Ok tag).
  { unfold SetAssociativeCache.get_tag. destruct (String.eqb _ _).
    - rewrite py_floordiv_nonzero by done. eauto.
    - rewrite Hidx. simpl. pose proof (bit_length_nonneg idx).
      rewrite py_rshift_nonneg by lia. eauto. }
  destruct Htag as (tag & Htag).
  assert (Hs : exists s, py_index (SetAssociativeCache.cache_sets c) idx = Ok s).
  { unfold py_index, py_norm_index. rewrite Hlen.
    destruct (Z.ltb_spec idx 0); [lia|].
    destruct (Z.ltb_spec idx 0); [lia|]. simpl.
    destruct (Z.leb_spec (Z.of_nat (Z.to_nat (SetAssociativeCache.num_sets c))) idx); [lia|].
    destruct (SetAssociativeCache.cache_sets c !! Z.to_nat idx) eqn:E3; [eauto|].
    apply lookup_ge_None in E3. lia. }
  destruct Hs as (s & Hs).
  unfold cell. rewrite Hidx, Htag. simpl. rewrite Hs. simpl.
  unfold SetAssociativeCache.get_offset. rewrite py_mod_nonzero by lia.
  simpl. eauto.
Qed.

(** On a hierarchy of well-configured levels [write_data] never raises. *)
Lemma write_data_configured_ok h (cs : CacheSystem.t) a d :
  Forall configured (CacheSystem.cache_levels cs) ->
  exists h', CacheSystem.write_data h cs a d = (Ok tt, h').
Proof.
  intros Hall. apply write_levels_resident_ok.
  eapply Forall_impl; [exact Hall|]. intros c. apply configured_cell.
Qed.

(** The example hierarchies are well configured, so their writes return. *)
Example small_levels_configured :
  Forall configured (CacheSystem.cache_levels small_levels).
Proof.
  repeat constructor; simpl; try lia; try done.
Qed.

End ConfiguredFacts.

(** ** The MMU's write path *)

Section MmuWriteFacts.

Lemma translate_returns (m : MMU.t) (va rnd : Z) :
  exists pa m1,
    MMU.translate_address m va rnd = (Ok pa, m1) /\
    MMU.cache_system m1 = MMU.cache_system m /\
    MMU.memory m1 = MMU.memory m.
Proof.
  unfold MMU.translate_address. simpl.
  destruct (MMU.tlb m !! va); [by eexists _, _|].
  destruct (PageTable.get_physical_page_number _ _); simpl; by eexists _, _.
Qed.

Lemma mmu_write_path (m : MMU.t) (h : heap) (va rnd : Z) (d : pyval) res m' h' :
  is_none d = false ->
  MMU.process_virtual_address m h va d rnd = (Ok res, (m', h')) ->
  exists pa,
    MMU.physical_address res = Some pa /\
    Memory.read (MMU.memory m') pa = d /\
    Forall (fun c =>
              (SetAssociativeCache.check_hit c pa = Ok (true, SetAssociativeCache.level c) /\
               SetAssociativeCache.read_data h' c pa = Ok d) \/
              SetAssociativeCache.check_hit c pa = Ok (false, SetAssociativeCache.level c))
           (CacheSystem.cache_levels (MMU.cache_system m')) /\
    (MMU.cache_hit res = PyBool false ->
     Forall (fun c => SetAssociativeCache.read_data h' c pa = Ok d)
            (CacheSystem.cache_levels (MMU.cache_system m'))).
Proof.
  intros Hd. unfold MMU.process_virtual_address.
  destruct (translate_returns m va rnd) as (pa & m1 & -> & Hcs & Hmem).
  destruct (CacheSystem.check_hit (MMU.cache_system m1) pa) as [[[b level]|]|e]; [| |done].
  - rewrite Hd.
    destruct (CacheSystem.write_data h _ pa d) as [[[]|e] h1] eqn:Hw; [|done].
    intros [= <- <- <-]. exists pa. simpl. split; [done|].
    split; [apply read_after_write_data|].
    split; [by apply (write_data_levels _ _ _ _ _ Hw) | done].
  - destruct (Memory.get_block (MMU.memory m1) h pa 16) as [[blk|e] [mem h1]] eqn:Hg; [|done].
    destruct (CacheSystem.load_block h1 _ pa blk) as [[[]|e] cs'] eqn:Hl; [|done].
    simpl. rewrite Hd.
    destruct (CacheSystem.write_data h1 cs' pa d) as [[[]|e] h2] eqn:Hw; [|done].
    intros [= <- <- <-]. exists pa. simpl. split; [done|].
    split; [apply read_after_write_data|].
    destruct (write_data_levels _ _ _ _ _ Hw) as [H1 H2].
    split; [exact H1|]. intros _. eapply H2. exact Hl.
Qed.

(** A write through the MMU that hits: after 0x00 was evicted from L1 (see
    above), writing 9 to it reaches memory, L2 and L3, while L1 still does
    not hold the address. *)
Example mmu_write_after_l1_eviction :
  let '(m, h) := process_state small_mmu ∅
                   [(0, PyNone, 0); (32, PyNone, 0); (64, PyNone, 0); (0, PyInt 9, 0)] in
  Memory.read (MMU.memory m) 0 = PyInt 9 /\
  map (fun c => SetAssociativeCache.check_hit c 0)
      (CacheSystem.cache_levels (MMU.cache_system m))
    = [Ok (false, 1); Ok (true, 2); Ok (true, 3)] /\
  map (fun c => SetAssociativeCache.read_data h c 0)
      (CacheSystem.cache_levels (MMU.cache_system m))
    = [Raise KeyError; Ok (PyInt 9); Ok (PyInt 9)].
Proof. vm_compute. repeat split; reflexivity. Qed.

End MmuWriteFacts.

(** * Further properties *)

(** ** PageTable: insertion, update, removal *)

Section PageTableMore.
Implicit Types (pt : PageTable.t) (vpn ppn : Z).

Lemma get_add_ne pt vpn vpn' ppn :
  vpn <> vpn' ->
  PageTable.get_physical_page_number (PageTable.add_entry pt vpn ppn) vpn'
  = PageTable.get_physical_page_number pt vpn'.
Proof.
  intros H. unfold PageTable.get_physical_page_number. simpl. by rewrite lookup_insert_ne.
Qed.

Lemma add_all_untouched (adds : list (Z * Z)) : forall pt vpn,
  vpn ∉ adds.*1 ->
  PageTable.get_physical_page_number (add_all pt adds) vpn
  = PageTable.get_physical_page_number pt vpn.
Proof.
  induction adds as [|[v p] adds IH]; intros pt vpn Hnot; simpl; [done|].
  simpl in Hnot. apply not_elem_of_cons in Hnot as [Hne Hnot].
  unfold add_all in *. simpl. rewrite IH by done. by apply get_add_ne.
Qed.

(** X1. After any sequence of [add_entry] calls, a lookup of a page number
    returns the frame given by the last call for that page number, whatever
    was added before or, for other page numbers, after; the page size is
    not touched. *)
Theorem add_all_last_wins pt (pre post : list (Z * Z)) vpn ppn :
  vpn ∉ post.*1 ->
  PageTable.get_physical_page_number (add_all pt (pre ++ (vpn, ppn) :: post)) vpn = Some ppn /\
  PageTable.page_size (add_all pt (pre ++ (vpn, ppn) :: post)) = PageTable.page_size pt.
Proof.
  intros Hnot. split.
  - unfold add_all. rewrite foldl_app. simpl.
    fold (add_all (PageTable.add_entry
                     (foldl (fun pt vp => PageTable.add_entry pt vp.1 vp.2) pt pre) vpn ppn) post).
    rewrite add_all_untouched by done. apply add_then_get.
  - generalize (pre ++ (vpn, ppn) :: post). intros l. revert pt.
    induction l as [|x l IH]; intros pt; [done|]. unfold add_all in *. simpl. by rewrite IH.
Qed.

Lemma add_all_last_wins_witness :
  (2 ∉ [(3, 30)].*1) /\
  PageTable.get_physical_page_number
    (add_all (PageTable.__init__ 4) ([(2, 20); (1, 10)] ++ (2, 21) :: [(3, 30)])) 2 = Some 21.
Proof.
  assert (H : 2 ∉ [(3, 30)].*1).
  { simpl. intros Hin. apply list_elem_of_singleton in Hin. discriminate. }
  split; [exact H|]. apply (add_all_last_wins _ [(2, 20); (1, 10)] [(3, 30)] 2 21 H).
Defined.

(** X2. [update_entry] on a page number that has an entry returns normally;
    afterwards the page number maps to the new frame, every other page number
    maps to what it did, and no page number was added or removed. *)
Theorem update_entry_present pt vpn old ppn :
  PageTable.get_physical_page_number pt vpn = Some old ->
  exists pt',
    PageTable.update_entry pt vpn ppn = (Ok tt, pt') /\
    PageTable.get_physical_page_number pt' vpn = Some ppn /\
    (forall v, v <> vpn ->
       PageTable.get_physical_page_number pt' v = PageTable.get_physical_page_number pt v) /\
    dom (PageTable.entries pt') = dom (PageTable.entries pt) /\
    PageTable.page_size pt' = PageTable.page_size pt.
Proof.
  unfold PageTable.get_physical_page_number, PageTable.update_entry. intros H. rewrite H.
  eexists. split; [reflexivity|]. simpl.
  split; [apply lookup_insert_eq|]. split; [intros v Hv; by rewrite lookup_insert_ne|].
  split; [|done]. rewrite dom_insert_L. apply subseteq_union_1_L.
  apply singleton_subseteq_l. by apply elem_of_dom_2 in H.
Qed.

Lemma update_entry_present_witness :
  let pt := PageTable.add_entry (PageTable.__init__ 4) 1 160 in
  PageTable.get_physical_page_number pt 1 = Some 160 /\
  exists pt',
    PageTable.update_entry pt 1 176 = (Ok tt, pt') /\
    PageTable.get_physical_page_number pt' 1 = Some 176.
Proof.
  intros pt. split; [reflexivity|].
  destruct (update_entry_present pt 1 160 176 eq_refl) as (pt' & H1 & H2 & _).
  exists pt'. split; [exact H1 | exact H2].
Defined.

(** X3. [remove_entry] leaves the page number without an entry and every
    other page number as it was; on a page number that has no entry it
    changes nothing, and it undoes an [add_entry] of a page number that had
    no entry. *)
Theorem remove_entry_effect pt vpn :
  PageTable.get_physical_page_number (PageTable.remove_entry pt vpn) vpn = None /\
  (forall v, v <> vpn ->
     PageTable.get_physical_page_number (PageTable.remove_entry pt vpn) v
     = PageTable.get_physical_page_number pt v) /\
  (PageTable.get_physical_page_number pt vpn = None -> PageTable.remove_entry pt vpn = pt) /\
  (forall ppn, PageTable.get_physical_page_number pt vpn = None ->
     PageTable.remove_entry (PageTable.add_entry pt vpn ppn) vpn = pt).
Proof.
  unfold PageTable.get_physical_page_number, PageTable.remove_entry.
  split; [|split; [|split]].
  - destruct (PageTable.entries pt !! vpn) eqn:E; simpl; [apply lookup_delete_eq | done].
  - intros v Hv. destruct (PageTable.entries pt !! vpn) eqn:E; simpl; [|done].
    by rewrite lookup_delete_ne.
  - intros ->. done.
  - intros ppn H. simpl. rewrite lookup_insert_eq. unfold PageTable.set_entries. simpl.
    rewrite delete_insert_eq, delete_id by done. by destruct pt.
Qed.

End PageTableMore.

(** ** Splitting an address into page number and offset *)

Section SplitFacts.

Lemma mask_ones (k : Z) : 0 <= k -> 2 ^ k - 1 = Z.ones k.
Proof. intros. rewrite Z.ones_equiv. lia. Qed.

Lemma recombine (x k : Z) :
  0 <= k -> Z.lor (Z.shiftl (Z.shiftr x k) k) (Z.land x (2 ^ k - 1)) = x.
Proof.
  intros Hk. rewrite mask_ones by done. apply Z.bits_inj'. intros n Hn.
  rewrite Z.lor_spec, Z.land_spec, Z.shiftl_spec by done.
  destruct (Z.lt_ge_cases n k) as [Hlt|Hge].
  - rewrite Z.testbit_neg_r by lia. rewrite Z.ones_spec_low by lia. simpl.
    apply andb_true_r.
  - rewrite Z.shiftr_spec by lia. rewrite Z.ones_spec_high by lia.
    replace (n - k + k) with n by lia. rewrite andb_false_r. apply orb_false_r.
Qed.

Lemma shiftr_recombined (p o k : Z) :
  0 <= k -> Z.shiftr (Z.lor (Z.shiftl p k) (Z.land o (2 ^ k - 1))) k = p.
Proof.
  intros Hk. rewrite mask_ones by done. apply Z.bits_inj'. intros n Hn.
  rewrite Z.shiftr_spec, Z.lor_spec, Z.land_spec, Z.shiftl_spec by lia.
  replace (n + k - k) with n by lia.
  rewrite Z.ones_spec_high by lia. rewrite andb_false_r. apply orb_false_r.
Qed.

Lemma land_recombined (p o k : Z) :
  0 <= k ->
  Z.land (Z.lor (Z.shiftl p k) (Z.land o (2 ^ k - 1))) (2 ^ k - 1) = Z.land o (2 ^ k - 1).
Proof.
  intros Hk. rewrite mask_ones by done. apply Z.bits_inj'. intros n Hn.
  rewrite !Z.land_spec, Z.lor_spec, Z.land_spec, Z.shiftl_spec by lia.
  destruct (Z.lt_ge_cases n k) as [Hlt|Hge].
  - rewrite Z.testbit_neg_r by lia. rewrite Z.ones_spec_low by lia. simpl.
    by rewrite !andb_true_r.
  - rewrite Z.ones_spec_high by lia. by rewrite !andb_false_r.
Qed.

Lemma bit_length_pow2_pred (k : Z) : 0 <= k -> bit_length (2 ^ k - 1) = k.
Proof.
  intros Hk. destruct (Z.eq_dec k 0) as [->|Hne]; [reflexivity|].
  assert (0 < 2 ^ k - 1).
  { assert (2 ^ 1 <= 2 ^ k) by (apply Z.pow_le_mono_r; lia). simpl in *. lia. }
  rewrite bit_length_log2 by done.
  rewrite (Z.log2_unique (2 ^ k - 1) (k - 1)); [lia | lia |].
  replace (Z.succ (k - 1)) with k by lia. split; [|lia].
  replace k with (Z.succ (k - 1)) at 2 by lia. rewrite Z.pow_succ_r by lia.
  assert (0 < 2 ^ (k - 1)) by (apply Z.pow_pos_nonneg; lia). lia.
Qed.

(** X4. For a page size that is a power of two, [get_page_number] and
    [get_offset], called with [OFFSET_BITS = (PAGE_SIZE - 1).bit_length()]
    as in the page table test, split any address, negative ones included,
    into a page number and an offset below the page size from which the
    address is recovered by [(vpn << OFFSET_BITS) | offset]. *)
Theorem split_recombine (va k : Z) :
  0 <= k ->
  let PAGE_SIZE := 2 ^ k in
  let OFFSET_BITS := bit_length (PAGE_SIZE - 1) in
  OFFSET_BITS = k /\
  0 <= PageSplit.get_offset va PAGE_SIZE < PAGE_SIZE /\
  exists vpn,
    PageSplit.get_page_number va OFFSET_BITS = Ok vpn /\
    Z.lor (Z.shiftl vpn OFFSET_BITS) (PageSplit.get_offset va PAGE_SIZE) = va.
Proof.
  intros Hk PAGE_SIZE OFFSET_BITS.
  assert (Hbits : OFFSET_BITS = k) by by apply bit_length_pow2_pred.
  split; [done|]. split.
  - unfold PageSplit.get_offset, PAGE_SIZE. rewrite mask_ones, Z.land_ones by done.
    apply Z.mod_pos_bound, Z.pow_pos_nonneg; lia.
  - rewrite Hbits. unfold PageSplit.get_page_number, PageSplit.get_offset.
    rewrite py_rshift_nonneg by done. eexists. split; [done|]. by apply recombine.
Qed.

Lemma split_recombine_witness :
  0 <= 12 /\
  (let PAGE_SIZE := 2 ^ 12 in
   let OFFSET_BITS := bit_length (PAGE_SIZE - 1) in
   OFFSET_BITS = 12 /\
   0 <= PageSplit.get_offset 17900357 PAGE_SIZE < PAGE_SIZE /\
   exists vpn,
     PageSplit.get_page_number 17900357 OFFSET_BITS = Ok vpn /\
     Z.lor (Z.shiftl vpn OFFSET_BITS) (PageSplit.get_offset 17900357 PAGE_SIZE) = 17900357).
Proof. split; [lia | apply (split_recombine 17900357 12); lia]. Defined.

(** X5. The source computes the number of offset bits in two ways,
    [PAGE_SIZE.bit_length() - 1] and [(PAGE_SIZE - 1).bit_length()]; for a
    positive page size the two agree exactly when the page size is a power
    of two. *)
Theorem offset_bits_formulas (P : Z) :
  1 <= P ->
  (bit_length (P - 1) = bit_length P - 1 <-> exists k, 0 <= k /\ P = 2 ^ k).
Proof.
  intros HP. split.
  - intros Heq. exists (Z.log2 P). split; [apply Z.log2_nonneg|].
    destruct (Z.eq_dec P 1) as [->|Hne]; [reflexivity|].
    rewrite !bit_length_log2 in Heq by lia.
    pose proof (Z.log2_spec P ltac:(lia)) as [Hlo Hhi].
    pose proof (Z.log2_spec (P - 1) ltac:(lia)) as [Hlo' Hhi'].
    assert (Z.log2 (P - 1) = Z.log2 P - 1) as E by lia.
    rewrite E in Hhi'. replace (Z.succ (Z.log2 P - 1)) with (Z.log2 P) in Hhi' by lia. lia.
  - intros (k & Hk & ->). rewrite bit_length_pow2_pred, bit_length_pow2 by done. lia.
Qed.

Lemma offset_bits_formulas_witness :
  1 <= 4096 /\
  (bit_length (4096 - 1) = bit_length 4096 - 1 <-> exists k, 0 <= k /\ 4096 = 2 ^ k).
Proof. split; [lia | apply (offset_bits_formulas 4096); lia]. Defined.

End SplitFacts.

(** ** MMU: translation through the page table and the TLB *)

Section TranslateMore.

(** X6. With a page size of [2^k], an address that is not in the TLB but
    whose page has a page table entry translates without a page fault to a
    physical address with the entry's frame as page number and the virtual
    address's offset; the page table is unchanged and the TLB gains exactly
    this pair. *)
Theorem translate_via_page_table (m : MMU.t) (va rnd k ppn : Z) :
  0 <= k ->
  PageTable.page_size (MMU.page_table m) = 2 ^ k ->
  MMU.tlb m !! va = None ->
  PageTable.get_physical_page_number (MMU.page_table m) (Z.shiftr va k) = Some ppn ->
  exists pa m1,
    MMU.translate_address m va rnd = (Ok pa, m1) /\
    PageSplit.get_page_number pa k = Ok ppn /\
    PageSplit.get_offset pa (2 ^ k) = PageSplit.get_offset va (2 ^ k) /\
    MMU.is_palt m1 = false /\
    MMU.page_table m1 = MMU.page_table m /\
    MMU.tlb m1 = <[va := pa]> (MMU.tlb m).
Proof.
  intros Hk Hps Htlb Hpt. unfold MMU.translate_address. simpl. rewrite Htlb, Hps.
  rewrite bit_length_pow2_pred by done. rewrite Hpt. simpl.
  eexists _, _. split; [reflexivity|].
  unfold PageSplit.get_page_number, PageSplit.get_offset.
  rewrite py_rshift_nonneg by done.
  split; [by rewrite shiftr_recombined|]. split; [by apply land_recombined|]. done.
Qed.

Lemma translate_via_page_table_witness :
  let m := MMU.__init__ (PageTable.add_entry (PageTable.__init__ 4) 1 7) small_levels
             (Memory.__init__ 1024) None in
  0 <= 12 /\
  PageTable.page_size (MMU.page_table m) = 2 ^ 12 /\
  MMU.tlb m !! 4101 = None /\
  PageTable.get_physical_page_number (MMU.page_table m) (Z.shiftr 4101 12) = Some 7 /\
  exists pa m1,
    MMU.translate_address m 4101 99 = (Ok pa, m1) /\
    PageSplit.get_page_number pa 12 = Ok 7 /\
    PageSplit.get_offset pa (2 ^ 12) = PageSplit.get_offset 4101 (2 ^ 12) /\
    MMU.is_palt m1 = false /\
    MMU.page_table m1 = MMU.page_table m /\
    MMU.tlb m1 = <[4101 := pa]> (MMU.tlb m).
Proof.
  intros m.
  assert (H0 : 0 <= 12) by lia.
  assert (H1 : PageTable.page_size (MMU.page_table m) = 2 ^ 12) by reflexivity.
  assert (H2 : MMU.tlb m !! 4101 = None) by reflexivity.
  assert (H3 : PageTable.get_physical_page_number (MMU.page_table m) (Z.shiftr 4101 12)
               = Some 7) by reflexivity.
  repeat split; try assumption.
  exact (translate_via_page_table m 4101 99 12 7 H0 H1 H2 H3).
Defined.

(** X7. A page fault serves the whole page: when an address faults, the
    drawn frame is entered in the page table, and a later translation of
    another address of the same page raises no page fault and lands in the
    same frame, whatever number would be drawn then. *)
Theorem fault_serves_page (m : MMU.t) (va va' rnd1 rnd2 : Z) :
  let bits := bit_length (PageTable.page_size (MMU.page_table m) - 1) in
  let mask := PageTable.page_size (MMU.page_table m) - 1 in
  MMU.tlb m !! va = None ->
  MMU.tlb m !! va' = None ->
  va' <> va ->
  Z.shiftr va' bits = Z.shiftr va bits ->
  PageTable.get_physical_page_number (MMU.page_table m) (Z.shiftr va bits) = None ->
  exists m1 m2,
    MMU.translate_address m va rnd1 =
      (Ok (Z.lor (Z.shiftl rnd1 bits) (Z.land va mask)), m1) /\
    MMU.is_palt m1 = true /\
    MMU.translate_address m1 va' rnd2 =
      (Ok (Z.lor (Z.shiftl rnd1 bits) (Z.land va' mask)), m2) /\
    MMU.is_palt m2 = false /\
    MMU.page_table m2 = MMU.page_table m1.
Proof.
  intros bits mask Htlb Htlb' Hne Hpage Hpt.
  unfold MMU.translate_address at 1. simpl. rewrite Htlb. fold bits mask. rewrite Hpt. simpl.
  eexists _, _. split; [reflexivity|]. split; [reflexivity|].
  unfold MMU.translate_address. simpl.
  rewrite lookup_insert_ne by done. rewrite Htlb'. fold bits mask.
  unfold PageTable.get_physical_page_number. simpl. rewrite Hpage, lookup_insert_eq. simpl.
  done.
Qed.

Lemma fault_serves_page_witness :
  MMU.tlb small_mmu !! 8193 = None /\
  MMU.tlb small_mmu !! 8200 = None /\
  8200 <> 8193 /\
  exists m1 m2,
    MMU.translate_address small_mmu 8193 4660 = (Ok (Z.lor (Z.shiftl 4660 12) 1), m1) /\
    MMU.is_palt m1 = true /\
    MMU.translate_address m1 8200 9999 = (Ok (Z.lor (Z.shiftl 4660 12) 8), m2) /\
    MMU.is_palt m2 = false /\
    MMU.page_table m2 = MMU.page_table m1.
Proof.
  assert (H1 : MMU.tlb small_mmu !! 8193 = None) by reflexivity.
  assert (H2 : MMU.tlb small_mmu !! 8200 = None) by reflexivity.
  assert (H3 : 8200 <> 8193) by lia.
  repeat split; try assumption.
  exact (fault_serves_page small_mmu 8193 8200 4660 9999 H1 H2 H3 eq_refl eq_refl).
Defined.

(** X8. Nothing invalidates a TLB entry: once an address has been
    translated, translating it again returns the same physical address
    without a page fault, even after the page table has been replaced by any
    other one (for instance a cleared one, or one where the page's entry was
    removed or updated), and the replaced page table is left as it is. *)
Theorem tlb_entry_is_never_invalidated (m m1 : MMU.t) (va rnd1 rnd2 pa : Z)
  (pt' : PageTable.t) :
  MMU.translate_address m va rnd1 = (Ok pa, m1) ->
  exists m2,
    MMU.translate_address (MMU.set_page_table m1 pt') va rnd2 = (Ok pa, m2) /\
    MMU.is_palt m2 = false /\
    MMU.page_table m2 = pt'.
Proof.
  intros H1.
  assert (Hin : MMU.tlb m1 !! va = Some pa).
  { unfold MMU.translate_address in H1. simpl in H1.
    destruct (MMU.tlb m !! va) as [pa0|] eqn:Htlb.
    - injection H1 as <- <-. done.
    - destruct (PageTable.get_physical_page_number _ _); simpl in H1;
        injection H1 as <- <-; simpl; apply lookup_insert_eq. }
  eexists. split; [by apply translate_tlb_hit|]. done.
Qed.

Lemma tlb_entry_is_never_invalidated_witness :
  let m1 := snd (MMU.translate_address small_mmu 5 99) in
  MMU.translate_address small_mmu 5 99 = (Ok 5, m1) /\
  exists m2,
    MMU.translate_address (MMU.set_page_table m1 (PageTable.__init__ 4)) 5 77 = (Ok 5, m2) /\
    MMU.is_palt m2 = false /\
    MMU.page_table m2 = PageTable.__init__ 4.
Proof.
  intros m1.
  assert (H : MMU.translate_address small_mmu 5 99 = (Ok 5, m1)) by reflexivity.
  split; [exact H|].
  exact (tlb_entry_is_never_invalidated small_mmu m1 5 99 77 5 (PageTable.__init__ 4) H).
Defined.

End TranslateMore.

(** ** CacheSet: insertion, access and the sharing of block objects *)

Section OrderedDictMore.
Context {V : Type}.
Implicit Types (d : list (Z * V)) (k : Z) (v : V).

Lemma get_None_keys d k : OrderedDict.get d k = None <-> k ∉ d.*1.
Proof.
  induction d as [|[k' v'] d IH]; simpl.
  - split; [intros _; apply not_elem_of_nil | done].
  - destruct (Z.eqb_spec k' k) as [->|Hne].
    + split; [done|]. intros H. exfalso. apply H. left.
    + rewrite IH. rewrite not_elem_of_cons. intuition congruence.
Qed.

Lemma keys_remove d k : forall x, x ∈ (OrderedDict.remove d k).*1 <-> x ∈ d.*1 /\ x <> k.
Proof.
  induction d as [|[k' v'] d IH]; intros x; simpl.
  - split; [intros H; by apply elem_of_nil in H | intros [H _]; by apply elem_of_nil in H].
  - destruct (Z.eqb_spec k' k) as [->|Hne]; simpl.
    + rewrite IH, elem_of_cons. intuition congruence.
    + rewrite !elem_of_cons, IH. intuition congruence.
Qed.

Lemma NoDup_remove d k : NoDup d.*1 -> NoDup (OrderedDict.remove d k).*1.
Proof.
  induction d as [|[k' v'] d IH]; simpl; [done|].
  intros Hnd. apply NoDup_cons in Hnd as [Hnot Hnd].
  destruct (k' =? k); simpl; [by apply IH|].
  apply NoDup_cons. split; [|by apply IH]. rewrite keys_remove. intuition congruence.
Qed.

Lemma keys_replace d k v : (OrderedDict.replace d k v).*1 = d.*1.
Proof.
  induction d as [|[k' v'] d IH]; simpl; [done|].
  destruct (k' =? k); simpl; [done|]. f_equal. exact IH.
Qed.

Lemma length_remove_NoDup d k v :
  NoDup d.*1 -> OrderedDict.get d k = Some v ->
  S (length (OrderedDict.remove d k)) = length d.
Proof.
  induction d as [|[k' v'] d IH]; simpl; [done|].
  intros Hnd. apply NoDup_cons in Hnd as [Hnot Hnd].
  destruct (Z.eqb_spec k' k) as [->|Hne]; simpl.
  - intros _. f_equal. clear IH Hnd. induction d as [|[k2 v2] d IH]; simpl; [done|].
    apply not_elem_of_cons in Hnot as [Hne Hnot]. simpl in *.
    destruct (Z.eqb_spec k2 k) as [->|_]; [done|]. simpl. f_equal. by apply IH.
  - intros H. f_equal. by apply IH.
Qed.

Lemma NoDup_move_to_end d k v :
  NoDup d.*1 -> NoDup (OrderedDict.remove d k ++ [(k, v)]).*1.
Proof.
  intros Hnd. rewrite fmap_app. apply NoDup_app. split; [by apply NoDup_remove|].
  split; [|apply NoDup_singleton].
  intros x Hx Hx'. apply keys_remove in Hx as [_ Hne]. simpl in Hx'.
  apply list_elem_of_singleton in Hx'. done.
Qed.

Lemma NoDup_setitem d k v : NoDup d.*1 -> NoDup (OrderedDict.setitem d k v).*1.
Proof.
  intros Hnd. unfold OrderedDict.setitem. destruct (OrderedDict.contains d k) eqn:E.
  - by rewrite keys_replace.
  - rewrite fmap_app. apply NoDup_app. split; [done|]. split; [|apply NoDup_singleton].
    intros x Hx Hx'. simpl in Hx'. apply list_elem_of_singleton in Hx'. subst x.
    apply contains_false_get, get_None_keys in E. done.
Qed.

End OrderedDictMore.

Section CacheSetMore.
Implicit Types (s : CacheSet.t) (h : heap) (tag : Z) (l : loc).

(** X9. [add_or_update] raises, and leaves the set as it was, in three
    cases: ValueError for a block that is not a dict, ValueError for a dict
    with more keys than [block_size], and KeyError (from [popitem] on an
    empty OrderedDict) for a fitting dict put into an empty set of a cache
    with no ways. *)
Theorem add_or_update_rejects h s tag (blk : pyval) :
  ((forall l, blk <> PyDict l) ->
   CacheSet.add_or_update h s tag blk = (Raise ValueError, s)) /\
  (forall l, blk = PyDict l ->
     CacheSet.block_size s < Z.of_nat (size (deref h l)) ->
     CacheSet.add_or_update h s tag blk = (Raise ValueError, s)) /\
  (forall l, blk = PyDict l ->
     Z.of_nat (size (deref h l)) <= CacheSet.block_size s ->
     CacheSet.n_way s <= 0 -> CacheSet.entries s = [] ->
     CacheSet.add_or_update h s tag blk = (Raise KeyError, s)).
Proof.
  split; [|split].
  - intros Hnd. destruct blk; try done. by destruct (Hnd l).
  - intros l -> Hbig. unfold CacheSet.add_or_update.
    destruct (Z.ltb_spec (CacheSet.block_size s) (Z.of_nat (size (deref h l)))); [done | lia].
  - intros l -> Hfit Hn He. unfold CacheSet.add_or_update.
    destruct (Z.ltb_spec (CacheSet.block_size s) (Z.of_nat (size (deref h l)))); [lia|].
    rewrite He. simpl.
    change (Z.of_nat 0) with 0. destruct (Z.leb_spec (CacheSet.n_way s) 0); [done | lia].
Qed.

Lemma get_block_get s t :
  CacheSet.get_block s t =
  match OrderedDict.get (CacheSet.entries s) t with Some l => PyDict l | None => PyNone end.
Proof. reflexivity. Qed.

Lemma add_or_update_spec h s tag l :
  1 <= CacheSet.n_way s ->
  Z.of_nat (size (deref h l)) <= CacheSet.block_size s ->
  NoDup (CacheSet.entries s).*1 ->
  exists s',
    CacheSet.add_or_update h s tag (PyDict l) = (Ok tt, s') /\
    CacheSet.get_block s' tag = PyDict l /\
    last (CacheSet.entries s') = Some (tag, l) /\
    NoDup (CacheSet.entries s').*1 /\
    (forall t, t <> tag ->
       CacheSet.get_block s' t =
       if decide (victim s tag = Some t) then PyNone else CacheSet.get_block s t).
Proof.
  intros Hn Hfit Hnd. unfold CacheSet.add_or_update.
  destruct (Z.ltb_spec (CacheSet.block_size s) (Z.of_nat (size (deref h l)))); [lia|].
  destruct (OrderedDict.contains (CacheSet.entries s) tag) eqn:Hin.
  - assert (Hvic : victim s tag = None).
    { unfold victim, CacheSet.check_hit. by rewrite Hin. }
    unfold OrderedDict.move_to_end. rewrite get_setitem.
    eexists. split; [reflexivity|]. rewrite Hvic.
    split; [rewrite get_block_get; simpl;
            by rewrite get_app, get_remove; simpl; rewrite Z.eqb_refl|].
    split; [simpl; by rewrite last_snoc|].
    split; [simpl; by apply NoDup_move_to_end, NoDup_setitem|].
    intros t Ht. destruct (decide (None = Some t)); [done|].
    rewrite !get_block_get. simpl.
    rewrite get_app, get_remove_ne, get_setitem_ne by done.
    destruct (OrderedDict.get (CacheSet.entries s) t); [done|]. simpl.
    destruct (Z.eqb_spec tag t); [congruence | done].
  - destruct (Z.leb_spec (CacheSet.n_way s) (Z.of_nat (length (CacheSet.entries s))))
      as [Hfull|Hroom].
    + assert (Hvic : victim s tag = fst <$> head (CacheSet.entries s)).
      { unfold victim, CacheSet.check_hit. rewrite Hin.
        by destruct (Z.leb_spec (CacheSet.n_way s) (Z.of_nat (length (CacheSet.entries s))));
          [|lia]. }
      rewrite Hvic.
      destruct (CacheSet.entries s) as [|[k0 v0] e] eqn:He; [simpl in Hfull; lia|].
      apply contains_false_get in Hin. simpl in Hin.
      destruct (Z.eqb_spec k0 tag) as [->|Hk0]; [done|].
      assert (Hin' : OrderedDict.contains e tag = false) by by apply contains_false_get.
      simpl in Hnd. apply NoDup_cons in Hnd as [Hk0e Hnd].
      eexists. split; [reflexivity|].
      split; [rewrite get_block_get; simpl; by rewrite get_setitem|].
      split; [simpl; unfold OrderedDict.setitem; rewrite Hin'; by rewrite last_snoc|].
      split; [simpl; by apply NoDup_setitem|].
      intros t Ht. rewrite get_block_get.
      change (CacheSet.entries (CacheSet.set_entries s (OrderedDict.setitem e tag l)))
        with (OrderedDict.setitem e tag l).
      rewrite get_setitem_ne by done.
      change (fst <$> head ((k0, v0) :: e)) with (Some k0).
      destruct (decide (Some k0 = Some t)) as [[= ->]|Hne].
      * apply get_None_keys in Hk0e. by rewrite Hk0e.
      * rewrite (get_block_get s t), He. simpl.
        destruct (Z.eqb_spec k0 t); [congruence | done].
    + assert (Hvic : victim s tag = None).
      { unfold victim, CacheSet.check_hit. rewrite Hin.
        by destruct (Z.leb_spec (CacheSet.n_way s) (Z.of_nat (length (CacheSet.entries s))));
          [lia|]. }
      rewrite Hvic.
      eexists. split; [reflexivity|].
      split; [rewrite get_block_get; simpl; by rewrite get_setitem|].
      split; [simpl; unfold OrderedDict.setitem; rewrite Hin; by rewrite last_snoc|].
      split; [simpl; by apply NoDup_setitem|].
      intros t Ht. destruct (decide (None = Some t)); [done|].
      rewrite !get_block_get. simpl. by rewrite get_setitem_ne.
Qed.

(** X10. In a set with at least one way, [add_or_update] of a fitting
    dict returns normally; afterwards the tag holds the given block object
    and is the most recently used entry, and every other tag holds what it
    held before, except the one victim: the oldest tag, and only when the
    given tag was new and the set was full. *)
Theorem add_or_update_effect h s tag l :
  1 <= CacheSet.n_way s ->
  Z.of_nat (size (deref h l)) <= CacheSet.block_size s ->
  NoDup (CacheSet.entries s).*1 ->
  exists s',
    CacheSet.add_or_update h s tag (PyDict l) = (Ok tt, s') /\
    CacheSet.get_block s' tag = PyDict l /\
    last (CacheSet.entries s') = Some (tag, l) /\
    NoDup (CacheSet.entries s').*1 /\
    (forall t, t <> tag ->
       CacheSet.get_block s' t =
       if decide (victim s tag = Some t) then PyNone else CacheSet.get_block s t).
Proof. exact (add_or_update_spec h s tag l). Qed.

Lemma add_or_update_effect_witness :
  1 <= CacheSet.n_way two_tag_set /\
  Z.of_nat (size (deref two_blocks 2%positive)) <= CacheSet.block_size two_tag_set /\
  NoDup (CacheSet.entries two_tag_set).*1 /\
  victim two_tag_set 12 = Some 10 /\
  exists s',
    CacheSet.add_or_update two_blocks two_tag_set 12 (PyDict 2%positive) = (Ok tt, s') /\
    CacheSet.get_block s' 12 = PyDict 2%positive /\
    last (CacheSet.entries s') = Some (12, 2%positive) /\
    NoDup (CacheSet.entries s').*1 /\
    (forall t, t <> 12 ->
       CacheSet.get_block s' t =
       if decide (victim two_tag_set 12 = Some t) then PyNone
       else CacheSet.get_block two_tag_set t).
Proof.
  assert (H1 : 1 <= CacheSet.n_way two_tag_set) by (vm_compute; discriminate).
  assert (H2 : Z.of_nat (size (deref two_blocks 2%positive))
               <= CacheSet.block_size two_tag_set) by (vm_compute; discriminate).
  assert (H3 : NoDup (CacheSet.entries two_tag_set).*1).
  { apply (bool_decide_unpack _). vm_compute. exact I. }
  split; [exact H1|]. split; [exact H2|]. split; [exact H3|]. split; [reflexivity|].
  exact (add_or_update_effect two_blocks two_tag_set 12 2%positive H1 H2 H3).
Defined.

(** X11. In a set with two ways or more, the tag put last is never the next
    victim: after [add_or_update(t, b)] and then [add_or_update(u, b')] with
    another tag, both calls returning, the set holds [b] under [t] and [b']
    under [u]. *)
Theorem most_recent_survives h h' s s1 s2 (t u : Z) (l l' : loc) :
  2 <= CacheSet.n_way s ->
  NoDup (CacheSet.entries s).*1 ->
  u <> t ->
  CacheSet.add_or_update h s t (PyDict l) = (Ok tt, s1) ->
  CacheSet.add_or_update h' s1 u (PyDict l') = (Ok tt, s2) ->
  CacheSet.get_block s2 t = PyDict l /\ CacheSet.get_block s2 u = PyDict l'.
Proof.
  intros Hn Hnd Hne H1 H2.
  assert (Hfit1 : Z.of_nat (size (deref h l)) <= CacheSet.block_size s).
  { unfold CacheSet.add_or_update in H1.
    destruct (Z.ltb_spec (CacheSet.block_size s) (Z.of_nat (size (deref h l)))); [done | lia]. }
  destruct (add_or_update_spec h s t l ltac:(lia) Hfit1 Hnd)
    as (s1' & E1 & Hget1 & Hlast1 & Hnd1 & _).
  rewrite E1 in H1. injection H1 as ->.
  destruct (add_or_update_params h s t (PyDict l)) as [Hn1 Hb1]. rewrite E1 in Hn1, Hb1.
  simpl in Hn1, Hb1.
  assert (Hfit2 : Z.of_nat (size (deref h' l')) <= CacheSet.block_size s1).
  { unfold CacheSet.add_or_update in H2.
    destruct (Z.ltb_spec (CacheSet.block_size s1) (Z.of_nat (size (deref h' l')))); [done | lia]. }
  destruct (add_or_update_spec h' s1 u l' ltac:(lia) Hfit2 Hnd1)
    as (s2' & E2 & Hget2 & _ & _ & Hothers).
  rewrite E2 in H2. injection H2 as ->.
  split; [|done]. rewrite (Hothers t) by done. rewrite Hget1.
  destruct (decide (victim s1 u = Some t)) as [Hv|]; [|done]. exfalso.
  unfold victim in Hv. destruct (CacheSet.check_hit s1 u); [done|].
  destruct (Z.leb_spec (CacheSet.n_way s1) (Z.of_nat (length (CacheSet.entries s1))));
    [|done].
  destruct (CacheSet.entries s1) as [|[k0 v0] [|kv e]] eqn:He;
    [simpl in *; lia | simpl in *; lia |].
  injection Hv as ->. rewrite !fmap_cons in Hnd1. apply NoDup_cons in Hnd1 as [Hnot _].
  apply Hnot. rewrite last_cons_cons in Hlast1.
  apply last_Some_elem_of in Hlast1.
  apply (list_elem_of_fmap_2 fst) in Hlast1. exact Hlast1.
Qed.

Lemma most_recent_survives_witness :
  let s1 := snd (CacheSet.add_or_update two_blocks two_tag_set 12 (PyDict 1%positive)) in
  let s2 := snd (CacheSet.add_or_update two_blocks s1 13 (PyDict 2%positive)) in
  2 <= CacheSet.n_way two_tag_set /\
  NoDup (CacheSet.entries two_tag_set).*1 /\
  13 <> 12 /\
  CacheSet.add_or_update two_blocks two_tag_set 12 (PyDict 1%positive) = (Ok tt, s1) /\
  CacheSet.add_or_update two_blocks s1 13 (PyDict 2%positive) = (Ok tt, s2) /\
  CacheSet.get_block s2 12 = PyDict 1%positive /\
  CacheSet.get_block s2 13 = PyDict 2%positive.
Proof.
  intros s1 s2.
  assert (H1 : 2 <= CacheSet.n_way two_tag_set) by (vm_compute; discriminate).
  assert (H2 : NoDup (CacheSet.entries two_tag_set).*1).
  { apply (bool_decide_unpack _). vm_compute. exact I. }
  assert (H3 : 13 <> 12) by lia.
  assert (H4 : CacheSet.add_or_update two_blocks two_tag_set 12 (PyDict 1%positive)
               = (Ok tt, s1)) by reflexivity.
  assert (H5 : CacheSet.add_or_update two_blocks s1 13 (PyDict 2%positive) = (Ok tt, s2))
    by reflexivity.
  split; [exact H1|]. split; [exact H2|]. split; [exact H3|].
  split; [exact H4|]. split; [exact H5|].
  exact (most_recent_survives two_blocks two_blocks two_tag_set s1 s2 12 13
           1%positive 2%positive H1 H2 H3 H4 H5).
Defined.

(** X12. [access] on a tag that is not in the set returns None and changes
    nothing; on a tag that is in the set it returns the tag's block object
    and makes the tag the most recently used entry, with the number of
    entries and the block held under every tag unchanged. *)
Theorem access_effect s tag :
  NoDup (CacheSet.entries s).*1 ->
  if CacheSet.check_hit s tag
  then exists l s',
      CacheSet.access s tag = (PyDict l, s') /\
      CacheSet.get_block s tag = PyDict l /\
      last (CacheSet.entries s') = Some (tag, l) /\
      length (CacheSet.entries s') = length (CacheSet.entries s) /\
      NoDup (CacheSet.entries s').*1 /\
      (forall t, CacheSet.get_block s' t = CacheSet.get_block s t)
  else CacheSet.access s tag = (PyNone, s).
Proof.
  intros Hnd. unfold CacheSet.check_hit, OrderedDict.contains, CacheSet.access.
  destruct (OrderedDict.get (CacheSet.entries s) tag) as [l|] eqn:Hg; [|done].
  exists l, (CacheSet.set_entries s (OrderedDict.remove (CacheSet.entries s) tag ++ [(tag, l)])).
  split; [done|]. split; [by rewrite get_block_get, Hg|].
  split; [simpl; by rewrite last_snoc|].
  split. { simpl. rewrite length_app. simpl.
           pose proof (length_remove_NoDup _ _ _ Hnd Hg). lia. }
  split; [simpl; by apply NoDup_move_to_end|].
  intros t. rewrite !get_block_get. simpl. rewrite get_app.
  destruct (Z.eq_dec tag t) as [<-|Hne].
  - rewrite get_remove, Hg. simpl. by rewrite Z.eqb_refl.
  - rewrite get_remove_ne by done.
    destruct (OrderedDict.get (CacheSet.entries s) t); [done|]. simpl.
    destruct (Z.eqb_spec tag t); [congruence | done].
Qed.

Lemma access_effect_witness :
  NoDup (CacheSet.entries two_tag_set).*1 /\
  CacheSet.check_hit two_tag_set 10 = true /\
  exists l s',
    CacheSet.access two_tag_set 10 = (PyDict l, s') /\
    CacheSet.get_block two_tag_set 10 = PyDict l /\
    last (CacheSet.entries s') = Some (10, l) /\
    length (CacheSet.entries s') = length (CacheSet.entries two_tag_set) /\
    NoDup (CacheSet.entries s').*1 /\
    (forall t, CacheSet.get_block s' t = CacheSet.get_block two_tag_set t).
Proof.
  assert (H : NoDup (CacheSet.entries two_tag_set).*1).
  { apply (bool_decide_unpack _). vm_compute. exact I. }
  split; [exact H|]. split; [reflexivity|].
  exact (access_effect two_tag_set 10 H).
Defined.

(** X13. [write_data] on a tag that is in the set returns None and stores
    the datum in the tag's block object: reading the same tag and offset
    returns it, the other offsets of the block read as before, any set that
    holds the same block object (under whatever tag) reads the datum at that
    offset too, and reads through any other block object are unchanged. *)
Theorem set_write_read h s tag (off : Z) (d : pyval) :
  CacheSet.check_hit s tag = true ->
  exists h',
    CacheSet.write_data h s tag off d = (Ok PyNone, h') /\
    CacheSet.read_data h' s tag off = Ok d /\
    (forall off', off' <> off ->
       CacheSet.read_data h' s tag off' = CacheSet.read_data h s tag off') /\
    (forall s2 t2, CacheSet.get_block s2 t2 = CacheSet.get_block s tag ->
       CacheSet.read_data h' s2 t2 off = Ok d) /\
    (forall s2 t2 o2, CacheSet.get_block s2 t2 <> CacheSet.get_block s tag ->
       CacheSet.read_data h' s2 t2 o2 = CacheSet.read_data h s2 t2 o2).
Proof.
  unfold CacheSet.check_hit, OrderedDict.contains, CacheSet.write_data, CacheSet.read_data.
  intros Hhit. rewrite !get_block_get.
  destruct (OrderedDict.get (CacheSet.entries s) tag) as [l|] eqn:Hg; [|done].
  eexists. split; [reflexivity|].
  split; [by rewrite dict_get_setitem|].
  split; [intros off' Hne; rewrite dict_get_setitem_other by (right; congruence); done|].
  split.
  - intros s2 t2. rewrite get_block_get.
    destruct (OrderedDict.get (CacheSet.entries s2) t2); [|done].
    intros [= ->]. by rewrite dict_get_setitem.
  - intros s2 t2 o2. rewrite get_block_get.
    destruct (OrderedDict.get (CacheSet.entries s2) t2) as [l2|]; [|done].
    intros Hne. rewrite dict_get_setitem_other; [done|]. left. congruence.
Qed.

Lemma set_write_read_witness :
  CacheSet.check_hit two_tag_set 11 = true /\
  exists h',
    CacheSet.write_data two_blocks two_tag_set 11 3 (PyInt 9) = (Ok PyNone, h') /\
    CacheSet.read_data h' two_tag_set 11 3 = Ok (PyInt 9).
Proof.
  assert (H : CacheSet.check_hit two_tag_set 11 = true) by reflexivity.
  split; [exact H|].
  destruct (set_write_read two_blocks two_tag_set 11 3 (PyInt 9) H) as (h' & Hw & Hr & _).
  exists h'. split; [exact Hw | exact Hr].
Defined.

End CacheSetMore.

(** ** Memory: the block that [get_block] makes *)

Section MemoryMore.

Lemma block_data_keys (n : Z) :
  ((fun i => (i, PyBytes [100; 97; 116; 97; i])) <$> seqZ 0 n).*1 = seqZ 0 n.
Proof.
  rewrite <- list_fmap_compose. induction (seqZ 0 n) as [|x l IH]; [done|].
  simpl. f_equal. exact IH.
Qed.

Lemma block_data_lookup (n i : Z) :
  Memory.block_data n !! i =
  if decide (0 <= i < n) then Some (PyBytes [100; 97; 116; 97; i]) else None.
Proof.
  unfold Memory.block_data. case_decide as Hi.
  - apply elem_of_list_to_map; [rewrite block_data_keys; apply NoDup_seqZ|].
    apply list_elem_of_fmap. exists i. split; [done|]. apply elem_of_seqZ. lia.
  - apply not_elem_of_list_to_map. rewrite block_data_keys, elem_of_seqZ. lia.
Qed.

Lemma block_data_size (n : Z) : size (Memory.block_data n) = Z.to_nat n.
Proof.
  unfold Memory.block_data. rewrite map_size_list_to_map.
  - by rewrite length_fmap, length_seqZ.
  - rewrite block_data_keys. apply NoDup_seqZ.
Qed.

(** X14. [Memory.get_block(address, block_size)] raises ZeroDivisionError
    for a block size of 0 and ValueError for one above 256, leaving memory
    as it was. Otherwise it returns a dict object that did not exist before,
    with exactly the keys [0 .. block_size - 1], key [i] holding the five
    bytes [b"data" + bytes([i])]; the objects that existed are unchanged, the
    address now reads as that dict and every other address as before. *)
Theorem get_block_effect (m : Memory.t) (h : heap) (a n : Z) :
  (n = 0 -> Memory.get_block m h a n = (Raise ZeroDivisionError, (m, h))) /\
  (256 < n -> Memory.get_block m h a n = (Raise ValueError, (m, h))) /\
  (n <> 0 -> n <= 256 ->
   exists l m',
     Memory.get_block m h a n = (Ok (PyDict l), (m', <[l := Memory.block_data n]> h)) /\
     (l ∉ dom h) /\
     size (Memory.block_data n) = Z.to_nat n /\
     (forall i, Memory.block_data n !! i =
                if decide (0 <= i < n) then Some (PyBytes [100; 97; 116; 97; i]) else None) /\
     (forall l', l' ∈ dom h -> (<[l := Memory.block_data n]> h) !! l' = h !! l') /\
     Memory.read m' a = PyDict l /\
     (forall a', a' <> a -> Memory.read m' a' = Memory.read m a')).
Proof.
  unfold Memory.get_block. split; [|split].
  - intros ->. reflexivity.
  - intros Hn. rewrite py_mod_nonzero by lia.
    destruct (Z.ltb_spec 256 n); [done | lia].
  - intros Hn0 Hn. rewrite py_mod_nonzero by done.
    destruct (Z.ltb_spec 256 n); [lia|].
    pose proof (is_fresh (dom h)) as Hfresh.
    eexists _, _. split; [reflexivity|]. split; [exact Hfresh|].
    split; [apply block_data_size|]. split; [apply block_data_lookup|].
    split; [intros l' Hl'; rewrite lookup_insert_ne; [done|]; intros <-; done|].
    unfold Memory.read. simpl. split; [by rewrite lookup_insert_eq|].
    intros a' Ha'. by rewrite lookup_insert_ne.
Qed.

End MemoryMore.

(** ** SetAssociativeCache: how addresses are told apart *)

Section LevelMore.
Implicit Types (c : SetAssociativeCache.t) (h : heap).

Lemma bit_length_le (i s : Z) : 0 <= s -> 0 <= i < 2 ^ s -> bit_length i <= s.
Proof.
  intros Hs [Hi Hlt]. destruct (Z.eq_dec i 0) as [->|Hne]; [simpl; lia|].
  rewrite bit_length_log2 by lia. apply Z.log2_lt_pow2 in Hlt; lia.
Qed.

Lemma low_bits_of_index (x s : Z) :
  0 <= s ->
  let i := x mod 2 ^ s in
  x = Z.shiftr x (bit_length i) * 2 ^ bit_length i + i.
Proof.
  intros Hs i.
  assert (Hi : 0 <= i < 2 ^ s) by (apply Z.mod_pos_bound, Z.pow_pos_nonneg; lia).
  pose proof (bit_length_nonneg i) as Hn. pose proof (bit_length_le i s Hs Hi) as Hle.
  assert (Hpos : 0 < 2 ^ bit_length i) by (apply Z.pow_pos_nonneg; lia).
  rewrite Z.shiftr_div_pow2 by done.
  assert (Hi2 : i < 2 ^ bit_length i).
  { destruct (Z.eq_dec i 0) as [E|E]; [rewrite E; simpl; lia|].
    apply bit_length_bounds. lia. }
  assert (Hmod : x mod 2 ^ bit_length i = i).
  { rewrite <- (Z.mod_mod_divide x (2 ^ s) (2 ^ bit_length i)).
    - fold i. apply Z.mod_small. lia.
    - exists (2 ^ (s - bit_length i)). rewrite <- Z.pow_add_r by lia. f_equal. lia. }
  pose proof (Z.div_mod x (2 ^ bit_length i) ltac:(lia)) as Hdm. rewrite Hmod in Hdm. lia.
Qed.

(** X15. In a direct-mapped or set-associative level with power-of-two
    block size and set count, set index, tag and offset together identify
    the address: two addresses for which [_get_set_index], [get_tag] and
    [get_offset] return the same values are equal. (The tag is shifted by
    the bit length of the index, not by the index width, and the address is
    still recovered.) *)
Theorem decomposition_injective c (A1 A2 b s : Z) :
  SetAssociativeCache.cache_type c = "direct_mapped" \/
  SetAssociativeCache.cache_type c = "set_associative" ->
  0 <= b -> 0 <= s ->
  SetAssociativeCache.block_size c = 2 ^ b ->
  SetAssociativeCache.offset_bits c = bit_length (2 ^ b) - 1 ->
  SetAssociativeCache.index_bits c = bit_length (2 ^ s) - 1 ->
  SetAssociativeCache._get_set_index c A1 = SetAssociativeCache._get_set_index c A2 ->
  SetAssociativeCache.get_tag c A1 = SetAssociativeCache.get_tag c A2 ->
  SetAssociativeCache.get_offset c A1 = SetAssociativeCache.get_offset c A2 ->
  A1 = A2.
Proof.
  intros Hty Hb Hs Hbs Hob Hib Hidx Htag Hoff.
  rewrite !(set_index_formula c _ b s) in Hidx by done. injection Hidx as Hidx.
  rewrite !(tag_formula_code c _ b s) in Htag by done. injection Htag as Htag.
  unfold SetAssociativeCache.get_offset in Hoff.
  assert (H2b : 0 < 2 ^ b) by (apply Z.pow_pos_nonneg; lia).
  rewrite Hbs, !py_mod_nonzero in Hoff by lia. injection Hoff as Hoff.
  rewrite <- Hidx in Htag.
  set (i := Z.shiftr A1 b mod 2 ^ s) in *.
  pose proof (bit_length_nonneg i) as Hn.
  rewrite !(Z.add_comm (bit_length i) b) in Htag.
  rewrite <- !Z.shiftr_shiftr in Htag by done.
  pose proof (low_bits_of_index (Z.shiftr A1 b) s Hs) as E1.
  pose proof (low_bits_of_index (Z.shiftr A2 b) s Hs) as E2.
  cbv zeta in E1, E2. rewrite <- Hidx in E2. fold i in E1, E2.
  rewrite Htag in E1. rewrite <- E2 in E1.
  rewrite !Z.shiftr_div_pow2 in E1 by done.
  rewrite (Z.div_mod A1 (2 ^ b)), (Z.div_mod A2 (2 ^ b)) by lia. rewrite E1, Hoff. done.
Qed.

Lemma decomposition_injective_witness :
  (SetAssociativeCache.cache_type small_l1 = "direct_mapped" \/
   SetAssociativeCache.cache_type small_l1 = "set_associative") /\
  SetAssociativeCache.block_size small_l1 = 2 ^ 4 /\
  SetAssociativeCache.offset_bits small_l1 = bit_length (2 ^ 4) - 1 /\
  SetAssociativeCache.index_bits small_l1 = bit_length (2 ^ 1) - 1 /\
  SetAssociativeCache.get_tag small_l1 (50 + 50) = SetAssociativeCache.get_tag small_l1 100 /\
  50 + 50 = 100.
Proof.
  assert (H1 : SetAssociativeCache.cache_type small_l1 = "direct_mapped" \/
               SetAssociativeCache.cache_type small_l1 = "set_associative")
    by (right; reflexivity).
  assert (H2 : SetAssociativeCache.block_size small_l1 = 2 ^ 4) by reflexivity.
  assert (H3 : SetAssociativeCache.offset_bits small_l1 = bit_length (2 ^ 4) - 1)
    by reflexivity.
  assert (H4 : SetAssociativeCache.index_bits small_l1 = bit_length (2 ^ 1) - 1)
    by reflexivity.
  split; [exact H1|]. split; [exact H2|]. split; [exact H3|]. split; [exact H4|].
  split; [reflexivity|].
  apply (decomposition_injective small_l1 (50 + 50) 100 4 1 H1); try assumption;
    try lia; reflexivity.
Defined.

(** X16. In such a level, two addresses of the same block (equal
    [address // block_size]) are mapped to the same set and the same tag,
    so that a block loaded for one of them serves the other. *)
Theorem block_shares_set_and_tag c (A1 A2 b s : Z) :
  SetAssociativeCache.cache_type c = "direct_mapped" \/
  SetAssociativeCache.cache_type c = "set_associative" ->
  0 <= b -> 0 <= s ->
  SetAssociativeCache.block_size c = 2 ^ b ->
  SetAssociativeCache.offset_bits c = bit_length (2 ^ b) - 1 ->
  SetAssociativeCache.index_bits c = bit_length (2 ^ s) - 1 ->
  A1 / 2 ^ b = A2 / 2 ^ b ->
  SetAssociativeCache._get_set_index c A1 = SetAssociativeCache._get_set_index c A2 /\
  SetAssociativeCache.get_tag c A1 = SetAssociativeCache.get_tag c A2.
Proof.
  intros Hty Hb Hs Hbs Hob Hib Hblk.
  rewrite !(set_index_formula c _ b s), !(tag_formula_code c _ b s) by done.
  rewrite !Z.shiftr_div_pow2 by done. rewrite Hblk. split; [done|].
  set (i := (A2 / 2 ^ b) mod 2 ^ s). pose proof (bit_length_nonneg i).
  rewrite !(Z.add_comm (bit_length i) b).
  rewrite <- !Z.shiftr_shiftr by done. rewrite !(Z.shiftr_div_pow2 _ b) by done.
  by rewrite Hblk.
Qed.

Lemma block_shares_set_and_tag_witness :
  (SetAssociativeCache.cache_type small_l1 = "direct_mapped" \/
   SetAssociativeCache.cache_type small_l1 = "set_associative") /\
  SetAssociativeCache.block_size small_l1 = 2 ^ 4 /\
  SetAssociativeCache.offset_bits small_l1 = bit_length (2 ^ 4) - 1 /\
  SetAssociativeCache.index_bits small_l1 = bit_length (2 ^ 1) - 1 /\
  100 / 2 ^ 4 = 111 / 2 ^ 4 /\
  SetAssociativeCache._get_set_index small_l1 100 = SetAssociativeCache._get_set_index small_l1 111 /\
  SetAssociativeCache.get_tag small_l1 100 = SetAssociativeCache.get_tag small_l1 111.
Proof.
  assert (H1 : SetAssociativeCache.cache_type small_l1 = "direct_mapped" \/
               SetAssociativeCache.cache_type small_l1 = "set_associative")
    by (right; reflexivity).
  assert (H2 : SetAssociativeCache.block_size small_l1 = 2 ^ 4) by reflexivity.
  assert (H3 : SetAssociativeCache.offset_bits small_l1 = bit_length (2 ^ 4) - 1)
    by reflexivity.
  assert (H4 : SetAssociativeCache.index_bits small_l1 = bit_length (2 ^ 1) - 1)
    by reflexivity.
  assert (H5 : 100 / 2 ^ 4 = 111 / 2 ^ 4) by reflexivity.
  split; [exact H1|]. split; [exact H2|]. split; [exact H3|]. split; [exact H4|].
  split; [exact H5|].
  apply (block_shares_set_and_tag small_l1 100 111 4 1 H1); try assumption; lia.
Defined.

(** X17. A fully associative level takes the tag from [line_size] and the
    offset from [block_size]; when a line is longer than a block, the
    address one block further in the same line has the same set, tag and
    offset, so the level cannot tell the two apart: a datum written to the
    one is what a read of the other returns. *)
Theorem fully_associative_aliasing c (A : Z) :
  SetAssociativeCache.cache_type c = "fully_associative" ->
  0 < SetAssociativeCache.block_size c ->
  0 <= A mod SetAssociativeCache.line_size c + SetAssociativeCache.block_size c
     < SetAssociativeCache.line_size c ->
  let A' := A + SetAssociativeCache.block_size c in
  A' <> A /\
  SetAssociativeCache._get_set_index c A' = SetAssociativeCache._get_set_index c A /\
  SetAssociativeCache.get_tag c A' = SetAssociativeCache.get_tag c A /\
  SetAssociativeCache.get_offset c A' = SetAssociativeCache.get_offset c A /\
  (forall h d lvl,
      SetAssociativeCache.check_hit c A = Ok (true, lvl) ->
      SetAssociativeCache.read_data (snd (SetAssociativeCache.write_data h c A' d)) c A
      = Ok d).
Proof.
  intros Hty Hbs Hroom A'.
  set (L := SetAssociativeCache.line_size c) in *.
  set (B := SetAssociativeCache.block_size c) in *.
  assert (HL : 0 < L) by (pose proof (Z.mod_pos_bound A L); lia).
  assert (Hidx : SetAssociativeCache._get_set_index c A' = SetAssociativeCache._get_set_index c A).
  { unfold SetAssociativeCache._get_set_index. by rewrite Hty. }
  assert (Htag : SetAssociativeCache.get_tag c A' = SetAssociativeCache.get_tag c A).
  { unfold SetAssociativeCache.get_tag. rewrite Hty. simpl. fold L.
    rewrite !py_floordiv_nonzero by lia. f_equal. unfold A'.
    symmetry. apply (Z.div_unique_pos _ _ _ (A mod L + B)); [lia|].
    pose proof (Z.div_mod A L ltac:(lia)). lia. }
  assert (Hoff : SetAssociativeCache.get_offset c A' = SetAssociativeCache.get_offset c A).
  { unfold SetAssociativeCache.get_offset. fold B. rewrite !py_mod_nonzero by lia.
    f_equal. unfold A'. replace (A + B) with (A + 1 * B) by lia. apply Z_mod_plus_full. }
  split; [unfold A'; lia|]. split; [done|]. split; [done|]. split; [done|].
  intros h d lvl Hhit.
  assert (Hcell : cell c A' = cell c A) by (unfold cell; by rewrite Hidx, Htag, Hoff).
  assert (Ho : exists off, SetAssociativeCache.get_offset c A = Ok off).
  { unfold SetAssociativeCache.get_offset. fold B. rewrite py_mod_nonzero by lia. eauto. }
  destruct Ho as [off Ho].
  destruct (check_hit_cell _ _ _ _ _ Hhit Ho) as [_ [l Hc]].
  rewrite <- Hcell in Hc.
  destruct (cell_resident c A' l off h d Hc) as (_ & _ & ->). simpl.
  rewrite Hcell in Hc.
  destruct (cell_resident c A l off (dict_setitem h l off d) d Hc) as (_ & -> & _).
  by rewrite dict_get_setitem.
Qed.

Lemma fully_associative_aliasing_witness :
  SetAssociativeCache.cache_type fa_level = "fully_associative" /\
  0 < SetAssociativeCache.block_size fa_level /\
  0 <= 0 mod SetAssociativeCache.line_size fa_level + SetAssociativeCache.block_size fa_level
     < SetAssociativeCache.line_size fa_level /\
  SetAssociativeCache.check_hit fa_level 0 = Ok (true, 1) /\
  SetAssociativeCache.read_data
    (snd (SetAssociativeCache.write_data two_blocks fa_level
            (0 + SetAssociativeCache.block_size fa_level) (PyInt 5))) fa_level 0
  = Ok (PyInt 5).
Proof.
  assert (H1 : SetAssociativeCache.cache_type fa_level = "fully_associative") by reflexivity.
  assert (H2 : 0 < SetAssociativeCache.block_size fa_level) by reflexivity.
  assert (H3 : 0 <= 0 mod SetAssociativeCache.line_size fa_level
                    + SetAssociativeCache.block_size fa_level
               < SetAssociativeCache.line_size fa_level) by (vm_compute; split; [discriminate | reflexivity]).
  assert (H4 : SetAssociativeCache.check_hit fa_level 0 = Ok (true, 1)) by reflexivity.
  split; [exact H1|]. split; [exact H2|]. split; [exact H3|]. split; [exact H4|].
  destruct (fully_associative_aliasing fa_level 0 H1 H2 H3) as (_ & _ & _ & _ & H).
  exact (H two_blocks (PyInt 5) 1 H4).
Defined.

End LevelMore.

(** ** CacheSystem: construction, reconfiguration, lookup and loading *)

Section SystemMore.
Implicit Types (c : SetAssociativeCache.t) (h : heap) (a : Z).

Lemma py_index_elem {A} (l : list A) (i : Z) (x : A) : py_index l i = Ok x -> x ∈ l.
Proof.
  intros H. apply py_index_norm in H as (n & _ & Hn). by eapply list_elem_of_lookup_2.
Qed.

Lemma empty_level_misses c a (b : bool) (lvl : Z) :
  empty_level c -> SetAssociativeCache.check_hit c a = Ok (b, lvl) -> b = false.
Proof.
  unfold SetAssociativeCache.check_hit. intros He H.
  repeat (step_result; try done).
  unfold CacheSet.check_hit. apply py_index_elem in Heqr1.
  unfold empty_level in He. rewrite Forall_forall in He. by rewrite (He _ Heqr1).
Qed.

Lemma init_empty (lvl size line n bs : Z) (ty : string) c :
  SetAssociativeCache.__init__ lvl size line n bs ty = Ok c ->
  empty_level c /\ SetAssociativeCache.level c = lvl /\
  SetAssociativeCache.block_size c = bs /\ SetAssociativeCache.n_way c = n.
Proof.
  unfold SetAssociativeCache.__init__. intros H.
  destruct (if String.eqb ty "fully_associative" then _ else _) as [ns|]; [|done].
  simpl in H. injection H as <-. simpl. split; [|done].
  unfold empty_level. simpl. apply Forall_forall. intros s Hs.
  apply elem_of_replicate_inv in Hs. by subst s.
Qed.

Lemma build_levels_empty (sizes : list Z) : forall i line n cl,
  CacheSystem.build_levels i sizes line n = Ok cl ->
  Forall empty_level cl /\
  map SetAssociativeCache.level cl = (fun k => i + 1 + Z.of_nat k) <$> seq 0 (length sizes).
Proof.
  induction sizes as [|sz sizes IH]; intros i line n cl H; simpl in H.
  - injection H as <-. split; [constructor | done].
  - destruct (SetAssociativeCache.__init__ _ _ _ _ _ _) as [c|] eqn:Hc; [|done].
    simpl in H.
    destruct (CacheSystem.build_levels (i + 1) sizes line n) as [cl'|] eqn:Hcl; [|done].
    simpl in H. injection H as <-.
    destruct (init_empty _ _ _ _ _ _ _ Hc) as (He & Hl & _).
    destruct (IH _ _ _ _ Hcl) as [Hall Hlv]. split; [by constructor|].
    simpl. rewrite Hl, Hlv. f_equal; [lia|].
    rewrite <- fmap_S_seq, <- list_fmap_compose. apply list_fmap_ext. intros k x _. simpl. lia.
Qed.

Lemma check_hit_levels_empty (levels : list SetAssociativeCache.t) a r :
  Forall empty_level levels ->
  CacheSystem.check_hit_levels levels a = Ok r -> r = None.
Proof.
  induction levels as [|c levels IH]; intros Hall H; simpl in H; [by injection H as <-|].
  inversion Hall as [|? ? Hc Hrest]; subst.
  destruct (SetAssociativeCache.check_hit c a) as [[b lvl]|] eqn:Hh; [|done].
  simpl in H. rewrite (empty_level_misses c a b lvl Hc Hh) in H. by apply IH.
Qed.

(** X18. [configure_cache] drops everything the caches held: when it
    returns, the hierarchy has the three given sizes and the given
    associativity, keeps its line size, its levels are numbered 1, 2, 3, and
    no address hits at any level ([check_hit] gives [(None, None)] and
    [get_block] gives None wherever they return). *)
Theorem configure_cache_flushes (cs cs' : CacheSystem.t) (l1 l2 l3 n : Z) :
  CacheSystem.configure_cache cs l1 l2 l3 n = Ok cs' ->
  CacheSystem.levels_size cs' = [l1; l2; l3] /\
  CacheSystem.n_way cs' = n /\
  CacheSystem.line_size cs' = CacheSystem.line_size cs /\
  map SetAssociativeCache.level (CacheSystem.cache_levels cs') = [1; 2; 3] /\
  (forall a r, CacheSystem.check_hit cs' a = Ok r -> r = None) /\
  (forall a c, c ∈ CacheSystem.cache_levels cs' ->
     forall v, SetAssociativeCache.get_block c a = Ok v -> v = PyNone).
Proof.
  unfold CacheSystem.configure_cache, CacheSystem.reset_caches. intros H.
  apply rbind_ok in H as (cl & Hcl & H). cbn -[CacheSystem.build_levels] in Hcl, H.
  injection H as <-. cbn -[CacheSystem.build_levels].
  destruct (build_levels_empty _ _ _ _ _ Hcl) as [Hall Hlv].
  split; [done|]. split; [done|]. split; [done|]. split; [exact Hlv|]. split.
  - intros a r. by apply check_hit_levels_empty.
  - intros a c Hin v. rewrite Forall_forall in Hall. specialize (Hall c Hin).
    unfold SetAssociativeCache.get_block. intros Hg. repeat (step_result; try done).
    apply py_index_elem in Heqr1. unfold empty_level in Hall. rewrite Forall_forall in Hall.
    unfold CacheSet.get_block. by rewrite (Hall _ Heqr1).
Qed.

Lemma configure_cache_flushes_witness :
  let cs' := ok_or (CacheSystem.configure_cache loaded_levels 256 512 1024 4) small_levels in
  CacheSystem.check_hit loaded_levels 64 = Ok (Some (true, 1)) /\
  CacheSystem.configure_cache loaded_levels 256 512 1024 4 = Ok cs' /\
  CacheSystem.n_way cs' = 4 /\
  CacheSystem.check_hit cs' 64 = Ok None.
Proof.
  intros cs'.
  assert (H : CacheSystem.configure_cache loaded_levels 256 512 1024 4 = Ok cs')
    by reflexivity.
  split; [reflexivity|]. split; [exact H|].
  destruct (configure_cache_flushes loaded_levels cs' 256 512 1024 4 H)
    as (_ & Hn & _).
  split; [exact Hn|].
  assert (E : CacheSystem.check_hit cs' 64 = Ok None) by reflexivity.
  exact E.
Defined.

(** X19. [CacheSystem.check_hit] reports the nearest level that holds the
    address: a result [(True, lvl)] is the level number of a cache in the
    list that holds the address while every cache before it returned a miss,
    and [(None, None)] means that every cache returned a miss. *)
Theorem check_hit_nearest (levels : list SetAssociativeCache.t) a r :
  CacheSystem.check_hit_levels levels a = Ok r ->
  match r with
  | Some (b, lvl) =>
      b = true /\
      exists k c,
        levels !! k = Some c /\ lvl = SetAssociativeCache.level c /\
        SetAssociativeCache.check_hit c a = Ok (true, lvl) /\
        Forall (fun c' => SetAssociativeCache.check_hit c' a
                          = Ok (false, SetAssociativeCache.level c')) (take k levels)
  | None =>
      Forall (fun c' => SetAssociativeCache.check_hit c' a
                        = Ok (false, SetAssociativeCache.level c')) levels
  end.
Proof.
  revert r. induction levels as [|c levels IH]; intros r H; simpl in H.
  - injection H as <-. constructor.
  - destruct (SetAssociativeCache.check_hit c a) as [[b lvl]|] eqn:Hh; [|done].
    assert (Hl : lvl = SetAssociativeCache.level c).
    { unfold SetAssociativeCache.check_hit in Hh. repeat (step_result; try done). }
    simpl in H. destruct b.
    + injection H as <-. split; [done|]. exists 0%nat, c. simpl.
      split; [done|]. split; [done|]. split; [done | constructor].
    + specialize (IH r H). destruct r as [[b' lvl']|].
      * destruct IH as (Hb & k & c' & Hk & Hlv & Hhit & Hpre). split; [done|].
        exists (S k), c'. simpl. split; [done|]. split; [done|]. split; [done|].
        constructor; [by rewrite Hh, Hl | done].
      * constructor; [by rewrite Hh, Hl | done].
Qed.

Lemma check_hit_nearest_witness :
  let levels :=
    CacheSystem.cache_levels
      (ok_or (write_block_at two_blocks small_levels 1 0 (PyDict 2%positive)) small_levels) in
  CacheSystem.check_hit_levels levels 0 = Ok (Some (true, 2)) /\
  exists k c,
    levels !! k = Some c /\ 2 = SetAssociativeCache.level c /\
    SetAssociativeCache.check_hit c 0 = Ok (true, 2) /\
    Forall (fun c' => SetAssociativeCache.check_hit c' 0
                      = Ok (false, SetAssociativeCache.level c')) (take k levels).
Proof.
  intros levels.
  assert (H : CacheSystem.check_hit_levels levels 0 = Ok (Some (true, 2))) by reflexivity.
  split; [exact H|].
  exact (proj2 (check_hit_nearest levels 0 (Some (true, 2)) H)).
Defined.

Lemma get_set_index_nonneg c a (i : Z) :
  SetAssociativeCache._get_set_index c a = Ok i -> 0 <= i.
Proof.
  unfold SetAssociativeCache._get_set_index. destruct (_ || _); [|by intros [= <-]].
  unfold py_rshift, py_lshift.
  destruct (SetAssociativeCache.offset_bits c <? 0); [done|].
  destruct (Z.ltb_spec (SetAssociativeCache.index_bits c) 0); [done|]. simpl.
  intros [= <-]. apply Z.land_nonneg. right. rewrite Z.shiftl_1_l.
  pose proof (Z.pow_pos_nonneg 2 (SetAssociativeCache.index_bits c)). lia.
Qed.

Lemma write_block_result h c c' a (blk : pyval) :
  SetAssociativeCache.write_block h c a blk = (Ok tt, c') ->
  exists l idx tag s s',
    blk = PyDict l /\
    SetAssociativeCache._get_set_index c a = Ok idx /\
    SetAssociativeCache.get_tag c a = Ok tag /\
    0 <= idx < Z.of_nat (length (SetAssociativeCache.cache_sets c)) /\
    SetAssociativeCache.cache_sets c !! Z.to_nat idx = Some s /\
    CacheSet.add_or_update h s tag blk = (Ok tt, s') /\
    c' = SetAssociativeCache.set_cache_sets c
           (<[Z.to_nat idx := s']> (SetAssociativeCache.cache_sets c)).
Proof.
  unfold SetAssociativeCache.write_block.
  destruct blk as [| | | |l]; try done.
  destruct (_ <? _); [done|].
  destruct (SetAssociativeCache._get_set_index c a) as [idx|] eqn:Hidx; [|done].
  destruct (SetAssociativeCache.get_tag c a) as [tag|] eqn:Htag; [|done].
  destruct (py_norm_index _ idx) as [i|] eqn:Hi; [|done].
  destruct (SetAssociativeCache.cache_sets c !! i) as [s|] eqn:Hs; [|done].
  destruct (CacheSet.add_or_update h s tag (PyDict l)) as [r s'] eqn:Hadd.
  intros [= -> <-].
  pose proof (get_set_index_nonneg _ _ _ Hidx) as Hnn.
  pose proof (py_norm_index_lt _ _ _ Hi) as Hlt.
  assert (i = Z.to_nat idx) as ->.
  { unfold py_norm_index in Hi. destruct (Z.ltb_spec idx 0); [lia|].
    destruct (_ || _); [done|]. by injection Hi as <-. }
  exists l, idx, tag, s, s'. repeat split; try done; lia.
Qed.

Lemma py_index_insert_same (sets : list CacheSet.t) (idx : Z) (s s' : CacheSet.t) :
  0 <= idx -> sets !! Z.to_nat idx = Some s ->
  py_index (<[Z.to_nat idx := s']> sets) idx = Ok s'.
Proof.
  intros Hnn Hs. pose proof (lookup_lt_Some _ _ _ Hs) as Hlt.
  unfold py_index. rewrite length_insert, py_norm_index_in_range by lia.
  by rewrite list_lookup_insert_eq.
Qed.

Lemma py_index_insert_other (sets : list CacheSet.t) (i i' : Z) (s' : CacheSet.t) :
  0 <= i -> 0 <= i' -> i <> i' ->
  py_index (<[Z.to_nat i := s']> sets) i' = py_index sets i'.
Proof.
  intros Hi Hi' Hne. unfold py_index. rewrite length_insert.
  destruct (py_norm_index (length sets) i') as [n|] eqn:Hn; [|done].
  assert (n = Z.to_nat i') as ->.
  { unfold py_norm_index in Hn. destruct (Z.ltb_spec i' 0); [lia|].
    destruct (_ || _); [done|]. by injection Hn as <-. }
  rewrite list_lookup_insert_ne by lia. done.
Qed.

Lemma write_block_get h c c' a (blk : pyval) :
  SetAssociativeCache.write_block h c a blk = (Ok tt, c') ->
  SetAssociativeCache.get_block c' a = Ok blk /\
  SetAssociativeCache.check_hit c' a = Ok (true, SetAssociativeCache.level c) /\
  (forall a' i i',
      SetAssociativeCache._get_set_index c a = Ok i ->
      SetAssociativeCache._get_set_index c a' = Ok i' ->
      i' <> i ->
      SetAssociativeCache.get_block c' a' = SetAssociativeCache.get_block c a' /\
      SetAssociativeCache.check_hit c' a' = SetAssociativeCache.check_hit c a').
Proof.
  intros H.
  destruct (write_block_result _ _ _ _ _ H)
    as (l & idx & tag & s & s' & -> & Hidx & Htag & Hr & Hs & Hadd & ->).
  apply add_or_update_installs in Hadd.
  unfold SetAssociativeCache.get_block, SetAssociativeCache.check_hit.
  change (SetAssociativeCache._get_set_index (SetAssociativeCache.set_cache_sets c _))
    with (SetAssociativeCache._get_set_index c).
  change (SetAssociativeCache.get_tag (SetAssociativeCache.set_cache_sets c _))
    with (SetAssociativeCache.get_tag c).
  cbn [SetAssociativeCache.cache_sets SetAssociativeCache.set_cache_sets
       SetAssociativeCache.level].
  split; [|split].
  - rewrite Hidx, Htag. simpl. rewrite (py_index_insert_same _ _ s) by (done || lia).
    simpl. unfold CacheSet.get_block. by rewrite Hadd.
  - rewrite Hidx, Htag. simpl. rewrite (py_index_insert_same _ _ s) by (done || lia).
    simpl. unfold CacheSet.check_hit, OrderedDict.contains. by rewrite Hadd.
  - intros a' i i' Hi Hi' Hne. rewrite Hidx in Hi. injection Hi as <-.
    rewrite Hi'. simpl.
    pose proof (get_set_index_nonneg _ _ _ Hi').
    destruct (SetAssociativeCache.get_tag c a'); simpl; [|done].
    rewrite py_index_insert_other by (lia || congruence). done.
Qed.

(** X20. When [write_block(address, block)] returns, [get_block(address)]
    returns that very block object and [check_hit(address)] reports a hit at
    the level's number; an address of another set finds what it found
    before. *)
Theorem write_block_then_get h c c' a (blk : pyval) :
  SetAssociativeCache.write_block h c a blk = (Ok tt, c') ->
  SetAssociativeCache.get_block c' a = Ok blk /\
  SetAssociativeCache.check_hit c' a = Ok (true, SetAssociativeCache.level c) /\
  (forall a' i i',
      SetAssociativeCache._get_set_index c a = Ok i ->
      SetAssociativeCache._get_set_index c a' = Ok i' ->
      i' <> i ->
      SetAssociativeCache.get_block c' a' = SetAssociativeCache.get_block c a' /\
      SetAssociativeCache.check_hit c' a' = SetAssociativeCache.check_hit c a').
Proof. exact (write_block_get h c c' a blk). Qed.

Lemma write_block_then_get_witness :
  let c' := snd (SetAssociativeCache.write_block two_blocks small_l1 64 (PyDict 2%positive)) in
  SetAssociativeCache.write_block two_blocks small_l1 64 (PyDict 2%positive) = (Ok tt, c') /\
  SetAssociativeCache.get_block c' 64 = Ok (PyDict 2%positive) /\
  SetAssociativeCache.check_hit c' 64 = Ok (true, SetAssociativeCache.level small_l1).
Proof.
  intros c'.
  assert (H : SetAssociativeCache.write_block two_blocks small_l1 64 (PyDict 2%positive)
              = (Ok tt, c')) by reflexivity.
  split; [exact H|].
  destruct (write_block_then_get two_blocks small_l1 c' 64 (PyDict 2%positive) H)
    as (Hg & Hh & _).
  split; [exact Hg | exact Hh].
Defined.

Lemma load_levels_all h (levels : list SetAssociativeCache.t) a (blk : pyval) : forall out,
  CacheSystem.load_levels h levels a blk = (Ok tt, out) ->
  Forall (fun c => SetAssociativeCache.get_block c a = Ok blk /\
                   SetAssociativeCache.check_hit c a
                   = Ok (true, SetAssociativeCache.level c)) out.
Proof.
  induction levels as [|c levels IH]; intros out; simpl.
  - intros [= <-]. constructor.
  - destruct (SetAssociativeCache.write_block h c a blk) as [[[]|e] c'] eqn:Hc; [|done].
    destruct (CacheSystem.load_levels h levels a blk) as [r' rest'] eqn:Hr.
    intros [= -> <-]. constructor; [|by apply IH].
    destruct (write_block_get _ _ _ _ _ Hc) as (Hg & Hh & _). split; [done|].
    rewrite Hh. do 2 f_equal.
    destruct (write_block_result _ _ _ _ _ Hc)
      as (? & ? & ? & ? & ? & _ & _ & _ & _ & _ & _ & ->).
    done.
Qed.

Lemma load_block_read h (cs cs' : CacheSystem.t) a (l : loc) c0 rest (off : Z) (d : pyval) :
  CacheSystem.load_block h cs a (PyDict l) = (Ok tt, cs') ->
  CacheSystem.cache_levels cs' = c0 :: rest ->
  SetAssociativeCache.get_offset c0 a = Ok off ->
  dict_get h l off = d ->
  is_none d = false ->
  CacheSystem.check_hit cs' a = Ok (Some (true, SetAssociativeCache.level c0)) /\
  CacheSystem.read_data h cs' a = (Ok d, h) /\
  Forall (fun c => SetAssociativeCache.get_block c a = Ok (PyDict l))
         (CacheSystem.cache_levels cs').
Proof.
  intros Hload Hlv Hoff Hd Hnn. unfold CacheSystem.load_block in Hload.
  destruct (CacheSystem.load_levels h (CacheSystem.cache_levels cs) a (PyDict l))
    as [r cl] eqn:Hl. injection Hload as -> <-. simpl in Hlv. subst cl.
  pose proof (load_levels_all _ _ _ _ _ Hl) as Hall.
  inversion Hall as [|? ? [Hg0 Hh0] Hrest]; subst.
  split; [|split].
  - unfold CacheSystem.check_hit. simpl. rewrite Hh0. done.
  - destruct (check_hit_cell _ _ _ _ _ Hh0 Hoff) as [_ [l' Hc]].
    assert (l' = l) as ->.
    { unfold cell in Hc. unfold SetAssociativeCache.get_block in Hg0.
      repeat (step_result; try done). unfold CacheSet.get_block in Hg0.
      destruct (OrderedDict.get _ _); congruence. }
    destruct (cell_resident c0 a l off h PyNone Hc) as (_ & Hread & _).
    unfold CacheSystem.read_data. simpl. rewrite Hread, Hnn. done.
  - simpl. eapply Forall_impl; [exact Hall|]. by intros c [? _].
Qed.
(** X21. When [load_block(address, block)] returns on a hierarchy with at
    least one level, every level holds that one block object under the
    address, [check_hit] reports a hit in the first level, and [read_data]
    returns what the block holds at the address's offset (when that is not
    None), without changing any block. *)
Theorem load_block_then_read h (cs cs' : CacheSystem.t) a (l : loc) c0 rest (off : Z)
  (d : pyval) :
  CacheSystem.load_block h cs a (PyDict l) = (Ok tt, cs') ->
  CacheSystem.cache_levels cs' = c0 :: rest ->
  SetAssociativeCache.get_offset c0 a = Ok off ->
  dict_get h l off = d ->
  is_none d = false ->
  CacheSystem.check_hit cs' a = Ok (Some (true, SetAssociativeCache.level c0)) /\
  CacheSystem.read_data h cs' a = (Ok d, h) /\
  Forall (fun c => SetAssociativeCache.get_block c a = Ok (PyDict l))
         (CacheSystem.cache_levels cs').
Proof. exact (load_block_read h cs cs' a l c0 rest off d). Qed.

Lemma load_block_then_read_witness :
  let c0 := default small_l1 (head (CacheSystem.cache_levels loaded_levels)) in
  let rest := tail (CacheSystem.cache_levels loaded_levels) in
  CacheSystem.load_block two_blocks small_levels 65 (PyDict 2%positive)
    = (Ok tt, loaded_levels) /\
  CacheSystem.cache_levels loaded_levels = c0 :: rest /\
  SetAssociativeCache.get_offset c0 65 = Ok 1 /\
  dict_get two_blocks 2%positive 1 = PyInt 8 /\
  is_none (PyInt 8) = false /\
  CacheSystem.check_hit loaded_levels 65 = Ok (Some (true, SetAssociativeCache.level c0)) /\
  CacheSystem.read_data two_blocks loaded_levels 65 = (Ok (PyInt 8), two_blocks) /\
  Forall (fun c => SetAssociativeCache.get_block c 65 = Ok (PyDict 2%positive))
         (CacheSystem.cache_levels loaded_levels).
Proof.
  intros c0 rest.
  assert (H1 : CacheSystem.load_block two_blocks small_levels 65 (PyDict 2%positive)
               = (Ok tt, loaded_levels)) by reflexivity.
  assert (H2 : CacheSystem.cache_levels loaded_levels = c0 :: rest) by reflexivity.
  assert (H3 : SetAssociativeCache.get_offset c0 65 = Ok 1) by reflexivity.
  assert (H4 : dict_get two_blocks 2%positive 1 = PyInt 8) by reflexivity.
  assert (H5 : is_none (PyInt 8) = false) by reflexivity.
  split; [exact H1|]. split; [exact H2|]. split; [exact H3|]. split; [exact H4|].
  split; [exact H5|].
  exact (load_block_then_read two_blocks small_levels loaded_levels 65 2%positive c0 rest 1
           (PyInt 8) H1 H2 H3 H4 H5).
Defined.

End SystemMore.

Section ConstructionMore.
Implicit Types (c : SetAssociativeCache.t) (h : heap) (a : Z).

Lemma build_levels_configured (sizes : list Z) : forall i line n,
  0 < line -> 0 < n -> Forall (fun sz => line * n <= sz) sizes ->
  exists cl,
    CacheSystem.build_levels i sizes line n = Ok cl /\
    length cl = length sizes /\
    Forall configured cl /\
    Forall (fun c => SetAssociativeCache.block_size c = 16 /\
                     Forall (fun s => CacheSet.n_way s = n /\ CacheSet.block_size s = 16)
                            (SetAssociativeCache.cache_sets c)) cl.
Proof.
  induction sizes as [|sz sizes IH]; intros i line n Hline Hn Hall; simpl.
  - exists []. by repeat split.
  - inversion Hall as [|? ? Hsz Hrest]; subst.
    destruct (IH (i + 1) line n Hline Hn Hrest) as (cl & -> & Hlen & Hconf & Hsets).
    unfold SetAssociativeCache.__init__. simpl.
    rewrite py_floordiv_nonzero by lia. simpl.
    eexists. split; [reflexivity|]. split; [simpl; by rewrite Hlen|].
    assert (0 < sz / (line * n)) by (apply Z.div_str_pos; lia).
    split; constructor; try done.
    + unfold configured. simpl. rewrite length_replicate. repeat split; lia.
    + simpl. split; [done|]. apply Forall_forall. intros s Hs.
      apply elem_of_replicate_inv in Hs. by subst s.
Qed.

(** X22. For a positive line size and associativity and level sizes of at
    least [line_size * n_way] each, the constructor of the hierarchy returns
    one level per size, numbered from 1, each with at least one set and as
    many CacheSets as its set count, all empty: every address misses
    ([check_hit] gives [(None, None)]) and [write_data] returns for every
    address. *)
Theorem init_builds_configured (sizes : list Z) (levels line n : Z) :
  0 < line -> 0 < n -> Forall (fun sz => line * n <= sz) sizes ->
  exists cs,
    CacheSystem.__init__ (Some sizes) levels line n = Ok cs /\
    length (CacheSystem.cache_levels cs) = length sizes /\
    map SetAssociativeCache.level (CacheSystem.cache_levels cs)
      = (fun k => 1 + Z.of_nat k) <$> seq 0 (length sizes) /\
    Forall configured (CacheSystem.cache_levels cs) /\
    Forall empty_level (CacheSystem.cache_levels cs) /\
    (forall a h d, CacheSystem.check_hit cs a = Ok None /\
                   exists h', CacheSystem.write_data h cs a d = (Ok tt, h')).
Proof.
  intros Hline Hn Hall.
  destruct (build_levels_configured sizes 0 line n Hline Hn Hall) as (cl & Hcl & Hlen & Hconf & _).
  destruct (build_levels_empty _ _ _ _ _ Hcl) as [Hemp Hlv].
  unfold CacheSystem.__init__. rewrite Hcl. simpl.
  eexists. split; [reflexivity|]. simpl.
  split; [done|]. split; [exact Hlv|]. split; [done|]. split; [done|].
  intros a h d. split.
  - unfold CacheSystem.check_hit. simpl.
    clear Hcl Hlen Hlv. induction cl as [|c cl IH]; [done|]. simpl.
    inversion Hconf as [|? ? Hc Hrest]; inversion Hemp as [|? ? He Herest]; subst.
    destruct (configured_cell c a Hc) as [x Hx].
    assert (Hh : exists b lvl, SetAssociativeCache.check_hit c a = Ok (b, lvl)).
    { destruct x as [[l off]|].
      - destruct (cell_resident c a l off h d Hx) as (-> & _). eauto.
      - destruct (cell_absent c a h d Hx) as (-> & _). eauto. }
    destruct Hh as (b & lvl & Hh). rewrite Hh. simpl.
    rewrite (empty_level_misses c a b lvl He Hh). by apply IH.
  - apply write_data_configured_ok. done.
Qed.

Lemma init_builds_configured_witness :
  0 < 64 /\ 0 < 2 /\ Forall (fun sz => 64 * 2 <= sz) [256; 512; 1024] /\
  exists cs,
    CacheSystem.__init__ (Some [256; 512; 1024]) 3 64 2 = Ok cs /\
    length (CacheSystem.cache_levels cs) = length [256; 512; 1024] /\
    map SetAssociativeCache.level (CacheSystem.cache_levels cs)
      = (fun k => 1 + Z.of_nat k) <$> seq 0 (length [256; 512; 1024]) /\
    Forall configured (CacheSystem.cache_levels cs) /\
    Forall empty_level (CacheSystem.cache_levels cs) /\
    (forall a h d, CacheSystem.check_hit cs a = Ok None /\
                   exists h', CacheSystem.write_data h cs a d = (Ok tt, h')).
Proof.
  assert (H1 : 0 < 64) by lia. assert (H2 : 0 < 2) by lia.
  assert (H3 : Forall (fun sz => 64 * 2 <= sz) [256; 512; 1024]).
  { constructor; [lia|]. constructor; [lia|]. constructor; [lia|]. constructor. }
  split; [exact H1|]. split; [exact H2|]. split; [exact H3|].
  exact (init_builds_configured [256; 512; 1024] 3 64 2 H1 H2 H3).
Defined.

(** X23. A set-associative level whose size is below [line_size * n_way]
    is built with no set at all, and the constructor does not complain; every
    later [check_hit], [get_block], [read_data], [write_data] and, for a
    fitting block, [write_block] on it raises ValueError (the index width is
    -1, and [1 << -1] is a negative shift count). *)
Theorem zero_set_level (lvl sz line n bs : Z) :
  0 < line -> 0 < n -> 0 <= sz < line * n -> 0 < bs ->
  exists c,
    SetAssociativeCache.__init__ lvl sz line n bs "set_associative" = Ok c /\
    SetAssociativeCache.num_sets c = 0 /\
    SetAssociativeCache.cache_sets c = [] /\
    forall a h d,
      SetAssociativeCache.check_hit c a = Raise ValueError /\
      SetAssociativeCache.get_block c a = Raise ValueError /\
      SetAssociativeCache.read_data h c a = Raise ValueError /\
      SetAssociativeCache.write_data h c a d = (Raise ValueError, h) /\
      (forall l, Z.of_nat (size (deref h l)) <= bs ->
                 SetAssociativeCache.write_block h c a (PyDict l) = (Raise ValueError, c)).
Proof.
  intros Hline Hn Hsz Hbs. unfold SetAssociativeCache.__init__. simpl.
  rewrite py_floordiv_nonzero by lia. rewrite Z.div_small by lia. simpl.
  eexists. split; [reflexivity|]. split; [done|]. split; [done|].
  intros a h d.
  assert (Hidx : forall c', SetAssociativeCache.cache_type c' = "set_associative" ->
                 SetAssociativeCache.offset_bits c' = bit_length bs - 1 ->
                 SetAssociativeCache.index_bits c' = -1 ->
                 SetAssociativeCache._get_set_index c' a = Raise ValueError).
  { intros c' Hty Hob Hib. unfold SetAssociativeCache._get_set_index. rewrite Hty, Hob, Hib.
    simpl. rewrite py_rshift_nonneg; [done|].
    rewrite bit_length_log2 by done. pose proof (Z.log2_nonneg bs). lia. }
  unfold SetAssociativeCache.check_hit, SetAssociativeCache.get_block,
    SetAssociativeCache.read_data, SetAssociativeCache.write_data,
    SetAssociativeCache.write_block, SetAssociativeCache.check_hit.
  rewrite Hidx by done. simpl. repeat split; try done.
  intros l Hl. destruct (Z.ltb_spec bs (Z.of_nat (size (deref h l)))); [lia | done].
Qed.

Lemma zero_set_level_witness :
  0 < 64 /\ 0 < 2 /\ 0 <= 100 < 64 * 2 /\ 0 < 16 /\
  exists c,
    SetAssociativeCache.__init__ 1 100 64 2 16 "set_associative" = Ok c /\
    SetAssociativeCache.num_sets c = 0 /\
    SetAssociativeCache.cache_sets c = [] /\
    forall a h d,
      SetAssociativeCache.check_hit c a = Raise ValueError /\
      SetAssociativeCache.get_block c a = Raise ValueError /\
      SetAssociativeCache.read_data h c a = Raise ValueError /\
      SetAssociativeCache.write_data h c a d = (Raise ValueError, h) /\
      (forall l, Z.of_nat (size (deref h l)) <= 16 ->
                 SetAssociativeCache.write_block h c a (PyDict l) = (Raise ValueError, c)).
Proof.
  assert (H1 : 0 < 64) by lia. assert (H2 : 0 < 2) by lia.
  assert (H3 : 0 <= 100 < 64 * 2) by lia. assert (H4 : 0 < 16) by lia.
  split; [exact H1|]. split; [exact H2|]. split; [exact H3|]. split; [exact H4|].
  exact (zero_set_level 1 100 64 2 16 H1 H2 H3 H4).
Defined.

End ConstructionMore.

(** ** MMU: a request that misses the caches *)


Section MmuMore.

Lemma translate_fills_tlb (m : MMU.t) (va rnd : Z) :
  exists pa m1,
    MMU.translate_address m va rnd = (Ok pa, m1) /\
    MMU.cache_system m1 = MMU.cache_system m /\
    MMU.memory m1 = MMU.memory m /\
    MMU.tlb m1 !! va = Some pa.
Proof.
  unfold MMU.translate_address. simpl.
  destruct (MMU.tlb m !! va) eqn:E; [by eexists _, _|].
  destruct (PageTable.get_physical_page_number _ _); simpl; eexists _, _;
    (split; [reflexivity|]); simpl; by rewrite lookup_insert_eq.
Qed.

Lemma load_levels_shape h (levels : list SetAssociativeCache.t) a (blk : pyval) :
  forall r out,
  CacheSystem.load_levels h levels a blk = (r, out) ->
  map SetAssociativeCache.block_size out = map SetAssociativeCache.block_size levels /\
  map SetAssociativeCache.level out = map SetAssociativeCache.level levels.
Proof.
  induction levels as [|c levels IH]; intros r out; simpl.
  - by intros [= <- <-].
  - assert (Hc : SetAssociativeCache.block_size (snd (SetAssociativeCache.write_block h c a blk))
                 = SetAssociativeCache.block_size c /\
                 SetAssociativeCache.level (snd (SetAssociativeCache.write_block h c a blk))
                 = SetAssociativeCache.level c).
    { unfold SetAssociativeCache.write_block. destruct blk; try done.
      destruct (_ <? _); [done|].
      destruct (SetAssociativeCache._get_set_index c a); [|done].
      destruct (SetAssociativeCache.get_tag c a); [|done].
      destruct (py_norm_index _ _); [|done].
      destruct (SetAssociativeCache.cache_sets c !! _); [|done].
      by destruct (CacheSet.add_or_update _ _ _ _). }
    destruct (SetAssociativeCache.write_block h c a blk) as [[[]|e] c']; simpl in Hc.
    + destruct (CacheSystem.load_levels h levels a blk) as [r' rest'] eqn:Hr.
      intros [= <- <-]. destruct (IH _ _ eq_refl) as [H1 H2]. destruct Hc as [Hb Hv].
      simpl. split; f_equal; done.
    + intros [= <- <-]. destruct Hc as [Hb Hv]. simpl. split; f_equal; done.
Qed.

(** X24. A read that misses every cache: when [process_virtual_address]
    with no input data returns a result with [cache_hit] False, on a
    hierarchy of at least one level whose levels have block size 16, the
    data it returns are the five bytes [b"data" + bytes([pa % 16])] of the
    block that memory made for the physical address; that block is a new
    dict object with the sixteen entries of [Memory.get_block], it is what
    memory now stores at the address, and every cache level holds it under
    the address. *)
Theorem cold_read (m m' : MMU.t) (h h' : heap) (va rnd : Z) res :
  CacheSystem.cache_levels (MMU.cache_system m) <> [] ->
  Forall (fun c => SetAssociativeCache.block_size c = 16)
         (CacheSystem.cache_levels (MMU.cache_system m)) ->
  MMU.process_virtual_address m h va PyNone rnd = (Ok res, (m', h')) ->
  MMU.cache_hit res = PyBool false ->
  exists pa l,
    MMU.physical_address res = Some pa /\
    MMU.data res = PyBytes [100; 97; 116; 97; pa mod 16] /\
    (l ∉ dom h) /\
    Memory.read (MMU.memory m') pa = PyDict l /\
    h' = <[l := Memory.block_data 16]> h /\
    Forall (fun c => SetAssociativeCache.get_block c pa = Ok (PyDict l))
           (CacheSystem.cache_levels (MMU.cache_system m')).
Proof.
  intros Hne H16 H Hmiss. unfold MMU.process_virtual_address in H.
  destruct (translate_fills_tlb m va rnd) as (pa & m1 & Ht & Hcs & Hmem & _).
  rewrite Ht in H. rewrite <- Hcs in Hne, H16.
  destruct (CacheSystem.check_hit (MMU.cache_system m1) pa) as [[[b level]|]|e]; [| |done].
  { simpl in H.
    destruct (CacheSystem.read_data h _ pa) as [[d|e] hx]; [|done].
    injection H as <- <- <-. done. }
  unfold Memory.get_block in H. rewrite py_mod_nonzero in H by done. simpl in H.
  set (l := fresh (dom h)) in *. set (h1 := <[l := Memory.block_data 16]> h) in *.
  destruct (CacheSystem.load_block h1 _ pa (PyDict l))
    as [[[]|e] cs'] eqn:Hload; [|done].
  simpl in H.
  assert (Hlv : exists c0 rest, CacheSystem.cache_levels cs' = c0 :: rest /\
                                SetAssociativeCache.block_size c0 = 16).
  { unfold CacheSystem.load_block in Hload.
    destruct (CacheSystem.load_levels h1 _ pa (PyDict l)) as [r cl] eqn:Hl.
    injection Hload as -> <-. simpl.
    destruct (load_levels_shape _ _ _ _ _ _ Hl) as [Hbs _].
    destruct (CacheSystem.cache_levels (MMU.cache_system m1)) as [|c ls]; [done|].
    destruct cl as [|c0 rest]; [done|]. exists c0, rest. split; [done|].
    simpl in Hbs. injection Hbs as -> _. by inversion H16. }
  destruct Hlv as (c0 & rest & Hlv & Hb0).
  assert (Hoff : SetAssociativeCache.get_offset c0 pa = Ok (pa mod 16)).
  { unfold SetAssociativeCache.get_offset. rewrite Hb0. by apply py_mod_nonzero. }
  assert (Hd : dict_get h1 l (pa mod 16) = PyBytes [100; 97; 116; 97; pa mod 16]).
  { unfold dict_get, deref, h1. rewrite lookup_insert_eq. simpl.
    rewrite block_data_lookup. pose proof (Z.mod_pos_bound pa 16 ltac:(lia)).
    by rewrite decide_True by lia. }
  destruct (load_block_read h1 _ _ pa l c0 rest _ _ Hload Hlv Hoff Hd eq_refl)
    as (_ & Hread & Hall).
  rewrite Hread in H. injection H as <- <- <-. simpl.
  exists pa, l. split; [done|]. split; [done|]. split; [apply is_fresh|].
  split; [unfold Memory.read; simpl; by rewrite lookup_insert_eq|]. done.
Qed.

Lemma cold_read_witness :
  let out := MMU.process_virtual_address small_mmu two_blocks 5 PyNone 99 in
  let res := ok_or (fst out) (MMU.mk_result PyNone true None PyNone) in
  CacheSystem.cache_levels (MMU.cache_system small_mmu) <> [] /\
  Forall (fun c => SetAssociativeCache.block_size c = 16)
         (CacheSystem.cache_levels (MMU.cache_system small_mmu)) /\
  out = (Ok res, (fst (snd out), snd (snd out))) /\
  MMU.cache_hit res = PyBool false /\
  exists pa l,
    MMU.physical_address res = Some pa /\
    MMU.data res = PyBytes [100; 97; 116; 97; pa mod 16] /\
    (l ∉ dom two_blocks) /\
    Memory.read (MMU.memory (fst (snd out))) pa = PyDict l /\
    snd (snd out) = <[l := Memory.block_data 16]> two_blocks /\
    Forall (fun c => SetAssociativeCache.get_block c pa = Ok (PyDict l))
           (CacheSystem.cache_levels (MMU.cache_system (fst (snd out)))).
Proof.
  intros out res.
  assert (H1 : CacheSystem.cache_levels (MMU.cache_system small_mmu) <> []).
  { intros E. apply (f_equal length) in E. vm_compute in E. discriminate E. }
  assert (H2 : Forall (fun c => SetAssociativeCache.block_size c = 16)
                      (CacheSystem.cache_levels (MMU.cache_system small_mmu))).
  { apply (bool_decide_unpack _). vm_compute. exact I. }
  assert (H3 : out = (Ok res, (fst (snd out), snd (snd out)))) by reflexivity.
  assert (H4 : MMU.cache_hit res = PyBool false) by reflexivity.
  split; [exact H1|]. split; [exact H2|]. split; [exact H3|]. split; [exact H4|].
  exact (cold_read small_mmu (fst (snd out)) two_blocks (snd (snd out)) 5 99 res H1 H2 H3 H4).
Defined.

(** X25. Read after a write that missed: when a write through
    [process_virtual_address] returns a result with [cache_hit] False (the
    block was fetched from memory, loaded and then written), a following read
    of the same virtual address returns the written datum as a hit in the
    first level, with no page fault and the same physical address, and
    changes nothing but the page fault flag. *)
Theorem read_after_write_miss (m m1 : MMU.t) (h h1 : heap) (va rnd rnd2 : Z) (d : pyval) res :
  is_none d = false ->
  CacheSystem.cache_levels (MMU.cache_system m) <> [] ->
  MMU.process_virtual_address m h va d rnd = (Ok res, (m1, h1)) ->
  MMU.cache_hit res = PyBool false ->
  exists res2 c0,
    head (CacheSystem.cache_levels (MMU.cache_system m1)) = Some c0 /\
    MMU.process_virtual_address m1 h1 va PyNone rnd2
      = (Ok res2, (MMU.set_is_palt m1 false, h1)) /\
    MMU.data res2 = d /\
    MMU.cache_hit res2 = PyInt (SetAssociativeCache.level c0) /\
    MMU.page_fault res2 = false /\
    MMU.physical_address res2 = MMU.physical_address res.
Proof.
  intros Hd Hne H Hmiss. unfold MMU.process_virtual_address in H.
  destruct (translate_fills_tlb m va rnd) as (pa & mt & Ht & Hcs & Hmem & Htlb).
  rewrite Ht in H. rewrite <- Hcs in Hne.
  destruct (CacheSystem.check_hit (MMU.cache_system mt) pa) as [[[b level]|]|e]; [| |done].
  { rewrite Hd in H.
    destruct (CacheSystem.write_data h _ pa d) as [[[]|e] hx]; [|done].
    injection H as <- <- <-. done. }
  unfold Memory.get_block in H. rewrite py_mod_nonzero in H by done. simpl in H.
  set (l := fresh (dom h)) in *. set (h0 := <[l := Memory.block_data 16]> h) in *.
  destruct (CacheSystem.load_block h0 _ pa (PyDict l))
    as [[[]|e] cs'] eqn:Hload; [|done].
  simpl in H. rewrite Hd in H.
  destruct (CacheSystem.write_data h0 cs' pa d) as [[[]|e] h2] eqn:Hw; [|done].
  injection H as <- <- <-.
  destruct (write_data_levels _ _ _ _ _ Hw) as [_ Hall]. specialize (Hall _ _ _ Hload).
  assert (Hlv : exists c0 rest, CacheSystem.cache_levels cs' = c0 :: rest).
  { unfold CacheSystem.load_block in Hload.
    destruct (CacheSystem.load_levels h0 _ pa (PyDict l)) as [r cl] eqn:Hl.
    injection Hload as -> <-. simpl.
    destruct (load_levels_shape _ _ _ _ _ _ Hl) as [Hbs _].
    destruct (CacheSystem.cache_levels (MMU.cache_system mt)) as [|c ls]; [done|].
    destruct cl as [|c0 rest]; [done|]. eauto. }
  destruct Hlv as (c0 & rest & Hlv).
  rewrite Hlv in Hall. inversion Hall as [|? ? Hr0 _]; subst.
  assert (Hh0 : SetAssociativeCache.check_hit c0 pa = Ok (true, SetAssociativeCache.level c0)).
  { destruct (read_data_ok_cell _ _ _ _ Hr0) as (l0 & off & Hc & _).
    by destruct (cell_resident c0 pa l0 off h2 d Hc) as (? & _). }
  eexists _, c0. split; [simpl; by rewrite Hlv|].
  unfold MMU.process_virtual_address.
  rewrite (translate_tlb_hit _ va rnd2 pa) by (simpl; exact Htlb). simpl.
  unfold CacheSystem.check_hit, CacheSystem.read_data. rewrite Hlv. simpl.
  rewrite Hh0. simpl. rewrite Hr0, Hd. simpl. done.
Qed.

Lemma read_after_write_miss_witness :
  let out := MMU.process_virtual_address small_mmu two_blocks 5 (PyInt 9) 99 in
  let res := ok_or (fst out) (MMU.mk_result PyNone true None PyNone) in
  let m1 := fst (snd out) in
  let h1 := snd (snd out) in
  is_none (PyInt 9) = false /\
  CacheSystem.cache_levels (MMU.cache_system small_mmu) <> [] /\
  out = (Ok res, (m1, h1)) /\
  MMU.cache_hit res = PyBool false /\
  exists res2 c0,
    head (CacheSystem.cache_levels (MMU.cache_system m1)) = Some c0 /\
    MMU.process_virtual_address m1 h1 5 PyNone 77
      = (Ok res2, (MMU.set_is_palt m1 false, h1)) /\
    MMU.data res2 = PyInt 9 /\
    MMU.cache_hit res2 = PyInt (SetAssociativeCache.level c0) /\
    MMU.page_fault res2 = false /\
    MMU.physical_address res2 = MMU.physical_address res.
Proof.
  intros out res m1 h1.
  assert (H1 : is_none (PyInt 9) = false) by reflexivity.
  assert (H2 : CacheSystem.cache_levels (MMU.cache_system small_mmu) <> []).
  { intros E. apply (f_equal length) in E. vm_compute in E. discriminate E. }
  assert (H3 : out = (Ok res, (m1, h1))) by reflexivity.
  assert (H4 : MMU.cache_hit res = PyBool false) by reflexivity.
  split; [exact H1|]. split; [exact H2|]. split; [exact H3|]. split; [exact H4|].
  exact (read_after_write_miss small_mmu m1 two_blocks h1 5 99 77 (PyInt 9) res H1 H2 H3 H4).
Defined.

End MmuMore.

(** ** The LRU test cache: one access *)

Section LruTestMore.

(** X26. One [access_cache] call of the LRU test cache that returns: it
    reports a hit exactly when the address's tag was in its set; afterwards
    the tag is in the set; a hit leaves the set's tags as they were, a miss
    with room adds only the tag, and a set within its [n] ways stays within
    them; [n] and every other set are unchanged. *)
Theorem access_cache_outcome (c c' : LruTest.t) (x idx : Z) cset uset (b : bool) :
  lru_set_at c idx cset uset ->
  LruTest._get_set_index c x = Ok idx ->
  LruTest.access_cache c x = (Ok b, c') ->
  let tag := Z.shiftr x (bit_length idx + bit_length (LruTest.block_size c) - 1) in
  (b = true <-> is_Some (cset !! tag)) /\
  exists cset' uset',
    lru_set_at c' idx cset' uset' /\
    is_Some (cset' !! tag) /\
    (b = true -> cset' = cset) /\
    (b = false -> Z.of_nat (size cset) < LruTest.n c -> cset' = <[tag := true]> cset) /\
    (Z.of_nat (size cset) <= LruTest.n c -> Z.of_nat (size cset') <= LruTest.n c) /\
    LruTest.n c' = LruTest.n c /\
    (forall j, j <> Z.to_nat idx -> LruTest.cache c' !! j = LruTest.cache c !! j).
Proof.
  intros Hat Hidx H tag. pose proof Hat as (Hr & Hl & Hb & Hc & Hu).
  rewrite (access_cache_at c x idx cset uset Hidx Hr Hl Hb Hc Hu) in H. cbv zeta in H.
  fold tag in H. destruct (cset !! tag) as [v|] eqn:Htag.
  - injection H as <- <-. split; [by split; eauto|].
    exists cset, (OrderedDict.setitem uset tag (LruTest.max_value uset + 1)).
    split. { pose proof (lru_set_at_update c idx cset uset cset
                           (OrderedDict.setitem uset tag (LruTest.max_value uset + 1)) Hat) as Hup.
             unfold lru_set_at in *. simpl in *. rewrite length_insert in *.
             destruct Hup as (? & ? & ? & _ & ?). repeat split; try done; lia. }
    split; [eauto|]. split; [done|]. split; [done|]. split; [done|]. split; [done|]. done.
  - destruct (Z.ltb_spec (Z.of_nat (size cset)) (LruTest.n c)) as [Hroom|Hfull].
    + injection H as <- <-. split; [split; [done | by intros [? ?]]|].
      eexists _, _. split; [eapply lru_set_at_update; exact Hat|].
      split; [rewrite lookup_insert_eq; eauto|]. split; [done|]. split; [done|].
      split; [intros _; rewrite map_size_insert_None by done; lia|]. split; [done|].
      intros j Hj. simpl. by rewrite list_lookup_insert_ne.
    + destruct (LruTest.min_key uset) as [lru|] eqn:Hmin; [|done].
      destruct (cset !! lru) as [v|] eqn:Hlru; [|done].
      injection H as <- <-. split; [split; [done | by intros [? ?]]|].
      eexists _, _. split; [eapply lru_set_at_update; exact Hat|].
      split; [rewrite lookup_insert_eq; eauto|]. split; [done|]. split; [intros _ ?; lia|].
      split. { intros Hle. assert (lru <> tag) by congruence.
               rewrite map_size_insert_None by (by rewrite lookup_delete_ne).
               rewrite map_size_delete_Some by eauto.
               assert (size cset <> 0%nat); [|lia].
               intros E. apply map_size_empty_inv in E. subst cset. by rewrite lookup_empty in Hlru. }
      split; [done|]. intros j Hj. simpl. by rewrite list_lookup_insert_ne.
Qed.

Lemma access_cache_outcome_witness :
  let c' := snd (LruTest.access_cache lru_fresh 268435456) in
  lru_set_at lru_fresh 0 ∅ [] /\
  LruTest._get_set_index lru_fresh 268435456 = Ok 0 /\
  LruTest.access_cache lru_fresh 268435456 = (Ok false, c') /\
  exists cset' uset',
    lru_set_at c' 0 cset' uset' /\
    cset' = <[Z.shiftr 268435456 (bit_length 0 + bit_length (LruTest.block_size lru_fresh) - 1)
              := true]> ∅.
Proof.
  intros c'.
  assert (H1 : lru_set_at lru_fresh 0 ∅ []).
  { unfold lru_set_at. split; [vm_compute; split; [discriminate | reflexivity]|].
    split; [reflexivity|]. split; [reflexivity|]. split; reflexivity. }
  assert (H2 : LruTest._get_set_index lru_fresh 268435456 = Ok 0) by reflexivity.
  assert (H3 : LruTest.access_cache lru_fresh 268435456 = (Ok false, c')) by reflexivity.
  split; [exact H1|]. split; [exact H2|]. split; [exact H3|].
  destruct (access_cache_outcome lru_fresh c' 268435456 0 ∅ [] false H1 H2 H3)
    as (_ & cset' & uset' & Hat & _ & _ & Hmiss & _).
  exists cset', uset'. split; [exact Hat|].
  apply Hmiss; [reflexivity | vm_compute; reflexivity].
Defined.

(** The test of the source: the default eight addresses on 2048-byte caches
    with 64-byte blocks, 2-way and 4-way. *)
Example lru_test_vectors :
  fst (test_lru_effectiveness (ok_or (LruTest.__init__ 2048 64 2) lru_fresh) None)
    = Ok [false; false; false; false; false; false; false; false] /\
  LruTest.__init__ 2048 64 4 <> Raise ZeroDivisionError /\
  fst (test_lru_effectiveness (ok_or (LruTest.__init__ 2048 64 4) lru_fresh) (Some []))
    = Ok [false; false; false; false; true; true; false; true].
Proof. split; [vm_compute; reflexivity|]. split; [done|]. vm_compute; reflexivity. Qed.
End LruTestMore.
